(* ===== verification/_CoqProject ===== *)
-Q . S2P
Prelude.v
PyValue.v
PyInt.v
Counter.v
Crawler.v
CrawlLog.v
Histogram.v
Analyzer.v
Viewer.v
Loader.v
TypeInspector.v
Cli.v
