(* ===== verification/Prelude.v ===== *)
(** * A verification development of civitai-research

    The repository is a small crawl-then-curate toolkit for the image
    catalogue API of civitai.com: five independent Python scripts under
    [src/src/].  They share no memory; they communicate through files.
    The crawler writes one JSON page per request into the data directory,
    the viewer reads those pages (or one file), lets an operator step
    through the images and appends chosen items to the selection file
    [selected_datas.json], and the analyzer reads a JSON file (by default
    the selection file) and counts base models and resources.  The
    histogram helper is called by the analyzer and the viewer; the type
    inspector is a stand-alone tool.

    ** Files, in dependency order

    - [Prelude.v] (this file): the [result] type of fallible code with the
      bind notation [x <- c ;; k] in [py_scope]; [fold_res] and [map_res],
      the loop and map of a Python [for] whose body may raise; the tactics
      [inv_ok] and [simpl_res]; the hint databases [civitai] and
      [civitai_rw]; shared lemmas on folds, buckets ([sum_buckets]),
      index clamping ([clamp_next], [clamp_prev]), lists and strings.
    - [PyValue.v]: [pyval], the values [json.load] produces (with a nested
      induction principle [pyval_ind]), the exceptions [exc], and the
      built-in operations the scripts use: truthiness, [dict.get], [d[k]],
      [d[k] = v], [in], iteration, [len], slicing, [+], [-], and the key
      equality of [dict] ([hkey], [key_eq]: [True == 1 == 1.0]).
    - [PyInt.v]: [str.strip()] and [str.isdigit()] on ASCII, Python's
      [int(s)] ([py_int_of_string]) and [str(n)] ([show_Z]) with the
      round trip [int(str(n)) == n] ([py_int_show]).
    - [Counter.v]: the interface [FreqTable] / [FreqTableSpec] (a class of
      operations and a class of laws) and its implementation
      [Counter.t], CPython's insertion-ordered dict of counts; the
      setoid [Counter.equiv] (Python [==] on Counters) with its
      [Equivalence] and [Proper] instances.
    - [Crawler.v] ([crawl_civitai.py]): [save_json], which fails when the
      directory of the file ([dirname]) does not exist; [crawl_images] on
      one response ([next_of_page] reads the saved page); [iteration] (one
      pass of the [for]/[try]/[except] of [run]), [run_loop] and [run].
      The state [cstate] holds the local [cursor], the file store
      [gmap string pyval] and the requests sent; the network is a function
      from the request index and the request to the response ([Section
      Crawl], variables [data_dir], [dir_exists] and [net]).
    - [CrawlLog.v] ([crawl_civitai.py]'s [logger]): the records the
      module logs ([level], [record], the f-string messages), and
      [crawl_images_logged], [iteration_logged], [run_loop_logged] and
      [run_logged], the walk with its log as a field of the state
      [lstate]; [run_logged_proj] relates it to [run].
    - [Histogram.v] ([visualize.py]): [dropna], numpy's histogram with
      uniform bins in exact rational arithmetic ([outer_edges],
      [bin_index], [hist_counts], [np_histogram]) and [make_histogram].
    - [Analyzer.v] ([analyze_json.py]): the counting loop of [main]
      ([count_item], [count_all]) written against [FreqTable] and proved
      against its laws ([Section CountingProofs]); [main_counts] is its
      instance at [Counter.t].  The menu loop of [interact_with_df]
      ([print_menu], [get_count_filter]) is [interact_loop], structural
      on the lines typed, in a [mode] that says which [input()] reads the
      next line; [frames] are the four DataFrames of [main] as lists of
      (key, count) rows; [analyze_main] is [main] on a parsed document.
    - [Viewer.v] ([viewer.py]): [calc_custom_score]; the selection file
      ([file], [load_selection], [append_item], [write_selection],
      [save_selected]); the panel
      ([get_image_info], [prompt_line]), [url_to_image], [draw_summary],
      [render]; the curator loop [show_images_with_summary] as
      [try_block] / [viewer_step] / [run_viewer] on [vstate] (index, the
      local [row], the selection file) and a stream of key codes; the
      abstract curator of the specification ([cmd], [astate], [astep])
      and the representation relation [vrel]; the reachability relation
      [vreach].
    - [Loader.v] ([viewer.py], [load_and_summarize] and [__main__]): the
      [glob] of the data directory over the crawler's file store
      ([glob_match]), [load_items], the DataFrame of the items ([frame],
      [data_frame], [get_column], [set_column]), [value_counts],
      [summarize_resources]; [df.sort_values] as the class [SortValues]
      with its contract [SortValuesSpec] (pandas' sort is not stable) and
      the instance [merge_sort_values]; [load_and_summarize] and
      [viewer_main], which feeds the sorted rows to the curator loop.
    - [TypeInspector.v] ([show_json_types.py]): [print_types], structural
      on the JSON value.
    - [Cli.v] (the four [__main__] blocks): [argparse]'s [parse_args] as
      Python 3.11 runs it on the parsers the scripts declare.  Each
      argument is classified first ([parse_optional]: exact flags,
      [flag=value], unique abbreviations, short flags with an attached
      value, negative numbers, everything after ["--"] positional), then
      [parse_loop] consumes the classified arguments in order on a
      [pstate] (namespace, positionals still to fill, unrecognised
      arguments seen), with [take_action] for [store], [store_true] and
      [help], [convert] for [type=int] ([py_int_of_string], Python's
      [int()]) and [choices].  Errors are [SystemExit 2], [-h] is
      [SystemExit 0].  [crawl_parser], [analyze_parser], [viewer_parser]
      and [types_parser] are the scripts' [add_argument] calls;
      [crawl_main], [analyze_cli], [viewer_cli] and [types_cli] run the
      models above on the attributes parsed.

    The pipeline of the specification is the composition of these
    models: [Crawler.run] fills a [store] that [Loader.load_items] reads,
    and [Loader.viewer_main] runs [Viewer.show_images_with_summary] on the
    frame [Loader.load_and_summarize] builds; the command lines of
    [Cli.v] choose the arguments of [run], [main], [viewer_main] and
    [print_types].

    ** What is proved (properties C1-C40 of PROJECT.json)

    - Crawler: the requests of a walk form a cursor chain (C1); at most
      [depth] requests (C8); a walk stops after [depth] requests or at the
      end of the stream (C9); every file written is a raw successful
      response under its cursor's name (C16); an HTTP error retries the
      same cursor (C17); a page whose file cannot be opened ends the walk
      with [FileNotFoundError] (C28); a non-JSON body escapes [run] (C33);
      the next cursor of a page is [nextCursor.split("|")][0], and a
      missing or empty one ends the walk (C10).
    - Crawler's log: [run] is the logged walk with its log forgotten
      (the lemma [run_logged_proj]), so the properties above hold of the
      script with its logging; one request record per request sent (C19); one error record per
      response whose status is not 200, and no other error record (C18);
      a walk that ends early ends with the end-of-stream record (C34).
    - Crawl then view: every item the viewer loads after a crawl comes
      from a successful response (C5); the viewer's pattern finds a
      page exactly when its cursor has no path separator (C27).
    - Loader: for any sort meeting pandas' contract, the frame is
      rectangular, one row per item, scored by [calc_custom_score] and
      sorted (C6); [__main__] always reaches the curator once loading
      succeeds (C26); no [stats] key anywhere, an empty directory
      included, raises [KeyError] (C30).
    - Counter and Analyzer: [Counter] refines multiplicities (C7) and
      raises [TypeError] at the first unhashable key (C29); the four
      tables of [main] count exactly the keys the code reads (C4), with
      totals (C22), and do not depend on the order of the items (C35);
      one round of the menu prints the frame chosen, filtered by the
      [int] of the threshold typed, or re-asks (C23), and the loop ends
      only at the exit choice or at the end of input (C24).
    - Viewer: the key handling refines the abstract curator, except that
      a save into a missing selection directory raises
      [FileNotFoundError] and enters the [except] block (C2); saving
      is append-only and round-trips (C3); the file repair invariant
      (C13) and its failure on non-object JSON (C32); the index stays
      valid (C11); the loop stops on every finite key stream (C12); on a
      row that fails to render only "a" and "q" work (C21), so a single
      such row can never be quit (C20); the like score fails exactly on
      non-numeric counts, and only with [TypeError] (C31); the top-level resource count of the
      panel (C40).
    - Command lines: for a well-formed parser ([parser_wf], checked by
      [parser_wfb] for the four scripts' parsers) every attribute of a
      parsed namespace has its declared type within its choices (C14); a
      typed namespace printed back as a command line ([render_argv]) is
      parsed to the same values (C15), using [int(str(n)) == n]
      ([py_int_show]); the crawler's entry point calls [run]
      with the parsed [int]s and [bool] whenever parsing succeeds (C25).
    - Histogram and type inspector: no division by zero and one row per
      bin (C36), bars bounded by [width] (C37), counts adding up to the
      non-missing values (C38); indentation bounded by [max_depth] (C39).

    Lemmas that are not among the properties are proved too, among them:
    [Counter.incr_wf] (the well-formedness of a [Counter]), the
    [Proper] instance [mult_proper] (multiplicities ignore order),
    [CrawlLog.run_logged_proj],
    [Viewer.calc_custom_score_ints], [Crawler.split_first_prefix], the
    behaviour of [crawl_images] on each kind of response, and the
    example [CrawlLog.demo_log] of a whole log.

    ** Fuel and bounds

    The crawler's loop is bounded by [depth] itself ([range(depth)]), so
    [run_loop] is structural on [Z.to_nat depth].  The curator's
    [while True] loop is [run_viewer], bounded by a fuel argument;
    [show_images_with_summary] gives it [S (length keys)], which is enough
    because every iteration that does not end the loop consumes at least
    one key ([viewer_step_consumes]); C12 proves that this fuel is never
    exhausted.  The analyzer's two [while True] loops read one line per
    round, so [interact_loop] is structural on the list of lines, whose
    end is [EOFError] as for [input()].  All other recursion is
    structural, [parse_loop] included (a step may consume two arguments,
    so its proofs use strong induction on the length,
    [list_len_ind]); [show_Z] is given
    [log2 n + 1] digits of fuel, enough since [n < 2 ^ (log2 n + 1)]
    ([show_fuel]).  Integers are Python's unbounded [int] ([Z], or [nat]
    where they cannot be negative); floats are exact rationals, so
    rounding of [np.histogram] and of [int(w * (2400 / h))] is not
    modelled, and [pyval] has [NaN] but no infinities: a JSON document
    with [Infinity] and float overflow are not modelled.

    ** Not modelled

    Printing, the logger's name and the record format of
    [logging.basicConfig] (the model keeps the level and the message of
    each record), the usage and help texts of [argparse] and its
    features the scripts do not use ([nargs], subparsers, [fromfile],
    other prefix characters); OpenCV drawing beyond the
    image size and the resize failure; the download and decoding of an
    image (a function of its URL); the network, a total function from
    the request to the response, so [requests.get] raising
    [ConnectionError] or [Timeout] (which [run] does not catch) is not
    modelled; the module [constant], which is not
    part of [src/] ([DATA_DIR] is a section variable); printing a
    [Counter] and [df.head()] in the menu loop.  Input lines are ASCII:
    [str.strip] and [str.isdigit] on other Unicode characters are not
    modelled.  Of pandas: DataFrames of items that are not records (the
    model raises), the conversion of integer columns with missing values
    to floats, and the count order of [value_counts]; the order of the
    directory, which [glob] keeps, is an argument. *)

From stdpp Require Export base list strings gmap.
From Stdlib Require Export ZArith QArith Lia.
Open Scope nat_scope.

Declare Scope py_scope.
Delimit Scope py_scope with py.
Open Scope py_scope.

Create HintDb civitai discriminated.
Create Rewrite HintDb civitai_rw.

(** ** Results of fallible code *)

(** A computation that either returns a value or raises an error. *)
Inductive result (E A : Type) : Type :=
| Ok (a : A)
| Err (e : E).
Arguments Ok {E A} a.
Arguments Err {E A} e.

Notation "x <- c1 ;; c2" :=
  (match c1 with Ok x => c2 | Err e => Err e end)
  (at level 100, c1 at next level, right associativity) : py_scope.

Definition res_map {E A B} (f : A -> B) (r : result E A) : result E B :=
  match r with Ok a => Ok (f a) | Err e => Err e end.

(** Left fold of a fallible step: the first error aborts the loop, as an
    exception raised inside a Python [for] loop does. *)
Fixpoint fold_res {E A B} (f : A -> B -> result E A) (acc : A) (l : list B)
  : result E A :=
  match l with
  | [] => Ok acc
  | x :: l' => acc' <- f acc x ;; fold_res f acc' l'
  end.

(** Map of a fallible function, aborting at the first error. *)
Fixpoint map_res {E A B} (f : A -> result E B) (l : list A) : result E (list B) :=
  match l with
  | [] => Ok []
  | x :: l' => y <- f x ;; ys <- map_res f l' ;; Ok (y :: ys)
  end.

Lemma bind_ok {E A B} (c : result E A) (k : A -> result E B) (b : B) :
  (x <- c ;; k x) = Ok b -> exists a, c = Ok a /\ k a = Ok b.
Proof. destruct c; [eauto | discriminate]. Qed.

Lemma fold_res_app {E A B} (f : A -> B -> result E A) acc l1 l2 :
  fold_res f acc (l1 ++ l2) = (acc' <- fold_res f acc l1 ;; fold_res f acc' l2).
Proof.
  revert acc; induction l1 as [|x l1 IH]; intros acc; simpl; [done|].
  destruct (f acc x); [apply IH | done].
Qed.

(** An invariant kept by every successful step is kept by the fold. *)
Lemma fold_res_inv {E A B} (P : A -> Prop) (f : A -> B -> result E A) acc l acc' :
  (forall a x a', P a -> f a x = Ok a' -> P a') ->
  P acc -> fold_res f acc l = Ok acc' -> P acc'.
Proof.
  intros Hstep; revert acc; induction l as [|x l IH]; intros acc Hacc; simpl.
  - by intros [= <-].
  - destruct (f acc x) eqn:Hf; [|discriminate]. eauto.
Qed.

(** A measure that every successful step raises by one is raised by the
    length of the list. *)
(** Induction on the length of a list, for loops that consume more than
    one element at a time. *)
Lemma list_len_ind {A} (P : list A -> Prop) :
  (forall l, (forall l', length l' < length l -> P l') -> P l) -> forall l, P l.
Proof.
  intros H l. remember (length l) as n eqn:Hn. revert l Hn.
  induction n as [n IH] using lt_wf_ind. intros l ->. apply H. intros l' Hl'. by apply (IH _ Hl').
Qed.

(** A function is injective on a list whose images are distinct. *)
Lemma NoDup_map_inj {A B} (f : A -> B) l x y :
  NoDup (map f l) -> In x l -> In y l -> f x = f y -> x = y.
Proof.
  induction l as [|z l IH]; simpl; [done|]. intros Hnd Hx Hy Hf.
  apply NoDup_cons in Hnd as [Hz Hnd].
  destruct Hx as [<-|Hx], Hy as [<-|Hy]; [done| | |by apply IH].
  - exfalso. apply Hz. rewrite Hf. apply list_elem_of_In, in_map, Hy.
  - exfalso. apply Hz. rewrite <- Hf. apply list_elem_of_In, in_map, Hx.
Qed.

(** An error of a bind comes from the computation or from its continuation. *)
Lemma bind_err {E A B} (c : result E A) (k : A -> result E B) e :
  (x <- c ;; k x) = Err e -> c = Err e \/ exists x, c = Ok x /\ k x = Err e.
Proof. destruct c as [x|e']; [right; by exists x | intros [= ->]; by left]. Qed.

(** An invariant of a fallible loop whose step may rely on the element coming from [l]. *)
Lemma fold_res_inv_in {E A B} (P : A -> Prop) (f : A -> B -> result E A) acc l acc' :
  (forall a x a', In x l -> P a -> f a x = Ok a' -> P a') ->
  P acc -> fold_res f acc l = Ok acc' -> P acc'.
Proof.
  revert acc; induction l as [|x l IH]; intros acc Hstep Hacc; simpl; [by intros [= <-]|].
  destruct (f acc x) as [a|] eqn:Hx; [|discriminate].
  apply IH; [intros b y b' Hy; apply Hstep; by right | eapply Hstep; eauto; by left].
Qed.

Lemma fold_res_measure {E A B} (m : A -> nat) (f : A -> B -> result E A) acc l acc' :
  (forall a x a', f a x = Ok a' -> m a' = S (m a)) ->
  fold_res f acc l = Ok acc' -> m acc' = m acc + length l.
Proof.
  intros Hstep; revert acc; induction l as [|x l IH]; intros acc; simpl.
  - intros [= <-]. lia.
  - destruct (f acc x) eqn:Hf; [|discriminate]. intros Hl.
    rewrite (IH _ Hl), (Hstep _ _ _ Hf). lia.
Qed.

(** The elements of a list on which a fold succeeded each passed a
    successful step. *)
Lemma fold_res_ok_Forall {E A B} (P : B -> Prop) (f : A -> B -> result E A) acc l acc' :
  (forall a x a', f a x = Ok a' -> P x) ->
  fold_res f acc l = Ok acc' -> Forall P l.
Proof.
  intros Hstep; revert acc; induction l as [|x l IH]; intros acc; simpl; [done|].
  destruct (f acc x) eqn:Hf; [|discriminate]. intros Hl.
  constructor; [eapply Hstep; eauto | eapply IH; eauto].
Qed.

Lemma map_res_length {E A B} (f : A -> result E B) l l' :
  map_res f l = Ok l' -> length l' = length l.
Proof.
  revert l'; induction l as [|x l IH]; intros l'; simpl; [by intros [= <-]|].
  destruct (f x); [|discriminate]. destruct (map_res f l); [|discriminate].
  intros [= <-]. simpl. by rewrite (IH _ eq_refl).
Qed.

(** A fallible map relates each element to its image. *)
Lemma map_res_Forall2 {E A B} (f : A -> result E B) l l' :
  map_res f l = Ok l' -> Forall2 (fun x y => f x = Ok y) l l'.
Proof.
  revert l'; induction l as [|x l IH]; intros l'; simpl; [by intros [= <-]|].
  destruct (f x) eqn:Hx; [|discriminate]. destruct (map_res f l) eqn:Hl; [|discriminate].
  intros [= <-]. constructor; [done | by apply IH].
Qed.

Lemma Forall2_zip_with_Forall {A B C} (P : A -> B -> Prop) (Q : C -> Prop)
    (f : A -> B -> C) l k :
  (forall x y, P x y -> Q (f x y)) -> Forall2 P l k -> Forall Q (zip_with f l k).
Proof. intros HPQ. induction 1; simpl; constructor; auto. Qed.

Lemma Forall_Forall2_len {A B} (P : A -> Prop) l (k : list B) :
  length l = length k -> Forall P l -> Forall2 (fun x _ => P x) l k.
Proof.
  revert k; induction l as [|x l IH]; intros [|y k] Hlen HP; simplify_eq/=; [done|].
  inversion HP; subst. constructor; auto.
Qed.

Lemma Forall2_map_l {A A' B} (f : A -> A') (P : A' -> B -> Prop) l k :
  Forall2 P (map f l) k -> Forall2 (fun x y => P (f x) y) l k.
Proof.
  revert k; induction l as [|x l IH]; intros k H; inversion H; subst; constructor; auto.
Qed.

(** A fallible map succeeds when the function succeeds on every element. *)
Lemma map_res_ok {E A B} (f : A -> result E B) l :
  Forall (fun x => exists y, f x = Ok y) l -> exists l', map_res f l = Ok l'.
Proof.
  induction 1 as [|x l [y Hy] _ [l' IH]]; simpl; [by eexists|].
  rewrite Hy, IH. by eexists.
Qed.

(** Every element of a successful fallible map is the image of the element
    at the same position. *)
Lemma map_res_lookup {E A B} (f : A -> result E B) l l' j y :
  map_res f l = Ok l' -> l' !! j = Some y -> exists x, l !! j = Some x /\ f x = Ok y.
Proof.
  revert l' j; induction l as [|x l IH]; intros l' j; simpl; [by intros [= <-]|].
  destruct (f x) eqn:Hx; [|discriminate]. destruct (map_res f l) eqn:Hl; [|discriminate].
  intros [= <-]. destruct j as [|j]; simpl; [intros [= <-]; eauto|]. by apply IH.
Qed.

(** Counting a list into [n] buckets by a function below [n] counts every
    element once. *)
Lemma sum_buckets {A} (f : A -> nat) n (xs : list A) :
  Forall (fun x => f x < n) xs ->
  sum_list_with (fun i => length (List.filter (fun x => Nat.eqb (f x) i) xs)) (seq 0 n) = length xs.
Proof.
  assert (forall x s m, sum_list_with (fun i => if Nat.eqb (f x) i then 1 else 0) (seq s m) =
                        if (s <=? f x) && (f x <? s + m) then 1 else 0) as Hone.
  { intros x s m. revert s. induction m as [|m IH]; intros s; simpl.
    - destruct (s <=? f x) eqn:?, (f x <? s + 0) eqn:?; simpl; try done.
      apply Nat.leb_le in Heqb. apply Nat.ltb_lt in Heqb0. lia.
    - rewrite IH. destruct (Nat.eqb_spec (f x) s), (Nat.leb_spec s (f x)),
        (Nat.ltb_spec (f x) (s + S m)), (Nat.leb_spec (S s) (f x)),
        (Nat.ltb_spec (f x) (S s + m)); simpl; lia. }
  induction 1 as [|x xs Hx _ IH]; simpl.
  - induction (seq 0 n); simpl; lia.
  - transitivity (sum_list_with (fun i => if Nat.eqb (f x) i then 1 else 0) (seq 0 n) +
                  sum_list_with (fun i => length (List.filter (fun y => Nat.eqb (f y) i) xs)) (seq 0 n)).
    + clear. induction (seq 0 n) as [|i l IHl]; simpl; [done|].
      destruct (Nat.eqb (f x) i); simpl; lia.
    + rewrite Hone, IH. destruct (Nat.leb_spec 0 (f x)), (Nat.ltb_spec (f x) (0 + n)); simpl; lia.
Qed.

(** Invert an [Ok] equation on a bind: name the intermediate result. *)
Ltac inv_ok :=
  repeat match goal with
  | H : Ok _ = Ok _ |- _ => injection H as H; subst
  | H : Err _ = Ok _ |- _ => discriminate H
  | H : Ok _ = Err _ |- _ => discriminate H
  | H : (match ?c with Ok _ => _ | Err _ => _ end) = Ok _ |- _ =>
      let E := fresh "E" in destruct c eqn:E; [|discriminate H]
  end.

(** Simplify the binds of the goal whose scrutinee is known. *)
Ltac simpl_res :=
  repeat match goal with
  | H : ?c = Ok _ |- context [match ?c with Ok _ => _ | Err _ => _ end] => rewrite H
  | H : ?c = Err _ |- context [match ?c with Ok _ => _ | Err _ => _ end] => rewrite H
  end; simpl.

(** ** Index clamping *)

(** [min(idx + 1, total - 1)] and [max(idx - 1, 0)] of [viewer.py],
    computed on Python integers ([Z]).  The index is stored as a [nat]:
    the result of [clamp_prev] is never negative, and the one of
    [clamp_next] is not when [total > 0], which holds whenever it is
    called, since a row [df.iloc[idx]] has then been read. *)
Definition clamp_next (i n : nat) : nat := Z.to_nat (Z.min (Z.of_nat i + 1) (Z.of_nat n - 1)).
Definition clamp_prev (i : nat) : nat := Z.to_nat (Z.max (Z.of_nat i - 1) 0).

Lemma clamp_next_lt (i n : nat) : i < n -> clamp_next i n < n.
Proof. unfold clamp_next. lia. Qed.

Lemma clamp_prev_le (i : nat) : clamp_prev i <= i.
Proof. unfold clamp_prev. lia. Qed.

Lemma clamp_prev_lt (i n : nat) : i < n -> clamp_prev i < n.
Proof. unfold clamp_prev. lia. Qed.

#[export] Hint Resolve clamp_next_lt clamp_prev_lt clamp_prev_le : civitai.

(** ** Lists *)

Lemma sum_list_with_app {A} (f : A -> nat) l1 l2 :
  sum_list_with f (l1 ++ l2) = sum_list_with f l1 + sum_list_with f l2.
Proof. induction l1; simpl; lia. Qed.

#[export] Hint Rewrite @sum_list_with_app : civitai_rw.

(** ** Strings *)

Lemma string_app_assoc (a b c : string) : (a +:+ b) +:+ c = a +:+ (b +:+ c).
Proof. induction a as [|ch a IH]; [done|]. exact (f_equal (String ch) IH). Qed.

Lemma string_app_nil_r (a : string) : a +:+ "" = a.
Proof. induction a as [|ch a IH]; [done|]. exact (f_equal (String ch) IH). Qed.

Lemma string_length_app (a b : string) :
  String.length (a +:+ b) = String.length a + String.length b.
Proof. induction a as [|ch a IH]; [done|]. exact (f_equal S IH). Qed.

Lemma string_prefix_app (a b : string) : String.prefix a (a +:+ b) = true.
Proof.
  induction a as [|ch a IH]; [by destruct b|]. simpl.
  destruct (Ascii.ascii_dec ch ch) as [_|[]]; [exact IH|reflexivity].
Qed.

#[export] Hint Rewrite string_app_assoc string_app_nil_r : civitai_rw.
