(* ===== verification/PyValue.v ===== *)
(** Python values as [json.load] produces them, the exceptions the scripts
    raise or catch, and the built-in operations the scripts apply to
    values: truthiness ([if x:]), [d.get(k, default)], [d[k]],
    [d[k] = v], [k in x], iteration, [len], slicing, [+] and [-], and the
    equality that [dict] and [collections.Counter] use on keys. *)

From S2P Require Import Prelude.

(** ** Values *)

(** A JSON document decoded by Python's [json] module: [null], booleans,
    [int] (unbounded, as Python's), [float] (an exact rational here: the
    scripts only add and compare them), [NaN] (which [json] accepts and
    [pandas] uses for a missing cell), strings, lists and objects.  An
    object keeps the insertion order of a Python [dict]. *)
Unset Elimination Schemes.
Inductive pyval : Type :=
| PNone
| PBool (b : bool)
| PInt (z : Z)
| PFloat (q : Q)
| PNaN
| PStr (s : string)
| PList (l : list pyval)
| PDict (kvs : list (string * pyval)).
Set Elimination Schemes.

(** The induction principle of the nested type, with the hypotheses on
    the elements of a list and on the values of an object. *)
Definition pyval_ind (P : pyval -> Prop)
    (fnone : P PNone) (fbool : forall b, P (PBool b)) (fint : forall z, P (PInt z))
    (ffloat : forall q, P (PFloat q)) (fnan : P PNaN) (fstr : forall s, P (PStr s))
    (flist : forall l, Forall P l -> P (PList l))
    (fdict : forall kvs, Forall (fun kv => P kv.2) kvs -> P (PDict kvs)) :
    forall v, P v :=
  fix F v :=
    match v with
    | PNone => fnone | PBool b => fbool b | PInt z => fint z
    | PFloat q => ffloat q | PNaN => fnan | PStr s => fstr s
    | PList l =>
        flist l ((fix G l : Forall P l :=
                    match l with
                    | [] => List.Forall_nil _
                    | x :: l' => List.Forall_cons _ x l' (F x) (G l')
                    end) l)
    | PDict kvs =>
        fdict kvs ((fix G kvs : Forall (fun kv => P kv.2) kvs :=
                      match kvs with
                      | [] => List.Forall_nil _
                      | kv :: kvs' => List.Forall_cons _ kv kvs' (F kv.2) (G kvs')
                      end) kvs)
    end.

(** ** Exceptions *)

(** The exceptions the scripts raise, catch or let escape. *)
Inductive exc : Type :=
| AttributeError            (** a method called on a value without it *)
| TypeError                 (** an operation on a value of the wrong type *)
| KeyError                  (** a missing key of a [dict] or a column *)
| IndexError                (** [df.iloc[i]] out of range *)
| ValueError                (** [raise ValueError("Image decode error")] *)
| JSONDecodeError           (** a body or a file that is not JSON *)
| FileNotFoundError         (** [open(path, "r")] of a missing file *)
| UnboundLocalError         (** a local variable read before assignment *)
| EOFError                  (** [input()] at the end of the input *)
| ZeroDivisionError         (** a division by zero *)
| CV2Error                  (** [cv2.error], e.g. resizing to width 0 *)
| HTTPError (status : Z)    (** [raise requests.HTTPError(...)] *)
| CursorNotFoundException   (** [raise CursorNotFoundException(...)] *)
| SystemExit (code : Z).    (** [sys.exit(code)], as [argparse] calls it *)

Abbreviation Py A := (result exc A).

(** ** Built-in operations *)

(** [type(v).__name__] *)
Definition type_name (v : pyval) : string :=
  match v with
  | PNone => "NoneType" | PBool _ => "bool" | PInt _ => "int"
  | PFloat _ | PNaN => "float" | PStr _ => "str" | PList _ => "list"
  | PDict _ => "dict"
  end.

(** [bool(v)]: what [if v:] and [not v] test. *)
Definition truthy (v : pyval) : bool :=
  match v with
  | PNone => false
  | PBool b => b
  | PInt z => negb (Z.eqb z 0)
  | PFloat q => negb (Qeq_bool q 0)
  | PNaN => true
  | PStr s => negb (String.eqb s "")
  | PList l => negb (bool_decide (l = []))
  | PDict kvs => negb (bool_decide (kvs = []))
  end.

(** Lookup of a key in the entries of a [dict]. *)
Fixpoint dict_lookup (k : string) (kvs : list (string * pyval)) : option pyval :=
  match kvs with
  | [] => None
  | (k', v) :: kvs' => if String.eqb k k' then Some v else dict_lookup k kvs'
  end.

(** [d[k] = v]: an existing key keeps its position, a new key goes last. *)
Fixpoint dict_set (k : string) (v : pyval) (kvs : list (string * pyval))
  : list (string * pyval) :=
  match kvs with
  | [] => [(k, v)]
  | (k', v') :: kvs' =>
      if String.eqb k k' then (k', v) :: kvs' else (k', v') :: dict_set k v kvs'
  end.

(** [o.get(k, d)]: only a [dict] has a [get] method. *)
Definition py_get (o : pyval) (k : string) (d : pyval) : Py pyval :=
  match o with
  | PDict kvs => Ok (default d (dict_lookup k kvs))
  | _ => Err AttributeError
  end.

(** [o[k]] with a string key. *)
Definition py_getitem (o : pyval) (k : string) : Py pyval :=
  match o with
  | PDict kvs => match dict_lookup k kvs with Some v => Ok v | None => Err KeyError end
  | _ => Err TypeError
  end.

(** [o[k] = v] with a string key, returning the updated object. *)
Definition py_setitem (o : pyval) (k : string) (v : pyval) : Py pyval :=
  match o with
  | PDict kvs => Ok (PDict (dict_set k v kvs))
  | _ => Err TypeError
  end.

(** [isinstance(v, dict)] and [isinstance(v, list)] *)
Definition is_dict (v : pyval) : bool := if v is PDict _ then true else false.
Definition is_list (v : pyval) : bool := if v is PList _ then true else false.

(** Numbers as the arithmetic of Python sees them: [bool] is a subclass
    of [int]. *)
Inductive num := NInt (z : Z) | NFloat (q : Q) | NNaN.

Definition to_num (v : pyval) : option num :=
  match v with
  | PBool b => Some (NInt (if b then 1 else 0)%Z)
  | PInt z => Some (NInt z)
  | PFloat q => Some (NFloat q)
  | PNaN => Some NNaN
  | _ => None
  end.

Definition of_num (n : num) : pyval :=
  match n with NInt z => PInt z | NFloat q => PFloat q | NNaN => PNaN end.

Definition num_to_Q (n : num) : option Q :=
  match n with NInt z => Some (inject_Z z) | NFloat q => Some q | NNaN => None end.

(** A binary operation on the numeric tower: [int] op [int] is an [int],
    an operand [float] makes a [float], [NaN] absorbs. *)
Definition num_binop (fz : Z -> Z -> Z) (fq : Q -> Q -> Q) (a b : num) : num :=
  match a, b with
  | NInt x, NInt y => NInt (fz x y)
  | NNaN, _ | _, NNaN => NNaN
  | NInt x, NFloat y => NFloat (fq (inject_Z x) y)
  | NFloat x, NInt y => NFloat (fq x (inject_Z y))
  | NFloat x, NFloat y => NFloat (fq x y)
  end.

(** [a + b]: numbers add, strings and lists concatenate. *)
Definition py_add (a b : pyval) : Py pyval :=
  match to_num a, to_num b with
  | Some x, Some y => Ok (of_num (num_binop Z.add Qplus x y))
  | _, _ =>
      match a, b with
      | PStr s, PStr t => Ok (PStr (s ++ t))
      | PList l, PList m => Ok (PList (l ++ m))
      | _, _ => Err TypeError
      end
  end.

(** [a - b]: only numbers subtract. *)
Definition py_sub (a b : pyval) : Py pyval :=
  match to_num a, to_num b with
  | Some x, Some y => Ok (of_num (num_binop Z.sub Qminus x y))
  | _, _ => Err TypeError
  end.

(** [len(v)] *)
Definition py_len (v : pyval) : Py nat :=
  match v with
  | PStr s => Ok (String.length s)
  | PList l => Ok (length l)
  | PDict kvs => Ok (length kvs)
  | _ => Err TypeError
  end.

(** The characters of a string, each as a one-character string. *)
Fixpoint str_chars (s : string) : list pyval :=
  match s with
  | EmptyString => []
  | String c s' => PStr (String c EmptyString) :: str_chars s'
  end.

(** [for x in v]: a list yields its elements, a [dict] its keys, a string
    its characters; anything else is not iterable. *)
Definition py_iter (v : pyval) : Py (list pyval) :=
  match v with
  | PList l => Ok l
  | PDict kvs => Ok (map (fun kv => PStr kv.1) kvs)
  | PStr s => Ok (str_chars s)
  | _ => Err TypeError
  end.

(** [v[:n]]: a prefix of a string or a list. *)
Definition py_prefix (n : nat) (v : pyval) : Py pyval :=
  match v with
  | PStr s => Ok (PStr (String.substring 0 n s))
  | PList l => Ok (PList (take n l))
  | _ => Err TypeError
  end.

(** ** Keys of [dict] and [Counter] *)

(** The part of a hashable value a [dict] compares keys on: numbers by
    value ([True == 1 == 1.0]), strings by contents, [None] with itself.
    [NaN] is a key equal to itself: [json] decodes every [NaN] to one
    shared float object and a [dict] compares keys by identity first.
    Lists and objects are unhashable. *)
Inductive hkey := HNone | HNaN | HNum (q : Q) | HStr (s : string).

Definition hkey_of (v : pyval) : option hkey :=
  match v with
  | PNone => Some HNone
  | PNaN => Some HNaN
  | PBool b => Some (HNum (if b then 1 else 0))
  | PInt z => Some (HNum (inject_Z z))
  | PFloat q => Some (HNum q)
  | PStr s => Some (HStr s)
  | PList _ | PDict _ => None
  end.

Definition hkey_eqb (a b : hkey) : bool :=
  match a, b with
  | HNone, HNone | HNaN, HNaN => true
  | HNum p, HNum q => Qeq_bool p q
  | HStr s, HStr t => String.eqb s t
  | _, _ => false
  end.

(** [hash(v)] succeeds. *)
Definition hashable (v : pyval) : bool := if hkey_of v is Some _ then true else false.

(** [a == b] between two keys of a [dict]. *)
Definition key_eq (a b : pyval) : bool :=
  match hkey_of a, hkey_of b with
  | Some x, Some y => hkey_eqb x y
  | _, _ => false
  end.

(** [k in o] for a string [k]. *)
Definition py_contains (k : string) (o : pyval) : Py bool :=
  match o with
  | PDict kvs => Ok (bool_decide (is_Some (dict_lookup k kvs)))
  | PList l => Ok (existsb (key_eq (PStr k)) l)
  | PStr s => Ok (if String.index 0 k s is Some _ then true else false)
  | _ => Err TypeError
  end.

(** ** Lemmas *)

Lemma dict_lookup_set_eq k v kvs : dict_lookup k (dict_set k v kvs) = Some v.
Proof.
  induction kvs as [|[k' v'] kvs IH]; simpl; [by rewrite String.eqb_refl|].
  destruct (String.eqb_spec k k') as [->|Hne]; simpl.
  - by rewrite String.eqb_refl.
  - by rewrite (proj2 (String.eqb_neq k k') Hne).
Qed.

Lemma dict_lookup_set_ne k k' v kvs :
  k <> k' -> dict_lookup k' (dict_set k v kvs) = dict_lookup k' kvs.
Proof.
  intros Hne. induction kvs as [|[k0 v0] kvs IH]; simpl.
  - by rewrite (proj2 (String.eqb_neq k' k) (not_eq_sym Hne)).
  - destruct (String.eqb_spec k k0) as [->|Hne0]; simpl;
      destruct (String.eqb_spec k' k0); congruence.
Qed.

Lemma dict_set_keys k v kvs :
  is_Some (dict_lookup k kvs) -> map fst (dict_set k v kvs) = map fst kvs.
Proof.
  induction kvs as [|[k' v'] kvs IH]; simpl; [by intros []|].
  destruct (String.eqb_spec k k'); simpl; [done|]. intros H. by rewrite IH.
Qed.

(** In a dict with distinct keys an entry is what its key looks up. *)
Lemma dict_lookup_NoDup k v kvs :
  NoDup (map fst kvs) -> In (k, v) kvs -> dict_lookup k kvs = Some v.
Proof.
  induction kvs as [|[k' v'] kvs IH]; simpl; [done|]. intros Hnd Hin.
  apply NoDup_cons in Hnd as [Hk Hnd].
  destruct Hin as [[= -> ->]|Hin]; [by rewrite String.eqb_refl|].
  destruct (String.eqb_spec k k') as [->|]; [|by apply IH].
  exfalso. apply Hk. apply list_elem_of_In. change k' with (k', v).1. by apply in_map.
Qed.

(** The keys after [d[k] = v], whether [k] is new or not. *)
Lemma dict_set_keys_app k v kvs :
  map fst (dict_set k v kvs) =
  if existsb (String.eqb k) (map fst kvs) then map fst kvs else map fst kvs ++ [k].
Proof.
  induction kvs as [|[k' v'] kvs IH]; simpl; [done|].
  destruct (String.eqb_spec k k'); simpl; [done|]. rewrite IH. by destruct (existsb _ _).
Qed.

Lemma hkey_eqb_refl a : hkey_eqb a a = true.
Proof. destruct a; simpl; [done|done| apply Qeq_bool_refl | apply String.eqb_refl]. Qed.

Lemma hkey_eqb_sym a b : hkey_eqb a b = hkey_eqb b a.
Proof.
  destruct a, b; simpl; try done; [|apply String.eqb_sym].
  apply Bool.eq_iff_eq_true. rewrite !Qeq_bool_iff. split; intros; by symmetry.
Qed.

Lemma hkey_eqb_trans a b c : hkey_eqb a b = true -> hkey_eqb b c = true -> hkey_eqb a c = true.
Proof.
  destruct a, b, c; simpl; try done.
  - rewrite !Qeq_bool_iff. intros; by etrans.
  - by intros ->%String.eqb_eq ->%String.eqb_eq; apply String.eqb_refl.
Qed.

Lemma key_eq_refl a : hashable a = true -> key_eq a a = true.
Proof. unfold hashable, key_eq. destruct (hkey_of a); [|done]. intros _. apply hkey_eqb_refl. Qed.

Lemma key_eq_sym a b : key_eq a b = key_eq b a.
Proof. unfold key_eq. destruct (hkey_of a), (hkey_of b); try done. apply hkey_eqb_sym. Qed.

Lemma key_eq_trans a b c : key_eq a b = true -> key_eq b c = true -> key_eq a c = true.
Proof.
  unfold key_eq. destruct (hkey_of a), (hkey_of b), (hkey_of c); try done.
  apply hkey_eqb_trans.
Qed.

Lemma key_eq_hashable_l a b : key_eq a b = true -> hashable a = true.
Proof. unfold key_eq, hashable. by destruct (hkey_of a). Qed.

#[export] Hint Rewrite dict_lookup_set_eq : civitai_rw.
#[export] Hint Resolve dict_lookup_set_eq key_eq_refl key_eq_hashable_l : civitai.
