(* ===== verification/PyInt.v ===== *)
(** Python's text operations on integers and whitespace that several
    scripts share: [str.strip()] and [str.isdigit()] on ASCII (the menu
    of [analyze_json.py] reads its answers with them), [int(s)] in base
    10 (the [type=int] conversion of [argparse]) and [str(n)] (the
    decimal printing of an [int] in f-strings and log messages).  The
    round trip [int(str(n)) == n] ([py_int_show]) gives the injectivity
    of [str] on [int] ([show_Z_inj]). *)

From Stdlib Require Import Ascii.
From S2P Require Import Prelude.

(** ** [str.strip()] and [str.isdigit()] *)

(** [str.strip()] on ASCII whitespace. *)
Definition is_space (c : ascii) : bool :=
  existsb (Ascii.eqb c) [" "; "009"; "010"; "011"; "012"; "013"]%char.

Fixpoint drop_spaces (l : list ascii) : list ascii :=
  match l with c :: l' => if is_space c then drop_spaces l' else l | [] => [] end.

Definition strip (s : string) : string :=
  String.string_of_list_ascii
    (rev (drop_spaces (rev (drop_spaces (String.list_ascii_of_string s))))).

(** [str.isdigit()] on ASCII: a non-empty string of decimal digits. *)
Definition is_digit (c : ascii) : bool := (48 <=? nat_of_ascii c) && (nat_of_ascii c <=? 57).

Definition is_digits (s : string) : bool :=
  negb (String.eqb s "") && forallb is_digit (String.list_ascii_of_string s).

(** ** [int(s)] and [str(n)] *)

(** One character of the digits of [int(s)]: digits, and single
    underscores between digits. *)
Definition digit_step (st : option (Z * bool)) (c : ascii) : option (Z * bool) :=
  match st with
  | None => None
  | Some (acc, prev) =>
      if is_digit c then Some (10 * acc + Z.of_nat (nat_of_ascii c - 48), true)%Z
      else if Ascii.eqb c "_" && prev then Some (acc, false)
      else None
  end.

Definition digits_val (l : list ascii) : option Z :=
  match fold_left digit_step l (Some (0%Z, false)) with
  | Some (n, true) => Some n
  | _ => None
  end.

(** [int(s)] in base 10: surrounding whitespace, an optional sign, then
    digits; [None] where Python raises [ValueError]. *)
Definition py_int_of_string (s : string) : option Z :=
  match String.list_ascii_of_string (strip s) with
  | c :: l =>
      if Ascii.eqb c "+" then digits_val l
      else if Ascii.eqb c "-" then Z.opp <$> digits_val l
      else digits_val (c :: l)
  | [] => None
  end.

Definition digit_char (d : Z) : ascii := ascii_of_nat (48 + Z.to_nat d).
Arguments digit_char : simpl never.

(** The decimal digits of [n >= 0], least significant first. *)
Fixpoint digits_rev (fuel : nat) (n : Z) : list ascii :=
  match fuel with
  | O => []
  | S f => if (n <? 10)%Z then [digit_char n] else digit_char (n mod 10) :: digits_rev f (n / 10)
  end.

(** [str(n)] of an [int]. *)
Definition show_Z (z : Z) : string :=
  let n := Z.abs z in
  let ds := String.string_of_list_ascii (rev (digits_rev (S (Z.to_nat (Z.log2 n))) n)) in
  if (z <? 0)%Z then ("-" ++ ds)%string else ds.

(** ** The round trip of [int] and [str] *)

Lemma digit_char_spec d :
  (0 <= d < 10)%Z ->
  is_digit (digit_char d) = true /\ Z.of_nat (nat_of_ascii (digit_char d) - 48) = d.
Proof.
  intros Hd. unfold digit_char, is_digit.
  rewrite Ascii.nat_ascii_embedding by lia.
  split; [apply andb_true_intro; split; apply Nat.leb_le; lia | lia].
Qed.

Lemma digit_not_space c : is_digit c = true -> is_space c = false.
Proof.
  intros Hd. destruct (is_space c) eqn:Hs; [|done].
  unfold is_space in Hs. apply existsb_exists in Hs as (c' & Hin & ->%Ascii.eqb_eq).
  repeat destruct Hin as [<-|Hin]; done.
Qed.

Lemma digits_rev_S f n :
  digits_rev (S f) n =
  if (n <? 10)%Z then [digit_char n] else digit_char (n mod 10) :: digits_rev f (n / 10).
Proof. reflexivity. Qed.

Lemma digits_rev_fold f n :
  (0 <= n < 10 ^ Z.of_nat (S f))%Z ->
  fold_left digit_step (rev (digits_rev (S f) n)) (Some (0%Z, false)) = Some (n, true) /\
  Forall (fun c => is_digit c = true) (digits_rev (S f) n).
Proof.
  revert n. induction f as [|f IH]; intros n Hn; rewrite digits_rev_S;
    destruct (Z.ltb_spec n 10) as [Hlt|Hge].
  1, 3: destruct (digit_char_spec n) as [Hd Hv]; [lia|];
    cbn [rev app fold_left digit_step]; rewrite Hd, Hv;
    split; [do 2 f_equal; lia | by constructor].
  - rewrite Z.pow_1_r in Hn. lia.
  - destruct (IH (n / 10)%Z) as [Hf Hall].
    { split; [apply Z.div_pos; lia|]. apply Z.div_lt_upper_bound; [lia|].
      rewrite Nat2Z.inj_succ, Z.pow_succ_r in Hn by lia. lia. }
    destruct (digit_char_spec (n mod 10)) as [Hd Hv]; [apply Z.mod_pos_bound; lia|].
    cbn [rev]. rewrite fold_left_app, Hf. cbn [fold_left digit_step]. rewrite Hd, Hv.
    split; [|by constructor]. do 2 f_equal. pose proof (Z.div_mod n 10). lia.
Qed.

(** The fuel of [show_Z] is enough: [n < 2 ^ (log2 n + 1) <= 10 ^ (log2 n + 1)]. *)
Lemma show_fuel n : (0 <= n)%Z -> (n < 10 ^ Z.of_nat (S (Z.to_nat (Z.log2 n))))%Z.
Proof.
  intros Hn. rewrite Nat2Z.inj_succ, Z2Nat.id by apply Z.log2_nonneg.
  apply Z.lt_le_trans with (2 ^ Z.succ (Z.log2 n))%Z.
  - destruct (Z.eq_dec n 0) as [->|]; [done|]. apply Z.log2_spec. lia.
  - apply Z.pow_le_mono_l. split; [lia|]. lia.
Qed.

Lemma strip_id l :
  Forall (fun c => is_space c = false) l ->
  strip (String.string_of_list_ascii l) = String.string_of_list_ascii l.
Proof.
  intros Hl. unfold strip. rewrite String.list_ascii_of_string_of_list_ascii.
  assert (forall l, Forall (fun c => is_space c = false) l -> drop_spaces l = l) as Hd.
  { intros [|c l'] Hc; [done|]. inversion Hc; subst. simpl. by rewrite H1. }
  rewrite (Hd l Hl), Hd, rev_involutive; [done|]. by apply Forall_rev.
Qed.

Lemma digits_val_show n f :
  (0 <= n < 10 ^ Z.of_nat (S f))%Z ->
  exists c l, rev (digits_rev (S f) n) = c :: l /\ is_digit c = true /\
    digits_val (c :: l) = Some n /\ Forall (fun c => is_digit c = true) (c :: l).
Proof.
  intros Hn. destruct (digits_rev_fold f n Hn) as [Hf Hall]. apply Forall_rev in Hall.
  destruct (rev (digits_rev (S f) n)) as [|c l]; [cbn in Hf; congruence|].
  inversion Hall; subst. exists c, l. unfold digits_val. rewrite Hf. auto.
Qed.

Lemma digits_not_space l :
  Forall (fun c => is_digit c = true) l -> Forall (fun c => is_space c = false) l.
Proof. intros Hl. eapply Forall_impl; [exact Hl|]. apply digit_not_space. Qed.

(** [int(str(n)) == n]: the decimal printer and Python's [int] agree. *)
Lemma py_int_show z : py_int_of_string (show_Z z) = Some z.
Proof.
  unfold show_Z.
  destruct (digits_val_show (Z.abs z) (Z.to_nat (Z.log2 (Z.abs z))))
    as (c & l & -> & Hc & Hv & Hall); [split; [lia | apply show_fuel; lia]|].
  unfold py_int_of_string. destruct (Z.ltb_spec z 0).
  - change ("-" ++ String.string_of_list_ascii (c :: l))%string
      with (String.string_of_list_ascii ("-"%char :: c :: l)).
    rewrite strip_id, String.list_ascii_of_string_of_list_ascii
      by (constructor; [done | by apply digits_not_space]).
    cbn [Ascii.eqb]. simpl. rewrite Hv. simpl. f_equal. lia.
  - rewrite strip_id, String.list_ascii_of_string_of_list_ascii by by apply digits_not_space.
    destruct (Ascii.eqb_spec c "+") as [->|]; [discriminate Hc|].
    destruct (Ascii.eqb_spec c "-") as [->|]; [discriminate Hc|].
    rewrite Hv. f_equal. lia.
Qed.

(** [str] is injective on [int]. *)
Lemma show_Z_inj z z' : show_Z z = show_Z z' -> z = z'.
Proof. intros H. apply (f_equal py_int_of_string) in H. rewrite !py_int_show in H. congruence. Qed.
