(* ===== verification/Counter.v ===== *)
(** [collections.Counter], as [analyze_json.main] and
    [viewer.load_and_summarize] use it.

    The interface [FreqTable] and its laws [FreqTableSpec] say what a
    frequency table promises its clients: [c[k] += 1] raises [TypeError]
    on an unhashable key and otherwise adds one to the count of every key
    equal to [k]; a missing key counts 0.  Clients ([Analyzer.v]) prove
    their theorems against the laws.  [Counter] implements the interface
    the way CPython stores a [dict]: an association list in insertion
    order, where a new key is appended and an existing key keeps its
    place, which is the order [Counter.items()] and the [DataFrame] rows
    built from it have.  The refinement theorem [Counter.counts_get]
    relates a table built from a list of keys to the multiplicity of each
    key in that list. *)

From S2P Require Import Prelude PyValue.

(** ** The interface *)

Class FreqTable (T : Type) := {
  ft_empty : T;
  ft_incr : pyval -> T -> Py T;
  ft_get : T -> pyval -> nat;
  ft_total : T -> nat
}.

(** [c[k] += 1], [c[k]], [Counter()] and [sum(c.values())]. *)
Class FreqTableSpec (T : Type) `{FreqTable T} := {
  ft_get_empty k : ft_get ft_empty k = 0;
  ft_total_empty : ft_total ft_empty = 0;
  ft_incr_unhashable k c : hashable k = false -> ft_incr k c = Err TypeError;
  ft_incr_hashable k c : hashable k = true ->
    exists c', ft_incr k c = Ok c' /\ ft_total c' = S (ft_total c) /\
      forall k', ft_get c' k' = ft_get c k' + (if key_eq k k' then 1 else 0)
}.

(** The multiplicity of a key among a list of keys, as [==] sees it: the
    abstract content of a table. *)
Definition mult (ks : list pyval) (k : pyval) : nat := length (List.filter (key_eq k) ks).

(** [for k in ks: c[k] += 1] *)
Definition ft_count {T} `{FreqTable T} (c : T) (ks : list pyval) : Py T :=
  fold_res (fun c k => ft_incr k c) c ks.

(** ** The implementation *)

Module Counter.

(** The entries of the table, in insertion order. *)
Definition t := list (pyval * nat).

Definition empty : t := [].

(** The entry update of [c[k] += 1]: the first entry whose key equals
    [k] is bumped, else [(k, 1)] is appended. *)
Fixpoint bump (k : pyval) (c : t) : t :=
  match c with
  | [] => [(k, 1)]
  | (k', n) :: c' => if key_eq k k' then (k', S n) :: c' else (k', n) :: bump k c'
  end.

(** [c[k] += 1]: hashing the key comes first. *)
Definition incr (k : pyval) (c : t) : Py t :=
  if hashable k then Ok (bump k c) else Err TypeError.

(** [c[k]]: [Counter.__missing__] answers 0. *)
Fixpoint get (c : t) (k : pyval) : nat :=
  match c with
  | [] => 0
  | (k', n) :: c' => if key_eq k k' then n else get c' k
  end.

(** [sum(c.values())] *)
Definition total (c : t) : nat := sum_list_with snd c.

(** [c.items()] *)
Definition items (c : t) : list (pyval * nat) := c.

(** [for k in ks: c[k] += 1] from [Counter()]. *)
Definition counts (ks : list pyval) : Py t := fold_res (fun c k => incr k c) empty ks.

(** No two keys of [ks] are equal. *)
Fixpoint nodup_keys (ks : list pyval) : bool :=
  match ks with
  | [] => true
  | k :: ks' => forallb (fun k' => negb (key_eq k k')) ks' && nodup_keys ks'
  end.

(** The invariant of a table built by [+= 1]: distinct hashable keys
    with positive counts. *)
Definition wf (c : t) : bool :=
  nodup_keys (map fst c) && forallb (fun kn => hashable kn.1 && negb (Nat.eqb kn.2 0)) c.

(** Two tables are [==] as [Counter]s: every key has the same count. *)
Definition equiv (c1 c2 : t) : Prop := forall k, get c1 k = get c2 k.

End Counter.

#[export] Instance counter_freq_table : FreqTable Counter.t := {
  ft_empty := Counter.empty;
  ft_incr := Counter.incr;
  ft_get := Counter.get;
  ft_total := Counter.total
}.

(** ** Laws of the implementation *)

Module CounterFacts.
Import Counter.

Lemma get_bump k k' c : get (bump k c) k' = get c k' + (if key_eq k k' then 1 else 0).
Proof.
  induction c as [|[k1 n] c IH]; simpl.
  - rewrite key_eq_sym. by destruct (key_eq k k').
  - destruct (key_eq k k1) eqn:H1; simpl.
    + destruct (key_eq k' k1) eqn:H2.
      * assert (key_eq k k' = true) as ->; [|lia].
        eapply key_eq_trans; [exact H1|]. by rewrite key_eq_sym.
      * assert (key_eq k k' = false) as ->; [|lia].
        destruct (key_eq k k') eqn:H3; [|done].
        rewrite key_eq_sym in H3. rewrite <- H2. symmetry.
        by erewrite (key_eq_trans _ _ _ H3 H1).
    + rewrite IH. destruct (key_eq k' k1) eqn:H2; [|done].
      assert (key_eq k k' = false) as ->; [|lia].
      destruct (key_eq k k') eqn:H3; [|done].
      rewrite <- H1. symmetry. by erewrite (key_eq_trans _ _ _ H3 H2).
Qed.

Lemma total_bump k c : total (bump k c) = S (total c).
Proof.
  unfold total. induction c as [|[k1 n] c IH]; simpl; [done|].
  destruct (key_eq k k1); simpl; lia.
Qed.

Lemma keys_bump k c :
  map fst (bump k c) =
  if existsb (key_eq k) (map fst c) then map fst c else map fst c ++ [k].
Proof.
  induction c as [|[k1 n] c IH]; simpl; [done|].
  destruct (key_eq k k1); simpl; [done|]. rewrite IH. by destruct (existsb _ _).
Qed.

Lemma nodup_keys_snoc ks k :
  nodup_keys ks = true -> existsb (key_eq k) ks = false -> nodup_keys (ks ++ [k]) = true.
Proof.
  induction ks as [|k1 ks IH]; simpl; [done|].
  intros [Hall Hnd]%andb_prop [Hk1 Hks]%Bool.orb_false_elim.
  rewrite forallb_app, Hall, IH by done. simpl. by rewrite key_eq_sym, Hk1.
Qed.

Lemma counts_bump_positive k c :
  forallb (fun kn => hashable kn.1 && negb (Nat.eqb kn.2 0)) c = true -> hashable k = true ->
  forallb (fun kn => hashable kn.1 && negb (Nat.eqb kn.2 0)) (bump k c) = true.
Proof.
  intros Hc Hk. induction c as [|[k1 n] c IH]; simpl in *; [by rewrite Hk|].
  apply andb_prop in Hc as [Hkn Hc].
  destruct (key_eq k k1); simpl.
  - apply andb_prop in Hkn as [-> _]. by rewrite Hc.
  - rewrite Hkn. by apply IH.
Qed.

#[global] Instance equiv_equivalence : Equivalence equiv.
Proof.
  split; [intros c k; done | intros c1 c2 H k; by rewrite H
         | intros c1 c2 c3 H1 H2 k; by rewrite H1, H2].
Qed.

#[global] Instance bump_proper : Proper (eq ==> equiv ==> equiv) bump.
Proof. intros k ? <- c1 c2 Hc k'. by rewrite !get_bump, Hc. Qed.

End CounterFacts.

#[export] Instance counter_freq_table_spec : FreqTableSpec Counter.t.
Proof.
  split; [done | done | |].
  - intros k c Hk. simpl. unfold Counter.incr. by rewrite Hk.
  - intros k c Hk. simpl. unfold Counter.incr. rewrite Hk.
    eexists; split; [done|]. split; [apply CounterFacts.total_bump|].
    intros k'. apply CounterFacts.get_bump.
Qed.

(** ** What a client of the interface can rely on *)

Section Client.
Context `{FreqTableSpec T}.

Lemma mult_cons k ks k' : mult (k :: ks) k' = (if key_eq k k' then 1 else 0) + mult ks k'.
Proof. unfold mult. simpl. rewrite (key_eq_sym k' k). by destruct (key_eq k k'). Qed.

(** Counting hashable keys adds their multiplicities and their number. *)
Lemma ft_count_hashable (c : T) ks :
  Forall (fun k => hashable k = true) ks ->
  exists c', ft_count c ks = Ok c' /\ ft_total c' = ft_total c + length ks /\
    forall k', ft_get c' k' = ft_get c k' + mult ks k'.
Proof.
  revert c. induction ks as [|k ks IH]; intros c Hks; simpl.
  - exists c. split; [done|]. split; [lia|]. intros k'. unfold mult. simpl. lia.
  - apply Forall_cons_1 in Hks as [Hk Hks].
    destruct (ft_incr_hashable k c Hk) as (c1 & Hc1 & Ht1 & Hg1).
    unfold ft_count in *. simpl. rewrite Hc1.
    destruct (IH c1 Hks) as (c' & Hc' & Ht' & Hg'). exists c'.
    split; [done|]. split; [lia|]. intros k'. rewrite Hg', Hg1, mult_cons. lia.
Qed.

(** Counting raises [TypeError] at the first unhashable key. *)
Lemma ft_count_unhashable (c : T) ks1 k ks2 :
  Forall (fun k => hashable k = true) ks1 -> hashable k = false ->
  ft_count c (ks1 ++ k :: ks2) = Err TypeError.
Proof.
  intros Hks1 Hk. destruct (ft_count_hashable c ks1 Hks1) as (c1 & Hc1 & _).
  unfold ft_count in *. rewrite fold_res_app, Hc1. simpl. by rewrite ft_incr_unhashable.
Qed.

End Client.

(** ** Properties of [Counter] *)

Section CounterProps.
Import Counter CounterFacts.

Lemma counts_ft ks : counts ks = ft_count ft_empty ks.
Proof. reflexivity. Qed.

Lemma counts_ok_hashable ks c : counts ks = Ok c -> Forall (fun k => hashable k = true) ks.
Proof.
  unfold counts. generalize empty. induction ks as [|k ks IH]; intros c0 H; simpl in *; [done|].
  unfold incr in H at 1. destruct (hashable k) eqn:Hk; [|discriminate].
  constructor; [done|]. eapply IH; exact H.
Qed.

Lemma mult_perm ks ks' k : ks ≡ₚ ks' -> mult ks k = mult ks' k.
Proof.
  induction 1 as [|x l l' _ IH|x y l|l l' l'' _ IH1 _ IH2]; rewrite ?mult_cons; try lia.
Qed.

(** C7: [Counter] refines the multiplicity function: counting hashable
    keys succeeds, each key's count is the number of keys of the list
    equal to it, and the counts add up to the length of the list. *)
Theorem counts_mult ks :
  Forall (fun k => hashable k = true) ks ->
  exists c, counts ks = Ok c /\ (forall k, get c k = mult ks k) /\ total c = length ks.
Proof.
  intros Hks. rewrite counts_ft.
  destruct (ft_count_hashable ft_empty ks Hks) as (c & Hc & Ht & Hg).
  exists c. split; [done|]. split; [intros k; apply Hg | apply Ht].
Qed.

(** C29: counting stops at the first unhashable key (a list or an
    object): [c[k] += 1] raises [TypeError] there, whatever follows it,
    after hashable keys only. *)
Theorem counts_unhashable ks1 k ks2 :
  Forall (fun k => hashable k = true) ks1 -> hashable k = false ->
  counts (ks1 ++ k :: ks2) = Err TypeError.
Proof. intros. rewrite counts_ft. by apply ft_count_unhashable. Qed.

(** [c[k] += 1] keeps the table well formed: distinct hashable keys
    with positive counts. *)
Theorem incr_wf k c c' : wf c = true -> incr k c = Ok c' -> wf c' = true.
Proof.
  unfold wf, incr. intros [Hnd Hpos]%andb_prop Hinc.
  destruct (hashable k) eqn:Hk; [|discriminate]. injection Hinc as <-.
  rewrite keys_bump, counts_bump_positive by done.
  destruct (existsb (key_eq k) (map fst c)) eqn:He; [by rewrite Hnd|].
  by rewrite nodup_keys_snoc.
Qed.

End CounterProps.

(** [mult] does not see the order of the keys. *)
#[export] Instance mult_proper : Proper ((≡ₚ) ==> (=) ==> (=)) mult.
Proof. intros ks ks' Hp k ? <-. by apply mult_perm. Qed.

(** ** Witnesses *)

Lemma counts_mult_witness :
  exists c, Counter.counts [PStr "SD1.5"; PStr "SD1.5"; PStr "SDXL"] = Ok c /\
    (forall k, Counter.get c k = mult [PStr "SD1.5"; PStr "SD1.5"; PStr "SDXL"] k) /\
    Counter.total c = 3.
Proof. apply counts_mult. repeat constructor. Defined.

Lemma counts_unhashable_witness :
  Counter.counts ([PStr "a"] ++ PList [PStr "b"] :: [PStr "c"]) = Err TypeError.
Proof. apply counts_unhashable; [repeat constructor | reflexivity]. Defined.

Lemma incr_wf_witness :
  Counter.wf (Counter.bump (PBool true) [(PInt 1, 1); (PStr "x", 2)]) = true.
Proof. apply (incr_wf (PBool true) [(PInt 1, 1); (PStr "x", 2)]); reflexivity. Defined.

