(* ===== verification/Crawler.v ===== *)
(** The crawler of [src/crawl_civitai.py]: the page fetcher [crawl_images]
    and the cursor walker [run].

    The effects are explicit: the files written by [save_json] form a
    store [gmap string pyval] from path to JSON document, and the network
    is a function [net] from the index of a request and the request to
    the response, so that a retried request may get a different answer.
    [open(fn, "w")] needs the directory of [fn]: the directories that
    exist are the predicate [dir_exists], so a cursor that puts a path
    separator into the file name can make [save_json] raise.
    An iteration of the [for _ in range(depth)] loop is [iteration]; its
    [try]/[except] decides whether the loop continues, breaks or lets an
    exception escape, and [run_loop] is the loop itself, bounded by
    [depth] as the source is.  The calls of [logger] are modelled in
    [CrawlLog.v], whose logged walk projects to [run]. *)

From Stdlib Require Import Ascii.
From S2P Require Import Prelude PyValue.

(** ** Data *)

(** The query of [requests.get(CIVITAI_URL, params={"cursor": cursor,
    **params})]; [requests] leaves out a parameter whose value is [None],
    so the first request carries no cursor. *)
Record request := mk_request {
  req_cursor : option string;
  req_limit : Z;
  req_nsfw : string
}.

(** A response: its status and its body, [None] when the body is not JSON
    ([resp.json()] raises). *)
Record response := mk_response {
  status_code : Z;
  body : option pyval
}.

(** The JSON files written so far, by path. *)
Abbreviation store := (gmap string pyval).

(** The state of the walker: the local [cursor] of [run], the files, and
    the requests sent so far, in order. *)
Record cstate := mk_cstate {
  cursor : option string;
  files : store;
  sent : list request
}.

(** How an iteration of the loop ends. *)
Inductive ctl := Continue | Break | Raise (e : exc).

(** ** Helpers *)

(** [s.split("|")[0]]: the part of [s] before the first separator. *)
Fixpoint split_first (sep : Ascii.ascii) (s : string) : string :=
  match s with
  | EmptyString => EmptyString
  | String c s' => if Ascii.eqb c sep then EmptyString else String c (split_first sep s')
  end.

Definition bar : Ascii.ascii := "|"%char.

(** [f"{cursor}"]: [str(None)] is ["None"]. *)
Definition cursor_str (c : option string) : string :=
  match c with None => "None" | Some s => s end.

(** [os.path.join(d, name)] for a relative [name]. *)
Definition path_join (d name : string) : string :=
  match d with
  | EmptyString => name
  | _ => if String.eqb (String.substring (String.length d - 1) 1 d) "/"
         then d ++ name else d ++ "/" ++ name
  end.

(** Drop the leading characters of [l] that satisfy [p]. *)
Fixpoint drop_while (p : ascii -> bool) (l : list ascii) : list ascii :=
  match l with [] => [] | c :: l' => if p c then drop_while p l' else l end.

(** [os.path.dirname(p)]: the part before the last separator, without
    its trailing separators unless it consists of separators only. *)
Definition dirname (p : string) : string :=
  let head := drop_while (fun c => negb (Ascii.eqb c "/")) (rev (String.list_ascii_of_string p)) in
  let stripped := drop_while (fun c => Ascii.eqb c "/") head in
  String.string_of_list_ascii (rev (if stripped is [] then head else stripped)).

Section Crawl.

(** [DATA_DIR] of the module [constant], which is not part of [src/]. *)
Variable data_dir : string.
(** The directories that exist: [open(fn, "w")] needs the parent of [fn]. *)
Variable dir_exists : string -> bool.
(** The catalogue API: the response to the [n]-th request. *)
Variable net : nat -> request -> response.

(** [save_json(data, fn)]: the file [fn] now holds [data]; [open]
    raises [FileNotFoundError] when the directory of [fn] does not exist. *)
Definition save_json (data : pyval) (fn : string) (fs : store) : Py store :=
  if dir_exists (dirname fn) then Ok (<[fn := data]> fs) else Err FileNotFoundError.

(** The file name of the page fetched with [cursor]. *)
Definition page_path (c : option string) : string :=
  path_join data_dir ("civitai_datas_" ++ cursor_str c ++ ".json").

(** [params = {"limit": limit, "nsfw": "true" if nsfw else "false"}] *)
Definition mk_params (limit : Z) (nsfw : bool) (c : option string) : request :=
  mk_request c limit (if nsfw then "true" else "false").

(** [count = len(data.get("items", []))], the item count that is logged. *)
Definition page_count (data : pyval) : Py nat :=
  items <- py_get data "items" (PList []) ;;
  py_len items.

(** [data.get("metadata", {}).get("nextCursor")], the end-of-stream test
    [if not cursor] and [cursor.split("|")[0]]. *)
Definition next_cursor (data : pyval) : Py string :=
  md <- py_get data "metadata" (PDict []) ;;
  next <- py_get md "nextCursor" PNone ;;
  if negb (truthy next) then Err CursorNotFoundException
  else match next with
       | PStr s => Ok (split_first bar s)
       | _ => Err AttributeError
       end.

(** The end of [crawl_images], after the page is saved: the count, then
    the next cursor. *)
Definition next_of_page (data : pyval) : Py string :=
  _ <- page_count data ;;
  next_cursor data.

(** [crawl_images(cursor, params)] once the response [resp] is known:
    the files after the call and the returned cursor or the exception.
    The page is saved before its cursor is read, so a page without a next
    cursor is saved too. *)
Definition crawl_images (c : option string) (resp : response) (fs : store)
  : store * Py string :=
  if negb (Z.eqb (status_code resp) 200) then (fs, Err (HTTPError (status_code resp)))
  else
    match body resp with
    | None => (fs, Err JSONDecodeError)
    | Some data =>
        match save_json data (page_path c) fs with
        | Ok fs' => (fs', next_of_page data)
        | Err e => (fs, Err e)
        end
    end.

(** One iteration of the loop of [run]: the request, then the [try]
    block and its two [except] clauses.  [HTTPError] is logged and the
    loop goes on with the same cursor; [CursorNotFoundException] breaks
    the loop; any other exception escapes [run]. *)
Definition iteration (limit : Z) (nsfw : bool) (st : cstate) : cstate * ctl :=
  let req := mk_params limit nsfw (cursor st) in
  let resp := net (length (sent st)) req in
  let '(fs', r) := crawl_images (cursor st) resp (files st) in
  let st' := mk_cstate (cursor st) fs' (sent st ++ [req]) in
  match r with
  | Ok c' => (mk_cstate (Some c') fs' (sent st ++ [req]), Continue)
  | Err (HTTPError _) => (st', Continue)
  | Err CursorNotFoundException => (st', Break)
  | Err e => (st', Raise e)
  end.

(** [for _ in range(n): ...] *)
Fixpoint run_loop (limit : Z) (nsfw : bool) (n : nat) (st : cstate)
  : cstate * option exc :=
  match n with
  | O => (st, None)
  | S n' =>
      let '(st', k) := iteration limit nsfw st in
      match k with
      | Continue => run_loop limit nsfw n' st'
      | Break => (st', None)
      | Raise e => (st', Some e)
      end
  end.

(** What [crawl_images] returns or raises for the cursor [c] and the
    response [resp]. *)
Definition fetch_result (c : option string) (resp : response) : Py string :=
  if negb (Z.eqb (status_code resp) 200) then Err (HTTPError (status_code resp))
  else match body resp with
       | None => Err JSONDecodeError
       | Some data =>
           if dir_exists (dirname (page_path c)) then next_of_page data
           else Err FileNotFoundError
       end.

(** The cursor [run] holds after an iteration that sent a request with
    cursor [c] and got [resp]: the returned cursor, else [c] unchanged. *)
Definition cursor_after (c : option string) (resp : response) : option string :=
  match fetch_result c resp with Ok c' => Some c' | Err _ => c end.

(** [run(limit, nsfw, depth)] from a directory holding the files [fs]:
    [range(depth)] is empty for a negative [depth]. *)
Definition run (limit : Z) (nsfw : bool) (depth : Z) (fs : store) : cstate * option exc :=
  run_loop limit nsfw (Z.to_nat depth) (mk_cstate None fs []).

End Crawl.

(** ** Properties *)

(** [no_sep sep s]: the separator does not occur in [s]. *)
Definition no_sep (sep : Ascii.ascii) (s : string) : bool :=
  forallb (fun c => negb (Ascii.eqb c sep)) (String.list_ascii_of_string s).


Section CrawlProofs.

Variable data_dir : string.
Variable dir_exists : string -> bool.
Variable net : nat -> request -> response.
Variables (limit : Z) (nsfw : bool).

Abbreviation iter := (iteration data_dir dir_exists net limit nsfw).
Abbreviation loop := (run_loop data_dir dir_exists net limit nsfw).

(** Every iteration sends exactly one request, with the current cursor. *)
Lemma iteration_sent st :
  sent (iter st).1 = sent st ++ [mk_params limit nsfw (cursor st)].
Proof.
  unfold iteration. destruct (crawl_images _ _ _ _) as [fs' [c'|[]]]; reflexivity.
Qed.

(** The files after an iteration are those [crawl_images] leaves. *)
Lemma iteration_files st :
  files (iter st).1 =
  (crawl_images data_dir dir_exists (cursor st)
     (net (length (sent st)) (mk_params limit nsfw (cursor st))) (files st)).1.
Proof.
  unfold iteration. destruct (crawl_images _ _ _ _) as [fs' [c'|[]]]; reflexivity.
Qed.

(** A property of states kept by every iteration holds after the loop. *)
Lemma run_loop_inv (P : cstate -> Prop) n st :
  (forall st, P st -> P (iter st).1) -> P st -> P (loop n st).1.
Proof.
  intros Hstep. revert st. induction n as [|n IH]; intros st Hst; simpl; [done|].
  specialize (Hstep st Hst). destruct (iter st) as [st' []]; simpl in *; auto.
Qed.

(** The requests sent so far only grow, one per iteration. *)
Lemma run_loop_sent n st :
  exists extra, sent (loop n st).1 = sent st ++ extra /\ length extra <= n.
Proof.
  revert st. induction n as [|n IH]; intros st; simpl.
  - exists []. split; [by rewrite app_nil_r | simpl; lia].
  - pose proof (iteration_sent st) as Hs.
    destruct (iter st) as [st' []] eqn:Hit; simpl in *.
    + destruct (IH st') as [extra [-> Hlen]].
      exists ([mk_params limit nsfw (cursor st)] ++ extra).
      rewrite Hs, app_assoc. split; [done | simpl; lia].
    + eexists; split; [exact Hs|]. simpl; lia.
    + eexists; split; [exact Hs|]. simpl; lia.
Qed.

Lemma crawl_images_result c resp fs :
  (crawl_images data_dir dir_exists c resp fs).2 = fetch_result data_dir dir_exists c resp.
Proof.
  unfold crawl_images, fetch_result, save_json.
  destruct (negb _); [done|]. destruct (body resp); [|done]. by destruct (dir_exists _).
Qed.

(** The cursor after an iteration. *)
Lemma iteration_cursor st :
  cursor (iter st).1 =
  cursor_after data_dir dir_exists (cursor st) (net (length (sent st)) (mk_params limit nsfw (cursor st))).
Proof.
  unfold iteration, cursor_after.
  rewrite <- (crawl_images_result (cursor st) _ (files st)).
  destruct (crawl_images _ _ _ _) as [fs' [c'|[]]]; reflexivity.
Qed.

(** How an iteration ends, from the result of [crawl_images]. *)
Lemma iteration_ctl st :
  (iter st).2 =
  match fetch_result data_dir dir_exists (cursor st) (net (length (sent st)) (mk_params limit nsfw (cursor st))) with
  | Ok _ | Err (HTTPError _) => Continue
  | Err CursorNotFoundException => Break
  | Err e => Raise e
  end.
Proof.
  unfold iteration.
  rewrite <- (crawl_images_result (cursor st) _ (files st)).
  destruct (crawl_images _ _ _ _) as [fs' [c'|[]]]; reflexivity.
Qed.

(** The requests of a walk form a chain: each carries the parameters, the
    first has no cursor, and each cursor is the one left by the previous
    response; [cur] is the cursor left by the last one. *)
Definition chain (l : list request) (cur : option string) : Prop :=
  (forall r, l !! 0 = Some r -> req_cursor r = None) /\
  (l = [] -> cur = None) /\
  (forall i r, l !! i = Some r ->
     r = mk_params limit nsfw (req_cursor r) /\
     default cur (req_cursor <$> l !! S i) = cursor_after data_dir dir_exists (req_cursor r) (net i r)).

Lemma lookup_snoc_cases {A} (l : list A) (x : A) i y :
  (l ++ [x]) !! i = Some y -> (l !! i = Some y) \/ (i = length l /\ y = x).
Proof.
  intros H. destruct (decide (i < length l)).
  - left. by rewrite lookup_app_l in H.
  - right. rewrite lookup_app_r in H by lia.
    destruct (i - length l) as [|j] eqn:Hj; simpl in H; [|by rewrite lookup_nil in H].
    split; [lia | congruence].
Qed.

Lemma iteration_chain st : chain (sent st) (cursor st) -> chain (sent (iter st).1) (cursor (iter st).1).
Proof.
  rewrite iteration_sent, iteration_cursor.
  intros (H0 & Hnil & Hc). split; [|split].
  - intros r Hr. destruct (sent st) as [|r0 l] eqn:Hs; simpl in Hr.
    + injection Hr as <-. simpl. by apply Hnil.
    + apply H0. simpl in *. congruence.
  - intros Happ. apply app_eq_nil in Happ as [_ Hx]. discriminate.
  - intros i r Hr. apply lookup_snoc_cases in Hr as [Hr|[-> ->]].
    + destruct (Hc i r Hr) as [Hp Hnext]. split; [done|].
      apply lookup_lt_Some in Hr.
      destruct (decide (S i < length (sent st))).
      * rewrite lookup_app_l by lia.
        destruct (sent st !! S i) eqn:E; [done|]. apply lookup_ge_None in E. lia.
      * assert (S i = length (sent st)) as -> by lia.
        rewrite lookup_app_r, Nat.sub_diag by lia. simpl.
        rewrite <- Hnext. by rewrite lookup_ge_None_2 by lia.
    + split; [done|]. rewrite lookup_ge_None_2 by (rewrite length_app; simpl; lia).
      done.
Qed.

(** C1: the walker hands over cursors as the code does: the first request
    has no cursor, every request carries [limit] and [nsfw], and each
    request after the first carries the cursor returned for the previous
    one, [split("|")[0]] of its [nextCursor], or the same cursor again
    when the previous request failed with an HTTP error. *)
Theorem run_cursor_chain depth fs i r r' :
  let st := (run data_dir dir_exists net limit nsfw depth fs).1 in
  sent st !! i = Some r -> sent st !! S i = Some r' ->
  r = mk_params limit nsfw (req_cursor r) /\
  req_cursor r' = cursor_after data_dir dir_exists (req_cursor r) (net i r) /\
  (i = 0 -> req_cursor r = None).
Proof.
  intros st Hr Hr'.
  assert (chain (sent st) (cursor st)) as (H0 & _ & Hc).
  { apply (run_loop_inv (fun st => chain (sent st) (cursor st))).
    - apply iteration_chain.
    - split; [|split]; [by intros ? ?| done | by intros ? ?]. }
  destruct (Hc i r Hr) as [Hp Hn]. rewrite Hr' in Hn. simpl in Hn.
  split; [done|]. split; [done|]. intros ->. by apply H0.
Qed.

(** C8: [run] terminates after at most [depth] requests (none for a
    negative [depth]). *)
Theorem run_requests_bounded depth fs :
  length (sent (run data_dir dir_exists net limit nsfw depth fs).1) <= Z.to_nat depth.
Proof.
  unfold run. destruct (run_loop_sent (Z.to_nat depth) (mk_cstate None fs []))
    as [extra [-> Hlen]]. done.
Qed.

Lemma run_loop_stops n st st' :
  loop n st = (st', None) ->
  length (sent st') = length (sent st) + n \/
  exists r, last (sent st') = Some r /\
    fetch_result data_dir dir_exists (req_cursor r) (net (length (sent st') - 1) r) = Err CursorNotFoundException.
Proof.
  revert st. induction n as [|n IH]; intros st; simpl.
  - intros [= ->]. left. lia.
  - pose proof (iteration_sent st) as Hs. pose proof (iteration_ctl st) as Hk.
    destruct (iter st) as [st1 k]; simpl in *.
    destruct k; [| intros [= ->] | discriminate].
    + intros Hl. destruct (IH st1 Hl) as [Hlen|Hend]; [left|by right].
      rewrite Hlen, Hs, length_app. simpl. lia.
    + right. exists (mk_params limit nsfw (cursor st)).
      rewrite Hs, last_snoc, length_app. simpl.
      replace (length (sent st) + 1 - 1) with (length (sent st)) by lia.
      destruct (fetch_result _) as [|[]]; done.
Qed.

(** C9: a walk that ends without an exception has either sent [depth]
    requests or stopped right after a response with no next cursor. *)
Theorem run_stops depth fs st :
  run data_dir dir_exists net limit nsfw depth fs = (st, None) ->
  length (sent st) = Z.to_nat depth \/
  exists r, last (sent st) = Some r /\
    fetch_result data_dir dir_exists (req_cursor r) (net (length (sent st) - 1) r) = Err CursorNotFoundException.
Proof. intros H. apply run_loop_stops in H as [H|H]; [left; simpl in H; lia | by right]. Qed.

Lemma run_loop_all_fail n l fs :
  (forall i r, status_code (net i r) <> 200%Z) ->
  loop n (mk_cstate None fs l) =
  (mk_cstate None fs (l ++ repeat (mk_params limit nsfw None) n), None).
Proof.
  intros Hfail. revert l. induction n as [|n IH]; intros l; simpl.
  - by rewrite app_nil_r.
  - unfold iteration at 1. simpl. unfold crawl_images at 1.
    destruct (Z.eqb_spec (status_code (net (length l) (mk_params limit nsfw None))) 200)
      as [Heq|_]; [by apply Hfail in Heq|]. simpl.
    rewrite IH, <- app_assoc. reflexivity.
Qed.

(** C17: an HTTP error does not stall the walk: the failed request is sent
    again with the same cursor at the next iteration.  When the server
    fails every request, [run] sends [depth] identical first-page requests,
    writes no file and ends normally. *)
Theorem run_retries_same_cursor depth fs :
  (forall i r, status_code (net i r) <> 200%Z) ->
  run data_dir dir_exists net limit nsfw depth fs =
  (mk_cstate None fs (repeat (mk_params limit nsfw None) (Z.to_nat depth)), None).
Proof. intros H. unfold run. by rewrite run_loop_all_fail. Qed.

(** A file of the store is an initial file or the body of a successful
    response, saved under the path of its request's cursor. *)
Definition saved_pages (fs0 : store) (st : cstate) : Prop :=
  forall p v, files st !! p = Some v ->
    fs0 !! p = Some v \/
    exists i r, sent st !! i = Some r /\ p = page_path data_dir (req_cursor r) /\
      status_code (net i r) = 200%Z /\ body (net i r) = Some v.

Lemma saved_pages_grow fs0 st c l :
  saved_pages fs0 st -> saved_pages fs0 (mk_cstate c (files st) (sent st ++ l)).
Proof.
  intros Hinv p v Hp. destruct (Hinv p v Hp) as [|(i & r & Hr & ?)]; [by left|right].
  exists i, r. simpl. rewrite lookup_app_l by (eapply lookup_lt_Some; eauto). eauto.
Qed.

Lemma iteration_saved_pages fs0 st : saved_pages fs0 st -> saved_pages fs0 (iter st).1.
Proof.
  intros Hinv.
  assert (saved_pages fs0 (mk_cstate (cursor st) (files st) (sent (iter st).1))) as Hkeep
    by (rewrite iteration_sent; by apply saved_pages_grow).
  intros p v. rewrite iteration_files. unfold crawl_images at 1.
  remember (net (length (sent st)) (mk_params limit nsfw (cursor st))) as resp eqn:Hresp.
  destruct (Z.eqb_spec (status_code resp) 200) as [H200|_]; simpl; [|apply Hkeep].
  destruct (body resp) as [data|] eqn:Hb; simpl; [|apply Hkeep].
  unfold save_json. destruct (dir_exists _); simpl; [|apply Hkeep].
  rewrite lookup_insert. case_decide as Heq; [|apply Hkeep].
  intros [= <-]. right. exists (length (sent st)), (mk_params limit nsfw (cursor st)).
  rewrite iteration_sent, lookup_app_r, Nat.sub_diag by lia. simpl. subst resp. auto.
Qed.

Lemma run_saved_pages depth fs : saved_pages fs (run data_dir dir_exists net limit nsfw depth fs).1.
Proof.
  apply (run_loop_inv (saved_pages fs)); [apply iteration_saved_pages | intros p v Hp; by left].
Qed.

(** C16: every file [run] leaves in the data directory was there before or
    is the raw body of a successful response, stored under
    [civitai_datas_<cursor>.json] for the cursor of its request. *)
Theorem run_files_pages depth fs p v :
  files (run data_dir dir_exists net limit nsfw depth fs).1 !! p = Some v ->
  fs !! p = Some v \/
  exists i r, sent (run data_dir dir_exists net limit nsfw depth fs).1 !! i = Some r /\
    p = page_path data_dir (req_cursor r) /\
    status_code (net i r) = 200%Z /\ body (net i r) = Some v.
Proof. apply run_saved_pages. Qed.

(** C33: a response that is not JSON is not caught by [run]: the
    [JSONDecodeError] of [resp.json()] escapes the walk after one request
    and nothing is saved. *)
Theorem run_decode_error_escapes depth fs :
  (0 < depth)%Z ->
  net 0 (mk_params limit nsfw None) = mk_response 200 None ->
  run data_dir dir_exists net limit nsfw depth fs =
  (mk_cstate None fs [mk_params limit nsfw None], Some JSONDecodeError).
Proof.
  intros Hd Hnet. unfold run.
  destruct (Z.to_nat depth) as [|n] eqn:Hn; [lia|]. simpl.
  unfold iteration. simpl. rewrite Hnet. reflexivity.
Qed.

End CrawlProofs.

(** ** The page fetcher on one response *)

(** A non-success status raises [HTTPError] with the status and
    writes no file. *)
Theorem crawl_images_http_error data_dir dir_exists c resp fs :
  status_code resp <> 200%Z ->
  crawl_images data_dir dir_exists c resp fs = (fs, Err (HTTPError (status_code resp))).
Proof.
  intros H. unfold crawl_images. by destruct (Z.eqb_spec (status_code resp) 200).
Qed.

(** A successful JSON response is saved under the file of its cursor
    before its next cursor is read, so the last page is saved as well. *)
Theorem crawl_images_saves data_dir dir_exists c resp fs data :
  status_code resp = 200%Z -> body resp = Some data ->
  dir_exists (dirname (page_path data_dir c)) = true ->
  (crawl_images data_dir dir_exists c resp fs).1 = <[page_path data_dir c := data]> fs.
Proof. intros Hs Hb Hd. unfold crawl_images, save_json. by rewrite Hs, Hb, Hd. Qed.

(** C28: a successful page whose file cannot be opened, because the
    cursor's file name lies in a directory that does not exist (a cursor
    containing ["/"]), writes nothing, and the [FileNotFoundError] of
    [open] ends the walk: [run] catches neither it nor anything but
    [HTTPError] and [CursorNotFoundException]. *)
Theorem iteration_open_error data_dir dir_exists net limit nsfw st data :
  let req := mk_params limit nsfw (cursor st) in
  status_code (net (length (sent st)) req) = 200%Z ->
  body (net (length (sent st)) req) = Some data ->
  dir_exists (dirname (page_path data_dir (cursor st))) = false ->
  iteration data_dir dir_exists net limit nsfw st =
  (mk_cstate (cursor st) (files st) (sent st ++ [req]), Raise FileNotFoundError).
Proof.
  intros req Hs Hb Hd. unfold iteration, crawl_images, save_json.
  fold req. rewrite Hs, Hb, Hd. reflexivity.
Qed.

(** A page whose [metadata.nextCursor] is a non-empty string yields
    the part of it before the first ["|"]. *)
Theorem next_of_page_cursor kvs md s :
  (forall v, dict_lookup "items" kvs = Some v -> is_list v = true) ->
  dict_lookup "metadata" kvs = Some (PDict md) ->
  dict_lookup "nextCursor" md = Some (PStr s) -> s <> "" ->
  next_of_page (PDict kvs) = Ok (split_first bar s).
Proof.
  intros Hit Hmd Hnc Hs. unfold next_of_page, page_count, next_cursor. simpl.
  destruct (dict_lookup "items" kvs) as [v|] eqn:Hv; simpl;
    [specialize (Hit v eq_refl); destruct v; try discriminate; simpl|];
    rewrite Hmd; simpl; rewrite Hnc; simpl;
    destruct (String.eqb_spec s ""); done.
Qed.

(** A page without [metadata], or whose [metadata.nextCursor] is
    missing or empty, ends the walk with [CursorNotFoundException]. *)
Theorem next_of_page_end kvs md :
  (forall v, dict_lookup "items" kvs = Some v -> is_list v = true) ->
  py_get (PDict kvs) "metadata" (PDict []) = Ok (PDict md) ->
  truthy (default PNone (dict_lookup "nextCursor" md)) = false ->
  next_of_page (PDict kvs) = Err CursorNotFoundException.
Proof.
  intros Hit Hmd Hnc. unfold next_of_page, page_count, next_cursor. simpl in *.
  destruct (dict_lookup "items" kvs) as [v|] eqn:Hv; simpl;
    [specialize (Hit v eq_refl); destruct v; try discriminate; simpl|];
    destruct (dict_lookup "metadata" kvs); simpl in Hmd; injection Hmd as ->;
    simpl; by rewrite Hnc.
Qed.

(** ** The cursor split *)

Lemma split_first_no_sep s : no_sep bar s = true -> split_first bar s = s.
Proof.
  induction s as [|c s IH]; simpl; [done|].
  unfold no_sep; simpl. intros [Hc Hs]%andb_prop.
  destruct (Ascii.eqb c bar); [discriminate|]. f_equal. by apply IH.
Qed.

(** [cursor.split("|")[0]] of a composite cursor [a|b] whose first
    component has no separator is that first component. *)
Theorem split_first_composite a b :
  no_sep bar a = true -> split_first bar (a ++ String bar b)%string = a.
Proof.
  induction a as [|c a IH]; simpl.
  - reflexivity.
  - unfold no_sep; simpl. intros [Hc Ha]%andb_prop.
    destruct (Ascii.eqb c bar); [discriminate|]. f_equal. by apply IH.
Qed.

(** The cursor handed over never contains a separator, and it is the
    whole [nextCursor] or the part before its first separator. *)
Theorem split_first_prefix s :
  no_sep bar (split_first bar s) = true /\
  (split_first bar s = s \/ exists rest, s = (split_first bar s ++ String bar rest)%string).
Proof.
  induction s as [|c s [IHsep IHpre]]; simpl; [auto|].
  destruct (Ascii.eqb_spec c bar) as [->|Hne].
  - split; [done|]. right. by exists s.
  - unfold no_sep in *. simpl. rewrite IHsep.
    destruct (Ascii.eqb_spec c bar); [done|]. split; [done|].
    destruct IHpre as [->|[rest Hrest]]; [by left|right].
    exists rest. rewrite Hrest at 1. reflexivity.
Qed.

Lemma py_get_metadata kvs md v :
  py_get (PDict kvs) "metadata" (PDict []) = Ok (PDict md) ->
  dict_lookup "nextCursor" md = Some v -> dict_lookup "metadata" kvs = Some (PDict md).
Proof.
  cbn [py_get]. intros H. destruct (dict_lookup "metadata" kvs); cbn in H; injection H as H; subst; [done|].
  discriminate.
Qed.

(** C10: the continuation of a saved page ([crawl_images], after
    [save_json]): on a page object whose [items] (if any) is a list and
    whose [metadata] (if any) is an object, a non-empty string
    [nextCursor] gives [cursor.split("|")[0]], the cursor itself when it
    has no bar and otherwise its part before the first bar; a missing,
    [None] or empty [nextCursor] raises [CursorNotFoundException]; any
    other truthy value raises [AttributeError] ([.split] of a non-string). *)
Theorem next_of_page_spec kvs md :
  (forall v, dict_lookup "items" kvs = Some v -> is_list v = true) ->
  py_get (PDict kvs) "metadata" (PDict []) = Ok (PDict md) ->
  (forall s, dict_lookup "nextCursor" md = Some (PStr s) -> s <> "" ->
     exists c, next_of_page (PDict kvs) = Ok c /\ no_sep bar c = true /\
       (c = s \/ exists rest, s = (c ++ String bar rest)%string)) /\
  (truthy (default PNone (dict_lookup "nextCursor" md)) = false ->
     next_of_page (PDict kvs) = Err CursorNotFoundException) /\
  (forall v, dict_lookup "nextCursor" md = Some v -> truthy v = true -> (forall s, v <> PStr s) ->
     next_of_page (PDict kvs) = Err AttributeError).
Proof.
  intros Hit Hmd. split; [|split].
  - intros s Hnc Hs. exists (split_first bar s).
    rewrite (next_of_page_cursor kvs md s) by eauto using py_get_metadata. split; [done|].
    apply split_first_prefix.
  - by apply next_of_page_end.
  - intros v Hnc Hv Hns. pose proof (py_get_metadata _ _ _ Hmd Hnc) as Hmd'.
    unfold next_of_page, page_count, next_cursor. cbn [py_get].
    destruct (dict_lookup "items" kvs) as [w|] eqn:Hw; cbn;
      [specialize (Hit w eq_refl); destruct w; try discriminate; cbn|];
      rewrite Hmd'; cbn; rewrite Hnc; cbn; rewrite Hv; cbn;
      destruct v; try done; by destruct (Hns s).
Qed.

(** ** Witnesses *)

(** A catalogue page with the given [nextCursor]. *)
Definition demo_page (next : pyval) : pyval :=
  PDict [("items", PList [PDict [("id", PInt 1)]]);
         ("metadata", PDict [("nextCursor", next)])].

(** A file system where only the data directory exists. *)
Definition demo_dirs (d : string) : bool := String.eqb d "datas".

(** A server that answers a page, a failure, a page and a last page. *)
Definition demo_net (i : nat) (r : request) : response :=
  match i with
  | 0 => mk_response 200 (Some (demo_page (PStr "abc|xyz")))
  | 1 => mk_response 500 None
  | 2 => mk_response 200 (Some (demo_page (PStr "def")))
  | _ => mk_response 200 (Some (demo_page PNone))
  end.

Lemma run_cursor_chain_witness :
  mk_params 100 false (Some "abc") = mk_params 100 false (Some "abc") /\
  Some "abc" = cursor_after "datas" demo_dirs (Some "abc") (demo_net 1 (mk_params 100 false (Some "abc"))) /\
  (1 = 0 -> Some "abc" = None).
Proof.
  apply (run_cursor_chain "datas" demo_dirs demo_net 100 false 10 ∅ 1
           (mk_params 100 false (Some "abc")) (mk_params 100 false (Some "abc")));
    vm_compute; reflexivity.
Defined.

Lemma run_stops_witness :
  length (sent (run "datas" demo_dirs demo_net 100 false 10 ∅).1) = 10 \/
  exists r, last (sent (run "datas" demo_dirs demo_net 100 false 10 ∅).1) = Some r /\
    fetch_result "datas" demo_dirs (req_cursor r) (demo_net (length (sent (run "datas" demo_dirs demo_net 100 false 10 ∅).1) - 1) r)
    = Err CursorNotFoundException.
Proof.
  apply (run_stops "datas" demo_dirs demo_net 100 false 10 ∅). vm_compute. reflexivity.
Defined.

Lemma run_retries_same_cursor_witness :
  run "datas" demo_dirs (fun _ _ => mk_response 503 None) 100 true 3 ∅ =
  (mk_cstate None ∅ (repeat (mk_params 100 true None) 3), None).
Proof.
  apply (run_retries_same_cursor "datas" demo_dirs (fun _ _ => mk_response 503 None) 100 true 3 ∅).
  intros _ _. simpl. lia.
Defined.

Lemma run_files_pages_witness :
  (∅ : store) !! "datas/civitai_datas_None.json" = Some (demo_page (PStr "abc|xyz")) \/
  exists i r, sent (run "datas" demo_dirs demo_net 100 false 10 ∅).1 !! i = Some r /\
    "datas/civitai_datas_None.json" = page_path "datas" (req_cursor r) /\
    status_code (demo_net i r) = 200%Z /\
    body (demo_net i r) = Some (demo_page (PStr "abc|xyz")).
Proof.
  apply (run_files_pages "datas" demo_dirs demo_net 100 false 10 ∅). vm_compute. reflexivity.
Defined.

Lemma run_decode_error_escapes_witness :
  run "datas" demo_dirs (fun _ _ => mk_response 200 None) 100 false 5 ∅ =
  (mk_cstate None ∅ [mk_params 100 false None], Some JSONDecodeError).
Proof.
  apply (run_decode_error_escapes "datas" demo_dirs (fun _ _ => mk_response 200 None) 100 false 5 ∅);
    [lia | reflexivity].
Defined.

Lemma crawl_images_http_error_witness :
  crawl_images "datas" demo_dirs None (mk_response 500 None) ∅ = (∅, Err (HTTPError 500)).
Proof. apply (crawl_images_http_error "datas" demo_dirs None (mk_response 500 None) ∅). simpl. lia. Defined.

Lemma crawl_images_saves_witness :
  (crawl_images "datas" demo_dirs None (mk_response 200 (Some (demo_page PNone))) ∅).1 =
  <[page_path "datas" None := demo_page PNone]> ∅.
Proof. apply crawl_images_saves; reflexivity. Defined.

Lemma iteration_open_error_witness :
  let st := mk_cstate (Some "a/b") ∅ [mk_params 100 false None; mk_params 100 false (Some "a/b")] in
  iteration "datas" demo_dirs demo_net 100 false st =
  (mk_cstate (cursor st) (files st) (sent st ++ [mk_params 100 false (cursor st)]),
   Raise FileNotFoundError).
Proof.
  apply (iteration_open_error "datas" demo_dirs demo_net 100 false _ (demo_page (PStr "def")));
    vm_compute; reflexivity.
Defined.

Lemma next_of_page_cursor_witness :
  next_of_page (demo_page (PStr "abc|xyz")) = Ok (split_first bar "abc|xyz").
Proof.
  apply (next_of_page_cursor _ [("nextCursor", PStr "abc|xyz")]);
    [intros v Hv; vm_compute in Hv; injection Hv as <-; reflexivity
    | reflexivity | reflexivity | discriminate].
Defined.

Lemma next_of_page_end_witness :
  next_of_page (demo_page PNone) = Err CursorNotFoundException.
Proof.
  apply (next_of_page_end _ [("nextCursor", PNone)]);
    [intros v Hv; vm_compute in Hv; injection Hv as <-; reflexivity
    | reflexivity | reflexivity].
Defined.

Lemma split_first_composite_witness :
  split_first bar ("abc" ++ String bar "xyz")%string = "abc".
Proof. apply split_first_composite. reflexivity. Defined.

Lemma next_of_page_spec_witness :
  exists c, next_of_page (PDict [("items", PList []);
                                 ("metadata", PDict [("nextCursor", PStr "abc|123")])]) = Ok c /\
    no_sep bar c = true /\ (c = "abc|123" \/ exists rest, "abc|123" = (c ++ String bar rest)%string).
Proof.
  apply (proj1 (next_of_page_spec [("items", PList []); ("metadata", PDict [("nextCursor", PStr "abc|123")])]
                  [("nextCursor", PStr "abc|123")]
                  ltac:(intros v Hv; vm_compute in Hv; injection Hv as <-; reflexivity)
                  ltac:(vm_compute; reflexivity))).
  - vm_compute. reflexivity.
  - discriminate.
Defined.
