(* ===== verification/CrawlLog.v ===== *)
(** The log of the crawler of [src/crawl_civitai.py].

    [logging.basicConfig(level=logging.INFO)] makes every [logger.info]
    and [logger.error] of the module emit a record; the records a walk
    emits, in order, are the [log] field of the state [lstate] beside
    the walker's state [cstate] of [Crawler.v] (a log threaded through
    the execution as a field of the state).  [crawl_images_logged],
    [iteration_logged] and [run_logged] are [crawl_images], [iteration]
    and [run] with their logging calls; [Crawler.v]'s definitions are
    their projections that forget the log ([run_logged_proj]), so every
    theorem proved of [run] holds of the logged walk.  The messages are
    the f-strings of the source, with [str] of an [int] as [show_Z]. *)

From S2P Require Import Prelude PyValue PyInt Crawler.

(** ** Records and messages *)

(** The two levels the module logs at; [basicConfig(level=INFO)] lets
    both through. *)
Inductive level := INFO | ERROR.

(** A record emitted by [logger]: its level and its message. *)
Record record := mk_record { lvl : level; msg : string }.

(** [f"{params}"]: the [repr] of [{"limit": limit, "nsfw": "true"}]. *)
Definition params_repr (req : request) : string :=
  "{'limit': " ++ show_Z (req_limit req) ++ ", 'nsfw': '" ++ req_nsfw req ++ "'}".

(** [f"Requesting with cursor {cursor} and params {params} ..."] *)
Definition request_msg (c : option string) (req : request) : string :=
  "Requesting with cursor " ++ cursor_str c ++ " and params " ++ params_repr req ++ " ...".

(** [f"Fetched {count} images. Saved result to {cursor}"] *)
Definition fetched_msg (n : nat) (c : option string) : string :=
  "Fetched " ++ show_Z (Z.of_nat n) ++ " images. Saved result to " ++ cursor_str c.

(** [str(e)] of [requests.HTTPError(f"Error: HTTP {resp.status_code}")]. *)
Definition http_error_str (code : Z) : string := "Error: HTTP " ++ show_Z code.

(** [f"Error: {e}"] in the [except requests.HTTPError] clause of [run]. *)
Definition error_msg (code : Z) : string := "Error: " ++ http_error_str code.

(** The message of the [except CursorNotFoundException] clause. *)
Definition done_msg : string := "Cursor not found is crawl done.".

(** The records the claims observe: the request lines, the error
    lines; and the record each request and each failed status gives. *)
Definition is_request (r : record) : bool :=
  if lvl r is INFO then String.prefix "Requesting with cursor " (msg r) else false.

Definition is_error (r : record) : bool := if lvl r is ERROR then true else false.

Definition request_record (req : request) : record := mk_record INFO (request_msg (req_cursor req) req).

Definition error_record (code : Z) : record := mk_record ERROR (error_msg code).

Lemma request_msg_prefix c req : String.prefix "Requesting with cursor " (request_msg c req) = true.
Proof. apply string_prefix_app. Qed.

(** The walker's state with the records emitted so far. *)
Record lstate := mk_lstate { core : cstate; log : list record }.

Section Logged.

Variable data_dir : string.
Variable dir_exists : string -> bool.
Variable net : nat -> request -> response.

(** [crawl_images(cursor, params)] with its two [logger.info] calls: the
    request is logged first; the item count after the page is saved. *)
Definition crawl_images_logged (c : option string) (req : request) (resp : response) (fs : store)
  : store * Py string * list record :=
  let start := [mk_record INFO (request_msg c req)] in
  if negb (Z.eqb (status_code resp) 200) then (fs, Err (HTTPError (status_code resp)), start)
  else
    match body resp with
    | None => (fs, Err JSONDecodeError, start)
    | Some data =>
        match save_json dir_exists data (page_path data_dir c) fs with
        | Err e => (fs, Err e, start)
        | Ok fs' =>
            match page_count data with
            | Err e => (fs', Err e, start)
            | Ok n => (fs', next_cursor data, start ++ [mk_record INFO (fetched_msg n c)])
            end
        end
    end.

(** One iteration of the loop of [run] with the [logger.error] of the
    [HTTPError] clause and the [logger.info] of the end of the stream. *)
Definition iteration_logged (limit : Z) (nsfw : bool) (st : lstate) : lstate * ctl :=
  let cs := core st in
  let req := mk_params limit nsfw (cursor cs) in
  let resp := net (length (sent cs)) req in
  let '(fs', r, l) := crawl_images_logged (cursor cs) req resp (files cs) in
  let cs' := mk_cstate (cursor cs) fs' (sent cs ++ [req]) in
  match r with
  | Ok c' => (mk_lstate (mk_cstate (Some c') fs' (sent cs ++ [req])) (log st ++ l), Continue)
  | Err (HTTPError code) => (mk_lstate cs' (log st ++ l ++ [mk_record ERROR (error_msg code)]), Continue)
  | Err CursorNotFoundException => (mk_lstate cs' (log st ++ l ++ [mk_record INFO done_msg]), Break)
  | Err e => (mk_lstate cs' (log st ++ l), Raise e)
  end.

Fixpoint run_loop_logged (limit : Z) (nsfw : bool) (n : nat) (st : lstate) : lstate * option exc :=
  match n with
  | O => (st, None)
  | S n' =>
      let '(st', k) := iteration_logged limit nsfw st in
      match k with
      | Continue => run_loop_logged limit nsfw n' st'
      | Break => (st', None)
      | Raise e => (st', Some e)
      end
  end.

(** [run(limit, nsfw, depth)] with its log, from an empty log. *)
Definition run_logged (limit : Z) (nsfw : bool) (depth : Z) (fs : store) : lstate * option exc :=
  run_loop_logged limit nsfw (Z.to_nat depth) (mk_lstate (mk_cstate None fs []) []).

End Logged.

(** ** The log-free walk is the projection of the logged walk *)

Section LogProofs.

Variable data_dir : string.
Variable dir_exists : string -> bool.
Variable net : nat -> request -> response.
Variable limit : Z.
Variable nsfw : bool.

Local Abbreviation iter_l := (iteration_logged data_dir dir_exists net limit nsfw).
Local Abbreviation loop_l := (run_loop_logged data_dir dir_exists net limit nsfw).

Lemma crawl_images_logged_proj c req resp fs :
  crawl_images data_dir dir_exists c resp fs =
  ((crawl_images_logged data_dir dir_exists c req resp fs).1.1,
   (crawl_images_logged data_dir dir_exists c req resp fs).1.2).
Proof.
  unfold crawl_images, crawl_images_logged, next_of_page.
  destruct (negb _); [done|]. destruct (body resp) as [data|]; [|done].
  destruct (save_json _ _ _ _); [|done]. by destruct (page_count data).
Qed.

Lemma iteration_logged_proj st :
  iteration data_dir dir_exists net limit nsfw (core st) = (core (iter_l st).1, (iter_l st).2).
Proof.
  unfold iteration, iteration_logged.
  rewrite (crawl_images_logged_proj _ (mk_params limit nsfw (cursor (core st)))).
  destruct (crawl_images_logged _ _ _ _ _ _) as [[fs' r] l]. cbn. by destruct r as [c'|[]].
Qed.

Lemma run_loop_logged_proj n st :
  run_loop data_dir dir_exists net limit nsfw n (core st) = (core (loop_l n st).1, (loop_l n st).2).
Proof.
  revert st. induction n as [|n IH]; intros st; [done|]. cbn [run_loop run_loop_logged].
  rewrite iteration_logged_proj. destruct (iter_l st) as [st' []]; cbn; auto.
Qed.

(** A property of the logged state that every iteration keeps holds
    after the loop. *)
Lemma run_loop_logged_inv (P : lstate -> Prop) n st :
  (forall st, P st -> P (iter_l st).1) -> P st -> P (loop_l n st).1.
Proof.
  intros Hstep. revert st. induction n as [|n IH]; intros st Hst; [done|]. cbn [run_loop_logged].
  specialize (Hstep st Hst). destruct (iter_l st) as [st' []]; cbn in *; auto.
Qed.

(** ** What the log shows *)

Lemma page_count_not_http data code : page_count data <> Err (HTTPError code).
Proof. unfold page_count, py_get, py_len. intros H. repeat case_match; simplify_eq. Qed.

Lemma next_cursor_not_http data code : next_cursor data <> Err (HTTPError code).
Proof. unfold next_cursor, py_get. intros H. repeat case_match; simplify_eq. Qed.

(** A request with a status other than 200 logs its request and raises
    [HTTPError] with the status. *)
Lemma crawl_images_logged_status c req resp fs :
  Z.eqb (status_code resp) 200 = false ->
  crawl_images_logged data_dir dir_exists c req resp fs =
  (fs, Err (HTTPError (status_code resp)), [mk_record INFO (request_msg c req)]).
Proof. intros Hs. unfold crawl_images_logged. by rewrite Hs. Qed.

(** With status 200, [crawl_images] raises no [HTTPError]. *)
Lemma crawl_images_logged_200 c req resp fs code :
  Z.eqb (status_code resp) 200 = true ->
  (crawl_images_logged data_dir dir_exists c req resp fs).1.2 <> Err (HTTPError code).
Proof.
  intros Hs. unfold crawl_images_logged. rewrite Hs. cbn [negb].
  destruct (body resp) as [data|]; [|discriminate]. unfold save_json.
  destruct (dir_exists _); [|discriminate]. destruct (page_count data) eqn:Hp; cbn.
  - apply next_cursor_not_http.
  - intros [= ->]. by apply (page_count_not_http data code).
Qed.

(** The records of one call: its request first, then at most the count,
    which is neither a request nor an error. *)
Lemma crawl_images_logged_log c req resp fs :
  exists extra, (crawl_images_logged data_dir dir_exists c req resp fs).2 =
    mk_record INFO (request_msg c req) :: extra /\
    List.filter is_request extra = [] /\ List.filter is_error extra = [].
Proof.
  unfold crawl_images_logged. destruct (negb _); [by exists []|].
  destruct (body resp) as [data|]; [|by exists []]. destruct (save_json _ _ _ _); [|by exists []].
  destruct (page_count data) as [n|]; [|by exists []]. by exists [mk_record INFO (fetched_msg n c)].
Qed.

Lemma iteration_logged_sent st :
  sent (core (iter_l st).1) = sent (core st) ++ [mk_params limit nsfw (cursor (core st))].
Proof.
  unfold iteration_logged. by destruct (crawl_images_logged _ _ _ _ _ _) as [[fs' [c'|[]]] l].
Qed.

Lemma iteration_logged_break st :
  (iter_l st).2 = Break -> last (log (iter_l st).1) = Some (mk_record INFO done_msg).
Proof.
  unfold iteration_logged. destruct (crawl_images_logged _ _ _ _ _ _) as [[fs' [c'|[]]] l];
    cbn; try discriminate. intros _. by rewrite app_assoc, last_snoc.
Qed.

(** One request record per request sent, in order. *)
Lemma iteration_logged_requests st :
  List.filter is_request (log st) = map request_record (sent (core st)) ->
  List.filter is_request (log (iter_l st).1) = map request_record (sent (core (iter_l st).1)).
Proof.
  intros Hinv. rewrite iteration_logged_sent. unfold iteration_logged.
  destruct (crawl_images_logged_log (cursor (core st)) (mk_params limit nsfw (cursor (core st)))
              (net (length (sent (core st))) (mk_params limit nsfw (cursor (core st)))) (files (core st)))
    as (extra & Hl & Hr & _).
  destruct (crawl_images_logged _ _ _ _ _ _) as [[fs' r] l]. cbn in Hl. subst l.
  destruct r as [c'|[]]; cbn [core log sent fst];
    rewrite ?List.filter_app, Hinv, map_app; cbn; rewrite request_msg_prefix, ?Hr; reflexivity.
Qed.

(** The statuses of the responses to the requests [l], in order: the
    [i]-th request gets [net i]. *)
Definition statuses (l : list request) : list Z := imap (fun i req => status_code (net i req)) l.

Definition failed (l : list request) : list Z := List.filter (fun z => negb (Z.eqb z 200)) (statuses l).

Lemma failed_snoc l req :
  failed (l ++ [req]) =
  failed l ++ (if Z.eqb (status_code (net (length l) req)) 200 then [] else [status_code (net (length l) req)]).
Proof.
  unfold failed, statuses. rewrite imap_app, List.filter_app. cbn. rewrite Nat.add_0_r.
  by destruct (Z.eqb _ 200).
Qed.

(** One error record per response with a status other than 200. *)
Lemma iteration_logged_errors st :
  List.filter is_error (log st) = map error_record (failed (sent (core st))) ->
  List.filter is_error (log (iter_l st).1) = map error_record (failed (sent (core (iter_l st).1))).
Proof.
  intros Hinv. rewrite iteration_logged_sent, failed_snoc. unfold iteration_logged.
  set (req := mk_params limit nsfw (cursor (core st))).
  set (resp := net (length (sent (core st))) req).
  destruct (Z.eqb (status_code resp) 200) eqn:Hs.
  - destruct (crawl_images_logged_log (cursor (core st)) req resp (files (core st))) as (extra & Hl & _ & He).
    pose proof (crawl_images_logged_200 (cursor (core st)) req resp (files (core st))) as Hn.
    destruct (crawl_images_logged _ _ _ _ _ _) as [[fs' r] l]. cbn in Hl, Hn. subst l.
    destruct r as [c'|[]]; cbn [core log fst]; try (by destruct (Hn _ Hs eq_refl));
      rewrite ?List.filter_app, Hinv; cbn [List.filter is_error lvl]; rewrite ?He, ?app_nil_r; reflexivity.
  - rewrite (crawl_images_logged_status _ _ _ _ Hs). cbn [core log fst].
    rewrite !List.filter_app, Hinv, map_app. reflexivity.
Qed.

(** A loop that raises nothing has either run all its iterations or
    logged the end of the stream last. *)
Lemma run_loop_logged_end n st :
  (loop_l n st).2 = None ->
  length (sent (core (loop_l n st).1)) = length (sent (core st)) + n \/
  last (log (loop_l n st).1) = Some (mk_record INFO done_msg).
Proof.
  revert st. induction n as [|n IH]; intros st; cbn [run_loop_logged]; [left; cbn; lia|].
  pose proof (iteration_logged_sent st) as Hs. pose proof (iteration_logged_break st) as Hb.
  destruct (iter_l st) as [st' []]; cbn in *; [|by right; apply Hb|done].
  intros H. destruct (IH st' H) as [Hl|Hl]; [left|by right].
  rewrite Hl, Hs, length_app. cbn. lia.
Qed.

End LogProofs.

(** The walk [Crawler.run] is the logged walk with its log
    forgotten: the same requests, files, cursor and exception, so every
    theorem of [Crawler.v] about [run] is a theorem about the script with
    its logging. *)
Theorem run_logged_proj data_dir dir_exists net limit nsfw depth fs :
  run data_dir dir_exists net limit nsfw depth fs =
  (core (run_logged data_dir dir_exists net limit nsfw depth fs).1,
   (run_logged data_dir dir_exists net limit nsfw depth fs).2).
Proof. exact (run_loop_logged_proj _ _ _ _ _ (Z.to_nat depth) (mk_lstate (mk_cstate None fs []) [])). Qed.

(** C19: the log has one [Requesting with cursor ... and params ...]
    record per request sent, in the order sent, with the request's cursor
    ([None] for the first) and its [limit] and [nsfw] parameters. *)
Theorem run_logged_requests data_dir dir_exists net limit nsfw depth fs :
  List.filter is_request (log (run_logged data_dir dir_exists net limit nsfw depth fs).1) =
  map request_record (sent (core (run_logged data_dir dir_exists net limit nsfw depth fs).1)).
Proof.
  apply (run_loop_logged_inv _ _ _ _ _ (fun st => List.filter is_request (log st) = map request_record (sent (core st))));
    [apply iteration_logged_requests | reflexivity].
Qed.

(** C18: transport failures are logged and nothing else is: the error
    records of the log are [Error: Error: HTTP <status>], one for each
    request whose response had a status other than 200, in order. *)
Theorem run_logged_errors data_dir dir_exists net limit nsfw depth fs :
  List.filter is_error (log (run_logged data_dir dir_exists net limit nsfw depth fs).1) =
  map error_record (failed net (sent (core (run_logged data_dir dir_exists net limit nsfw depth fs).1))).
Proof.
  apply (run_loop_logged_inv _ _ _ _ _
           (fun st => List.filter is_error (log st) = map error_record (failed net (sent (core st)))));
    [apply iteration_logged_errors | reflexivity].
Qed.

(** C34: a walk that ends normally before its [depth] requests ended at
    the end of the stream, and its last record says so. *)
Theorem run_logged_end data_dir dir_exists net limit nsfw depth fs :
  (run_logged data_dir dir_exists net limit nsfw depth fs).2 = None ->
  length (sent (core (run_logged data_dir dir_exists net limit nsfw depth fs).1)) < Z.to_nat depth ->
  last (log (run_logged data_dir dir_exists net limit nsfw depth fs).1) = Some (mk_record INFO done_msg).
Proof.
  intros Hn Hlt. destruct (run_loop_logged_end data_dir dir_exists net limit nsfw (Z.to_nat depth)
                            (mk_lstate (mk_cstate None fs []) []) Hn) as [Hl|Hl]; [|done].
  unfold run_logged in Hlt. rewrite Hl in Hlt. cbn in Hlt. lia.
Qed.

(** The walk of [Crawler.demo_net] with [depth = 10]: a page, an HTTP
    error (500), a page, and a page without a next cursor. *)
Lemma run_logged_end_witness :
  (run_logged "datas" demo_dirs demo_net 100 false 10 ∅).2 = None /\
  length (sent (core (run_logged "datas" demo_dirs demo_net 100 false 10 ∅).1)) < Z.to_nat 10 /\
  last (log (run_logged "datas" demo_dirs demo_net 100 false 10 ∅).1) = Some (mk_record INFO done_msg).
Proof.
  assert ((run_logged "datas" demo_dirs demo_net 100 false 10 ∅).2 = None) as Hn by (vm_compute; reflexivity).
  assert (length (sent (core (run_logged "datas" demo_dirs demo_net 100 false 10 ∅).1)) < Z.to_nat 10) as Hl
    by (vm_compute; lia).
  split; [exact Hn|]. split; [exact Hl|]. exact (run_logged_end _ _ _ _ _ _ _ Hn Hl).
Defined.

(** The records of that walk, as the script prints them. *)
Example demo_log :
  log (run_logged "datas" demo_dirs demo_net 100 false 10 ∅).1 =
  [mk_record INFO "Requesting with cursor None and params {'limit': 100, 'nsfw': 'false'} ...";
   mk_record INFO "Fetched 1 images. Saved result to None";
   mk_record INFO "Requesting with cursor abc and params {'limit': 100, 'nsfw': 'false'} ...";
   mk_record ERROR "Error: Error: HTTP 500";
   mk_record INFO "Requesting with cursor abc and params {'limit': 100, 'nsfw': 'false'} ...";
   mk_record INFO "Fetched 1 images. Saved result to abc";
   mk_record INFO "Requesting with cursor def and params {'limit': 100, 'nsfw': 'false'} ...";
   mk_record INFO "Fetched 1 images. Saved result to def";
   mk_record INFO "Cursor not found is crawl done."].
Proof. vm_compute. reflexivity. Qed.
