(* ===== verification/Histogram.v ===== *)
(** The text histogram of [src/visualize.py], [make_histogram], shared by
    the analyzer (over the [count] column) and the viewer (over
    [likeScore]).

    [np.histogram(data, bins)] is modelled by the uniform-bin path of
    numpy in exact rational arithmetic: the outer edges are the minimum
    and the maximum (widened by 0.5 on each side when they are equal,
    [(0, 1)] for no data), a value [x] goes to bin
    [floor((x - lo) * bins / (hi - lo))], the last edge belonging to the
    last bin.  numpy's floating-point corrections of that index are exact
    no-ops in this arithmetic.  Each printed row is kept as its interval,
    its bar length and its count; the text formatting is not modelled. *)

From Stdlib Require Import Qround Psatz.
From S2P Require Import Prelude PyValue.

(** [df[col].dropna()] *)
Definition dropna (col : list pyval) : list pyval :=
  List.filter (fun v => match v with PNaN | PNone => false | _ => true end) col.

(** The value numpy reads from a non-missing cell. *)
Definition to_Q (v : pyval) : Py Q :=
  match to_num v with
  | Some n => match num_to_Q n with Some q => Ok q | None => Err ValueError end
  | None => Err TypeError
  end.

Definition qmin (a b : Q) : Q := if Qle_bool a b then a else b.
Definition qmax (a b : Q) : Q := if Qle_bool a b then b else a.

(** numpy's [_get_outer_edges]: [(0, 1)] for no data, else the range of
    the data, widened to [(v - 0.5, v + 0.5)] when it is a single value. *)
Definition outer_edges (xs : list Q) : Q * Q :=
  match xs with
  | [] => (0%Q, 1%Q)
  | x :: xs' =>
      let lo := fold_left qmin xs' x in
      let hi := fold_left qmax xs' x in
      if Qeq_bool lo hi then (lo - (1#2), hi + (1#2))%Q else (lo, hi)
  end.

(** The bin of [x]: [(x - lo) * (bins / (hi - lo))] truncated, the value
    [bins] (reached at the last edge) moved into the last bin. *)
Definition bin_index (bins : nat) (lo hi x : Q) : nat :=
  let i := Z.to_nat (Qfloor ((x - lo) * (inject_Z (Z.of_nat bins) / (hi - lo)))%Q) in
  if Nat.eqb i bins then bins - 1 else i.

(** [np.bincount(indices, minlength=bins)] *)
Definition hist_counts (bins : nat) (lo hi : Q) (xs : list Q) : list nat :=
  map (fun i => length (List.filter (fun x => Nat.eqb (bin_index bins lo hi x) i) xs))
      (seq 0 bins).

(** The [bins + 1] edges [lo + i * (hi - lo) / bins]. *)
Definition hist_edges (bins : nat) (lo hi : Q) : list Q :=
  map (fun i => lo + inject_Z (Z.of_nat i) * (hi - lo) / inject_Z (Z.of_nat bins))%Q
      (seq 0 (S bins)).

(** [np.histogram(data, bins=bins)]; numpy rejects [bins < 1]. *)
Definition np_histogram (xs : list Q) (bins : nat) : Py (list nat * list Q) :=
  if Nat.eqb bins 0 then Err ValueError else
  let '(lo, hi) := outer_edges xs in
  Ok (hist_counts bins lo hi xs, hist_edges bins lo hi).

(** [a / b] truncated by [int()], on non-negative integers. *)
Definition int_div (a b : nat) : Py nat :=
  if Nat.eqb b 0 then Err ZeroDivisionError else Ok (a / b).

(** One printed line: the bin's interval, the bar length and the count. *)
Record hrow := mk_hrow { h_lo : Q; h_hi : Q; h_bar : nat; h_count : nat }.

(** [make_histogram(df, col, bins, width)] on the column's cells. *)
Definition make_histogram (col : list pyval) (bins width : nat) : Py (list hrow) :=
  data <- map_res to_Q (dropna col) ;;
  ce <- np_histogram data bins ;;
  let '(counts, edges) := ce in
  let max_count := if 0 <? list_max counts then list_max counts else 1 in
  map_res (fun i =>
             bar_len <- int_div (width * nth i counts 0) max_count ;;
             Ok (mk_hrow (nth i edges 0%Q) (nth (S i) edges 0%Q) bar_len (nth i counts 0)))
          (seq 0 (length counts)).

(** ** Lemmas *)

Lemma qmin_le_l a b : (qmin a b <= a)%Q.
Proof.
  unfold qmin. destruct (Qle_bool a b) eqn:E; [apply Qle_refl|].
  apply Qlt_le_weak, Qnot_le_lt. intros H. apply Qle_bool_iff in H. congruence.
Qed.

Lemma qmin_le_r a b : (qmin a b <= b)%Q.
Proof. unfold qmin. destruct (Qle_bool a b) eqn:E; [by apply Qle_bool_iff | apply Qle_refl]. Qed.

Lemma qmax_ge_l a b : (a <= qmax a b)%Q.
Proof. unfold qmax. destruct (Qle_bool a b) eqn:E; [by apply Qle_bool_iff | apply Qle_refl]. Qed.

Lemma qmax_ge_r a b : (b <= qmax a b)%Q.
Proof.
  unfold qmax. destruct (Qle_bool a b) eqn:E; [apply Qle_refl|].
  apply Qlt_le_weak, Qnot_le_lt. intros H. apply Qle_bool_iff in H. congruence.
Qed.

Lemma fold_qmin_le l a : (fold_left qmin l a <= a)%Q /\ Forall (fun y => fold_left qmin l a <= y)%Q l.
Proof.
  revert a; induction l as [|y l IH]; intros a; simpl; [split; [apply Qle_refl | done]|].
  destruct (IH (qmin a y)) as [H1 H2]. split; [|constructor; [|done]].
  - eapply Qle_trans; [exact H1 | apply qmin_le_l].
  - eapply Qle_trans; [exact H1 | apply qmin_le_r].
Qed.

Lemma fold_qmax_ge l a : (a <= fold_left qmax l a)%Q /\ Forall (fun y => y <= fold_left qmax l a)%Q l.
Proof.
  revert a; induction l as [|y l IH]; intros a; simpl; [split; [apply Qle_refl | done]|].
  destruct (IH (qmax a y)) as [H1 H2]. split; [|constructor; [|done]].
  - eapply Qle_trans; [apply qmax_ge_l | exact H1].
  - eapply Qle_trans; [apply qmax_ge_r | exact H1].
Qed.

(** The outer edges enclose the data and are distinct. *)
Lemma outer_edges_spec xs lo hi :
  outer_edges xs = (lo, hi) -> (lo < hi)%Q /\ Forall (fun x => lo <= x <= hi)%Q xs.
Proof.
  destruct xs as [|x xs]; simpl; [intros [= <- <-]; split; [reflexivity | done]|].
  destruct (fold_qmin_le xs x) as [Hm Hms]. destruct (fold_qmax_ge xs x) as [HM HMs].
  destruct (Qeq_bool _ _) eqn:Heq; intros [= <- <-].
  - apply Qeq_bool_iff in Heq. split; [lra|].
    constructor; [lra|]. apply Forall_forall. intros y Hy.
    apply Forall_forall with (x := y) in Hms, HMs; auto. lra.
  - split.
    + destruct (Qle_lt_or_eq _ _ (Qle_trans _ _ _ Hm HM)) as [|E]; [done|].
      apply Qeq_bool_iff in E. congruence.
    + constructor; [lra|]. apply Forall_forall. intros y Hy.
      apply Forall_forall with (x := y) in Hms, HMs; auto.
Qed.

(** A value between distinct edges lands in one of the [bins] bins. *)
Lemma bin_index_lt bins lo hi x :
  0 < bins -> (lo < hi)%Q -> (lo <= x <= hi)%Q -> bin_index bins lo hi x < bins.
Proof.
  intros Hb Hlh [Hlx Hxh]. unfold bin_index.
  set (b := inject_Z (Z.of_nat bins)).
  assert (0 <= b)%Q as Hb0 by (unfold b; change 0%Q with (inject_Z 0); rewrite <- Zle_Qle; lia).
  assert ((x - lo) * (b / (hi - lo)) <= b)%Q as Hq.
  { setoid_replace ((x - lo) * (b / (hi - lo)))%Q with ((x - lo) * b / (hi - lo))%Q
      using relation Qeq by (field; lra).
    apply Qle_shift_div_r; [lra | nra]. }
  apply Qfloor_resp_le in Hq. unfold b in *. rewrite Qfloor_Z in Hq.
  remember (Qfloor _) as z eqn:Ez. clear Ez Hb0 Hlx Hxh Hlh.
  destruct (Nat.eqb_spec (Z.to_nat z) bins); lia.
Qed.

(** numpy counts every value once. *)
Lemma hist_counts_sum bins xs lo hi :
  0 < bins -> outer_edges xs = (lo, hi) -> sum_list (hist_counts bins lo hi xs) = length xs.
Proof.
  intros Hb Hoe. destruct (outer_edges_spec xs lo hi Hoe) as [Hlh Hin].
  unfold hist_counts. rewrite <- (sum_buckets (bin_index bins lo hi) bins xs).
  - clear. induction (seq 0 bins); simpl; lia.
  - eapply Forall_impl; [exact Hin|]. intros x Hx. by apply bin_index_lt.
Qed.

Lemma map_res_map {E A B} (f : A -> result E B) (g : A -> B) l :
  (forall x, In x l -> f x = Ok (g x)) -> map_res f l = Ok (map g l).
Proof.
  induction l as [|x l IH]; intros Hf; simpl; [done|].
  rewrite Hf by (left; done). rewrite IH by (intros y Hy; apply Hf; by right). done.
Qed.

Lemma map_nth_seq_self (l : list nat) : map (fun i => nth i l 0) (seq 0 (length l)) = l.
Proof.
  induction l as [|x l IH]; simpl; [done|]. f_equal.
  rewrite <- seq_shift, map_map. simpl. exact IH.
Qed.

Lemma in_le_list_max (l : list nat) x : In x l -> x <= list_max l.
Proof.
  intros Hx. assert (Forall (fun k => k <= list_max l) l) as Hall by (apply list_max_le; lia).
  rewrite List.Forall_forall in Hall. by apply Hall.
Qed.

(** The bar length of a count, with numpy's maximum guarded by 1. *)
Definition bar_of (width : nat) (counts : list nat) (c : nat) : nat :=
  width * c / (if 0 <? list_max counts then list_max counts else 1).

Lemma make_histogram_inv col bins width rows :
  make_histogram col bins width = Ok rows ->
  exists xs lo hi, map_res to_Q (dropna col) = Ok xs /\ outer_edges xs = (lo, hi) /\ 0 < bins /\
    map h_count rows = hist_counts bins lo hi xs /\
    Forall (fun r => h_bar r = bar_of width (hist_counts bins lo hi xs) (h_count r)) rows.
Proof.
  unfold make_histogram, np_histogram.
  destruct (map_res to_Q (dropna col)) as [xs|]; [|discriminate].
  destruct (Nat.eqb_spec bins 0); [discriminate|].
  destruct (outer_edges xs) as [lo hi] eqn:Hoe.
  set (counts := hist_counts bins lo hi xs). set (edges := hist_edges bins lo hi).
  rewrite (map_res_map _ (fun i => mk_hrow (nth i edges 0%Q) (nth (S i) edges 0%Q)
             (bar_of width counts (nth i counts 0)) (nth i counts 0))).
  2:{ intros i _. unfold int_div, bar_of. destruct (Nat.ltb_spec 0 (list_max counts)).
      - destruct (Nat.eqb_spec (list_max counts) 0); [lia | done].
      - done. }
  intros [= <-]. exists xs, lo, hi. do 2 (split; [done|]). split; [lia|]. split.
  - rewrite map_map. simpl. apply map_nth_seq_self.
  - apply List.Forall_forall. intros r Hr. apply in_map_iff in Hr as (i & <- & _). done.
Qed.

Lemma make_histogram_total col bins width :
  0 < bins -> Forall (fun v => exists q, to_Q v = Ok q) (dropna col) ->
  exists rows, make_histogram col bins width = Ok rows /\ length rows = bins.
Proof.
  intros Hb Hcol. destruct (map_res_ok to_Q _ Hcol) as [xs Hxs].
  unfold make_histogram, np_histogram. rewrite Hxs.
  destruct (Nat.eqb_spec bins 0); [lia|].
  destruct (outer_edges xs) as [lo hi].
  set (counts := hist_counts bins lo hi xs). set (edges := hist_edges bins lo hi).
  rewrite (map_res_map _ (fun i => mk_hrow (nth i edges 0%Q) (nth (S i) edges 0%Q)
             (bar_of width counts (nth i counts 0)) (nth i counts 0))).
  - eexists; split; [done|]. rewrite length_map, length_seq. unfold counts, hist_counts.
    by rewrite length_map, length_seq.
  - intros i _. unfold int_div, bar_of. destruct (Nat.ltb_spec 0 (list_max counts)).
    + destruct (Nat.eqb_spec (list_max counts) 0); [lia | done].
    + done.
Qed.

(** C36: [make_histogram] never divides by zero: on a column whose
    non-missing values are numbers it prints one row per bin, also when
    every count is 0 (no data) or the column has a single value. *)
Theorem make_histogram_rows col bins width :
  0 < bins -> Forall (fun v => exists q, to_Q v = Ok q) (dropna col) ->
  exists rows, make_histogram col bins width = Ok rows /\ length rows = bins.
Proof. apply make_histogram_total. Qed.

(** C37: every bar is at most [width] blocks long, and a bin holding the
    largest non-zero count gets a bar of exactly [width] blocks. *)
Theorem make_histogram_bars col bins width rows r :
  make_histogram col bins width = Ok rows -> In r rows ->
  h_bar r <= width /\
  (h_count r = list_max (map h_count rows) -> 0 < h_count r -> h_bar r = width).
Proof.
  intros Hm Hr. destruct (make_histogram_inv col bins width rows Hm)
    as (xs & lo & hi & _ & _ & _ & Hcounts & Hbars).
  rewrite List.Forall_forall in Hbars. rewrite (Hbars r Hr), Hcounts. unfold bar_of.
  assert (h_count r <= list_max (hist_counts bins lo hi xs)) as Hle.
  { rewrite <- Hcounts. apply in_le_list_max. by apply in_map. }
  destruct (Nat.ltb_spec 0 (list_max (hist_counts bins lo hi xs))) as [Hpos|Hz].
  - split.
    + apply Nat.Div0.div_le_upper_bound. rewrite Nat.mul_comm. by apply Nat.mul_le_mono_r.
    + intros -> _. by rewrite Nat.div_mul by lia.
  - split; [|lia]. assert (h_count r = 0) as -> by lia. rewrite Nat.mul_0_r. simpl. lia.
Qed.

(** C38: the counts printed add up to the number of non-missing values of
    the column: numpy puts every value, the maximum included, in exactly
    one bin. *)
Theorem make_histogram_counts_sum col bins width rows :
  make_histogram col bins width = Ok rows ->
  sum_list (map h_count rows) = length (dropna col).
Proof.
  intros Hm. destruct (make_histogram_inv col bins width rows Hm)
    as (xs & lo & hi & Hxs & Hoe & Hb & Hcounts & _).
  rewrite Hcounts, (hist_counts_sum bins xs lo hi Hb Hoe). by apply map_res_length in Hxs.
Qed.

(** ** Witnesses *)

Lemma make_histogram_rows_witness :
  exists rows, make_histogram [PInt 5; PNaN; PInt 5] 20 100 = Ok rows /\ length rows = 20.
Proof. apply make_histogram_rows; [lia|]. repeat constructor; eexists; reflexivity. Defined.

Lemma make_histogram_bars_witness :
  h_bar (mk_hrow (4#2) (6#2) 100 3) <= 100 /\
  (h_count (mk_hrow (4#2) (6#2) 100 3) =
     list_max (map h_count [mk_hrow (2#2) (4#2) 33 1; mk_hrow (4#2) (6#2) 100 3]) ->
   0 < h_count (mk_hrow (4#2) (6#2) 100 3) -> h_bar (mk_hrow (4#2) (6#2) 100 3) = 100).
Proof.
  apply (make_histogram_bars [PInt 1; PInt 2; PInt 3; PNaN; PInt 3] 2 100).
  - vm_compute. reflexivity.
  - right; left; reflexivity.
Defined.

Lemma make_histogram_counts_sum_witness :
  sum_list (map h_count [mk_hrow (2#2) (4#2) 33 1; mk_hrow (4#2) (6#2) 100 3]) =
  length (dropna [PInt 1; PInt 2; PInt 3; PNaN; PInt 3]).
Proof. apply (make_histogram_counts_sum _ 2 100). vm_compute. reflexivity. Defined.
