(* ===== verification/Analyzer.v ===== *)
(** The analyzer of [src/analyze_json.py]: [main] (lines 56-105) and its
    menu loop.

    [main] walks [data.get('items', [])] and feeds four counters: the
    truthy [baseModel] of each item, and the [name], [modelVersionId] and
    [name] of the entries of [meta.resources], [meta.civitaiResources]
    and [meta.additionalResources].  The loop is written against the
    [FreqTable] interface of [Counter.v] and proved against its laws; the
    script itself is the instance at [Counter.t].  An exception raised
    inside the loop escapes [main]: the counters' partial contents are
    then never observed, so the model returns the exception alone.

    The menu loop [interact_with_df] (lines 12-54, with [print_menu] and
    [get_count_filter]) is [interact_loop], a function of the lines typed:
    each view it prints is the frame chosen, the histogram of its counts,
    the filter read and the rows kept; the end of input is [EOFError]. *)

From Stdlib Require Import Ascii.
From S2P Require Import Prelude PyValue PyInt Counter Histogram.

(** The four tables [main] builds, in the order of its [dfs] dict. *)
Record tables (T : Type) := mk_tables {
  base_model : T;
  resources : T;
  civitai_resources : T;
  additional_resources : T
}.
Arguments mk_tables {T}.
Arguments base_model {T}.
Arguments resources {T}.
Arguments civitai_resources {T}.
Arguments additional_resources {T}.

Section Counting.
Context `{FreqTable T}.

Definition empty_tables : tables T := mk_tables ft_empty ft_empty ft_empty ft_empty.

(** [if rs: for resource in rs: counter[resource.get(field)] += 1] *)
Definition count_resources (field : string) (c : T) (rs : pyval) : Py T :=
  if truthy rs then
    xs <- py_iter rs ;;
    fold_res (fun c r => k <- py_get r field PNone ;; ft_incr k c) c xs
  else Ok c.

(** The body of [for item in data.get('items', [])]. *)
Definition count_item (t : tables T) (item : pyval) : Py (tables T) :=
  m <- py_get item "meta" PNone ;;
  let meta := if truthy m then m else PDict [] in
  bm <- py_get item "baseModel" PNone ;;
  bc <- (if truthy bm then ft_incr bm (base_model t) else Ok (base_model t)) ;;
  rs <- py_get meta "resources" PNone ;;
  rc <- count_resources "name" (resources t) rs ;;
  crs <- py_get meta "civitaiResources" PNone ;;
  cc <- count_resources "modelVersionId" (civitai_resources t) crs ;;
  ars <- py_get meta "additionalResources" PNone ;;
  ac <- count_resources "name" (additional_resources t) ars ;;
  Ok (mk_tables bc rc cc ac).

(** The four counters of [main] for the loaded document [data]. *)
Definition count_all (data : pyval) : Py (tables T) :=
  items <- py_get data "items" (PList []) ;;
  xs <- py_iter items ;;
  fold_res count_item empty_tables xs.

End Counting.

(** [main] as the script runs it, with [collections.Counter]. *)
Definition main_counts (data : pyval) : Py (tables Counter.t) := count_all data.

(** ** The menu loop of [interact_with_df] *)

(** [int(s)] of a string of digits. *)
Definition parse_nat (s : string) : nat :=
  fold_left (fun acc c => 10 * acc + (nat_of_ascii c - 48)) (String.list_ascii_of_string s) 0.

(** The [dfs] dict: [pd.DataFrame(counter.items(), columns=[..., 'count'])]
    for each table, under the names of [main]. *)
Definition frames (t : tables Counter.t) : list (string * list (pyval * nat)) :=
  [("base_model", Counter.items (base_model t));
   ("resources", Counter.items (resources t));
   ("civitai_resources", Counter.items (civitai_resources t));
   ("additional_resources", Counter.items (additional_resources t))].

(** [df[df['count'] >= count_filter]], or [df] without a filter. *)
Definition filter_rows (f : option nat) (rows : list (pyval * nat)) : list (pyval * nat) :=
  match f with None => rows | Some t => List.filter (fun r => t <=? r.2) rows end.

(** What one round of the menu prints: the frame's name, its histogram,
    the filter read and the rows shown. *)
Record view := mk_view {
  v_name : string; v_hist : list hrow; v_filter : option nat; v_rows : list (pyval * nat)
}.

(** Where the next [input()] is read: in [print_menu], or in
    [get_count_filter] for the frame chosen, whose histogram is printed. *)
Inductive mode := AtMenu | AtFilter (sel : nat) (h : list hrow).

(** [interact_with_df]: one transition per line read.  The result is the
    views printed and how the loop ended: [None] for the exit choice,
    [Some e] for an exception ([EOFError] when the input runs out). *)
Fixpoint interact_loop (dfs : list (string * list (pyval * nat))) (m : mode)
    (inputs : list string) : list view * option exc :=
  match inputs with
  | [] => ([], Some EOFError)
  | line :: rest =>
      match m with
      | AtMenu =>
          let sel := strip line in
          if is_digits sel && (1 <=? parse_nat sel) && (parse_nat sel <=? S (length dfs)) then
            if Nat.eqb (parse_nat sel) (S (length dfs)) then ([], None)
            else
              let rows := default [] (snd <$> dfs !! (parse_nat sel - 1)) in
              match make_histogram (map (fun r => PInt (Z.of_nat r.2)) rows) 20 100 with
              | Ok h => interact_loop dfs (AtFilter (parse_nat sel) h) rest
              | Err e => ([], Some e)
              end
          else interact_loop dfs AtMenu rest
      | AtFilter k h =>
          let v := strip line in
          let '(name, rows) := default ("", []) (dfs !! (k - 1)) in
          if String.eqb v "" then
            let '(vs, e) := interact_loop dfs AtMenu rest in
            (mk_view name h None rows :: vs, e)
          else if is_digits v then
            let '(vs, e) := interact_loop dfs AtMenu rest in
            (mk_view name h (Some (parse_nat v)) (filter_rows (Some (parse_nat v)) rows) :: vs, e)
          else interact_loop dfs (AtFilter k h) rest
      end
  end.

(** [interact_with_df(dfs, counters)] on the lines typed. *)
Definition interact_with_df (t : tables Counter.t) (inputs : list string) : list view * option exc :=
  interact_loop (frames t) AtMenu inputs.

(** [main(json_path)] on the loaded document and the lines typed. *)
Definition analyze_main (data : pyval) (inputs : list string) : list view * option exc :=
  match main_counts data with
  | Ok t => interact_with_df t inputs
  | Err e => ([], Some e)
  end.

(** ** What the tables count *)

(** [item.get(f)] of an object, [None] when the key is missing. *)
Definition field (v : pyval) (f : string) : pyval :=
  match v with PDict kvs => default PNone (dict_lookup f kvs) | _ => PNone end.

(** [item.get('meta') or {}] *)
Definition item_meta (item : pyval) : pyval :=
  let m := field item "meta" in if truthy m then m else PDict [].

(** The entries of a resource list ([[]] for anything but a list). *)
Definition entry_list (rs : pyval) : list pyval :=
  match rs with PList l => l | _ => [] end.

(** The keys a table receives from the items [xs]: the truthy base model
    of each item, or the [sub] field (possibly [None]) of each entry of
    the resource list [f] of each item. *)
Definition base_model_keys (xs : list pyval) : list pyval :=
  List.filter truthy (map (fun it => field it "baseModel") xs).

Definition resource_keys (xs : list pyval) (f sub : string) : list pyval :=
  flat_map (fun it => map (fun r => field r sub) (entry_list (field (item_meta it) f))) xs.

Lemma base_model_keys_cons x xs : base_model_keys (x :: xs) = base_model_keys [x] ++ base_model_keys xs.
Proof. unfold base_model_keys. simpl. by destruct (truthy _). Qed.

Lemma resource_keys_cons x xs f sub :
  resource_keys (x :: xs) f sub = resource_keys [x] f sub ++ resource_keys xs f sub.
Proof. unfold resource_keys. simpl. by rewrite app_nil_r. Qed.

Section CountingProofs.
Context `{FreqTableSpec T}.

(** [c'] is [c] with the keys [ks] counted once more. *)
Definition adds (c c' : T) (ks : list pyval) : Prop :=
  (forall k, ft_get c' k = ft_get c k + mult ks k) /\ ft_total c' = ft_total c + length ks.

Lemma mult_app ks1 ks2 k : mult (ks1 ++ ks2) k = mult ks1 k + mult ks2 k.
Proof. unfold mult. by rewrite List.filter_app, length_app. Qed.

Lemma adds_nil c : adds c c [].
Proof. split; [intros k; unfold mult; simpl; lia | simpl; lia]. Qed.

Lemma adds_app c1 c2 c3 ks1 ks2 : adds c1 c2 ks1 -> adds c2 c3 ks2 -> adds c1 c3 (ks1 ++ ks2).
Proof.
  intros [G1 T1] [G2 T2]. split; [intros k; rewrite G2, G1, mult_app; lia|].
  rewrite T2, T1, length_app. lia.
Qed.

Lemma adds_incr k c c' : ft_incr k c = Ok c' -> adds c c' [k].
Proof.
  intros Hi. destruct (hashable k) eqn:Hk; [|by rewrite ft_incr_unhashable in Hi].
  destruct (ft_incr_hashable k c Hk) as (c1 & Hc1 & Ht & Hg).
  rewrite Hi in Hc1. injection Hc1 as <-. split; [|simpl; lia].
  intros k'. rewrite Hg, mult_cons. unfold mult. simpl. lia.
Qed.

Lemma py_get_dict o f d v : py_get o f d = Ok v -> exists kvs, o = PDict kvs.
Proof. destruct o; simpl; try discriminate. eauto. Qed.

Lemma count_resources_adds f c rs c' :
  count_resources f c rs = Ok c' ->
  adds c c' (map (fun r => field r f) (entry_list rs)).
Proof.
  unfold count_resources. destruct (truthy rs) eqn:Ht; [|intros [= <-]].
  2:{ destruct rs as [| | | | | |[]|]; try apply adds_nil; discriminate. }
  destruct (py_iter rs) as [xs|] eqn:Hit; [|discriminate]. intros Hf.
  assert (Forall (fun r => exists kvs, r = PDict kvs) xs) as Hd.
  { eapply fold_res_ok_Forall; [|exact Hf]. simpl. intros a x a' Hx.
    destruct (py_get x f PNone) eqn:Hg; [|discriminate]. by eapply py_get_dict. }
  assert (entry_list rs = xs) as ->.
  { destruct rs as [| | | | |[|ch s]|l|[|[k v] kvs]]; simpl in *; try discriminate;
      injection Hit as <-; try done; inversion Hd as [|? ? [? ?]]; discriminate. }
  clear Hit Hd. revert c Hf. induction xs as [|r xs IH]; intros c Hf; simpl in *.
  - injection Hf as <-. apply adds_nil.
  - destruct (py_get r f PNone) as [k|] eqn:Hg; [|discriminate].
    destruct (ft_incr k c) as [c1|] eqn:Hi; [|discriminate].
    destruct r; try discriminate. simpl in Hg. injection Hg as <-.
    apply (adds_app c c1 c' [_]); [by apply adds_incr | by apply IH].
Qed.

Lemma py_get_field o f v : py_get o f PNone = Ok v -> v = field o f.
Proof. destruct o; simpl; try discriminate. by intros [= <-]. Qed.

(** The keys one item adds to each table. *)
Definition item_adds (t t' : tables T) (item : pyval) : Prop :=
  adds (base_model t) (base_model t') (base_model_keys [item]) /\
  adds (resources t) (resources t') (resource_keys [item] "resources" "name") /\
  adds (civitai_resources t) (civitai_resources t')
    (resource_keys [item] "civitaiResources" "modelVersionId") /\
  adds (additional_resources t) (additional_resources t')
    (resource_keys [item] "additionalResources" "name").

Lemma count_item_adds t item t' : count_item t item = Ok t' -> item_adds t t' item.
Proof.
  unfold count_item, item_adds, resource_keys, base_model_keys, item_meta. simpl.
  destruct (py_get item "meta" PNone) as [m|] eqn:Hm; [|discriminate].
  apply py_get_field in Hm as ->.
  destruct (py_get item "baseModel" PNone) as [bm|] eqn:Hbm; [|discriminate].
  apply py_get_field in Hbm as ->.
  set (meta := if truthy (field item "meta") then field item "meta" else PDict []).
  intros Hok. inv_ok. rewrite !app_nil_r.
  repeat match goal with H : py_get _ _ PNone = Ok _ |- _ => apply py_get_field in H as -> end.
  split; [|split; [|split]]; try (eapply count_resources_adds; eassumption).
  destruct (truthy (field item "baseModel")); [by apply adds_incr | inv_ok; apply adds_nil].
Qed.

Lemma fold_count_item_adds t xs t' :
  fold_res count_item t xs = Ok t' ->
  adds (base_model t) (base_model t') (base_model_keys xs) /\
  adds (resources t) (resources t') (resource_keys xs "resources" "name") /\
  adds (civitai_resources t) (civitai_resources t')
    (resource_keys xs "civitaiResources" "modelVersionId") /\
  adds (additional_resources t) (additional_resources t')
    (resource_keys xs "additionalResources" "name").
Proof.
  revert t. induction xs as [|x xs IH]; intros t; cbn [fold_res].
  - intros [= <-]. split; [|split; [|split]]; apply adds_nil.
  - destruct (count_item t x) as [t1|] eqn:Hx; [|discriminate]. intros Hf.
    destruct (count_item_adds t x t1 Hx) as (A1 & A2 & A3 & A4).
    destruct (IH t1 Hf) as (B1 & B2 & B3 & B4).
    rewrite (base_model_keys_cons x xs), !(resource_keys_cons x xs).
    split; [|split; [|split]]; eapply adds_app; eauto.
Qed.

End CountingProofs.

Lemma length_base_model_keys xs :
  length (base_model_keys xs) = length (List.filter (fun it => truthy (field it "baseModel")) xs).
Proof.
  unfold base_model_keys. induction xs as [|x xs IH]; simpl; [done|].
  destruct (truthy (field x "baseModel")); simpl; lia.
Qed.

Lemma length_resource_keys xs f sub :
  length (resource_keys xs f sub) =
  sum_list_with (fun it => length (entry_list (field (item_meta it) f))) xs.
Proof.
  unfold resource_keys. induction xs as [|x xs IH]; simpl; [done|].
  by rewrite length_app, length_map, IH.
Qed.

Lemma main_counts_adds data t :
  main_counts data = Ok t ->
  exists items xs, py_get data "items" (PList []) = Ok items /\ py_iter items = Ok xs /\
  adds Counter.empty (base_model t) (base_model_keys xs) /\
  adds Counter.empty (resources t) (resource_keys xs "resources" "name") /\
  adds Counter.empty (civitai_resources t)
    (resource_keys xs "civitaiResources" "modelVersionId") /\
  adds Counter.empty (additional_resources t)
    (resource_keys xs "additionalResources" "name").
Proof.
  unfold main_counts, count_all.
  destruct (py_get data "items" (PList [])) as [items|] eqn:Hi; [|discriminate].
  destruct (py_iter items) as [xs|] eqn:Hx; [|discriminate]. intros Hf.
  exists items, xs. do 2 (split; [done|]). by apply fold_count_item_adds in Hf.
Qed.

(** C4: the four tables of [analyze_json.main] refine multisets of keys:
    the base-model table counts the truthy [baseModel] of each item, and
    each resource table counts the [name] (resp. [modelVersionId]) of
    every entry of the item's resource list, a missing field being
    counted under the key [None]. *)
Theorem main_counts_tables data t :
  main_counts data = Ok t ->
  exists items xs, py_get data "items" (PList []) = Ok items /\ py_iter items = Ok xs /\
  forall k,
    Counter.get (base_model t) k = mult (base_model_keys xs) k /\
    Counter.get (resources t) k = mult (resource_keys xs "resources" "name") k /\
    Counter.get (civitai_resources t) k =
      mult (resource_keys xs "civitaiResources" "modelVersionId") k /\
    Counter.get (additional_resources t) k =
      mult (resource_keys xs "additionalResources" "name") k.
Proof.
  intros Ht. destruct (main_counts_adds data t Ht)
    as (items & xs & Hi & Hx & [G1 _] & [G2 _] & [G3 _] & [G4 _]).
  exists items, xs. do 2 (split; [done|]). intros k.
  split; [exact (G1 k)|split; [exact (G2 k)|split; [exact (G3 k)|exact (G4 k)]]].
Qed.

(** Reordering the items reorders the keys that are counted. *)
#[local] Instance filter_perm_proper (f : pyval -> bool) :
  Proper ((≡ₚ) ==> (≡ₚ)) (List.filter f).
Proof.
  induction 1 as [|x l l' _ IH|x y l|l l' l'' _ IH1 _ IH2]; cbn [List.filter].
  - done.
  - destruct (f x); [by apply perm_skip|done].
  - destruct (f x), (f y); [apply perm_swap|..]; done.
  - by etrans.
Qed.

Lemma base_model_keys_perm xs xs' : xs ≡ₚ xs' -> base_model_keys xs ≡ₚ base_model_keys xs'.
Proof. intros Hp. unfold base_model_keys. by rewrite Hp. Qed.

Lemma resource_keys_perm xs xs' f sub : xs ≡ₚ xs' -> resource_keys xs f sub ≡ₚ resource_keys xs' f sub.
Proof. intros Hp. unfold resource_keys. by rewrite Hp. Qed.

(** C35: the four tables of [analyze_json.main] do not depend on the
    order of the items of the document: two documents whose ["items"]
    lists are permutations of each other give equal tables ([Counter]
    equality, as Python's [==]) whenever both are counted. *)
Theorem main_counts_item_order data data' xs xs' t t' :
  py_get data "items" (PList []) = Ok (PList xs) -> py_get data' "items" (PList []) = Ok (PList xs') ->
  xs ≡ₚ xs' -> main_counts data = Ok t -> main_counts data' = Ok t' ->
  Counter.equiv (base_model t) (base_model t') /\ Counter.equiv (resources t) (resources t') /\
  Counter.equiv (civitai_resources t) (civitai_resources t') /\
  Counter.equiv (additional_resources t) (additional_resources t').
Proof.
  intros Hd Hd' Hp Ht Ht'.
  destruct (main_counts_adds data t Ht) as (i1 & x1 & Hi1 & Hx1 & [G1 _] & [G2 _] & [G3 _] & [G4 _]).
  destruct (main_counts_adds data' t' Ht') as (i2 & x2 & Hi2 & Hx2 & [F1 _] & [F2 _] & [F3 _] & [F4 _]).
  rewrite Hd in Hi1; rewrite Hd' in Hi2. injection Hi1 as <-; injection Hi2 as <-.
  injection Hx1 as <-; injection Hx2 as <-.
  repeat split; intros k; [rewrite G1, F1 | rewrite G2, F2 | rewrite G3, F3 | rewrite G4, F4]; cbn;
    by rewrite ?(base_model_keys_perm _ _ Hp), ?(resource_keys_perm _ _ _ _ Hp).
Qed.

(** C22: the counts of the base-model table add up to the number of items
    with a truthy [baseModel], but the counts of a resource table add up
    to the number of resource entries, not of items: an item with two
    resources contributes two. *)
Theorem main_counts_totals data t :
  main_counts data = Ok t ->
  exists items xs, py_get data "items" (PList []) = Ok items /\ py_iter items = Ok xs /\
  Counter.total (base_model t) =
    length (List.filter (fun it => truthy (field it "baseModel")) xs) /\
  Counter.total (resources t) =
    sum_list_with (fun it => length (entry_list (field (item_meta it) "resources"))) xs /\
  Counter.total (civitai_resources t) =
    sum_list_with (fun it => length (entry_list (field (item_meta it) "civitaiResources"))) xs /\
  Counter.total (additional_resources t) =
    sum_list_with (fun it => length (entry_list (field (item_meta it) "additionalResources"))) xs.
Proof.
  intros Ht. destruct (main_counts_adds data t Ht)
    as (items & xs & Hi & Hx & [_ T1] & [_ T2] & [_ T3] & [_ T4]).
  exists items, xs. do 2 (split; [done|]).
  simpl in T1, T2, T3, T4.
  rewrite T1, T2, T3, T4, length_base_model_keys, !length_resource_keys. done.
Qed.

(** An item that is not an object, or whose truthy [meta] is not an
    object, makes [main] fail with [AttributeError] ([.get] of a value
    that has no such method); nothing catches it. *)
Theorem count_item_attribute_error (t : tables Counter.t) item :
  is_dict item = false \/
  (truthy (field item "meta") = true /\ is_dict (field item "meta") = false /\
   hashable (field item "baseModel") = true) ->
  count_item t item = Err AttributeError.
Proof.
  intros [Hd|(Hm & Hmd & Hbm)]; [by destruct item|].
  destruct item as [| | | | | | |kvs]; try done. unfold count_item. simpl in *.
  remember (default PNone (dict_lookup "meta" kvs)) as m eqn:Em.
  remember (default PNone (dict_lookup "baseModel" kvs)) as bm eqn:Ebm.
  rewrite Hm. unfold Counter.incr. rewrite Hbm.
  destruct (truthy bm); destruct m; simpl in *; congruence.
Qed.

(** The page of the scenario of the specification. *)
Definition spec_page : pyval :=
  PDict [("items", PList [PDict [("baseModel", PStr "SD1.5")];
                          PDict [("baseModel", PStr "SD1.5")];
                          PDict [("baseModel", PStr "SDXL")]])].

(** On the page of the specification's scenario the base-model table
    is [{"SD1.5": 2, "SDXL": 1}], in this order, and the resource tables
    are empty. *)
Theorem main_counts_spec_scenario :
  exists t, main_counts spec_page = Ok t /\
    Counter.items (base_model t) = [(PStr "SD1.5", 2); (PStr "SDXL", 1)] /\
    Counter.items (resources t) = [] /\ Counter.items (civitai_resources t) = [] /\
    Counter.items (additional_resources t) = [].
Proof. eexists. split; [reflexivity|]. repeat split. Qed.

(** ** Witnesses *)

(** A page with resources, one without a [name]. *)
Definition demo_analyzer_page : pyval :=
  PDict [("items", PList [
    PDict [("baseModel", PStr "SDXL");
           ("meta", PDict [("resources", PList [PDict [("name", PStr "lora1")];
                                                PDict [("type", PStr "lora")]])])];
    PDict [("baseModel", PNone);
           ("meta", PDict [("civitaiResources", PList [PDict [("modelVersionId", PInt 7)]])])]])].

Lemma main_counts_tables_witness :
  exists items xs, py_get demo_analyzer_page "items" (PList []) = Ok items /\
  py_iter items = Ok xs /\
  forall k,
    Counter.get [(PStr "SDXL", 1)] k = mult (base_model_keys xs) k /\
    Counter.get [(PStr "lora1", 1); (PNone, 1)] k =
      mult (resource_keys xs "resources" "name") k /\
    Counter.get [(PInt 7, 1)] k =
      mult (resource_keys xs "civitaiResources" "modelVersionId") k /\
    Counter.get [] k = mult (resource_keys xs "additionalResources" "name") k.
Proof.
  apply (main_counts_tables demo_analyzer_page
           (mk_tables [(PStr "SDXL", 1)] [(PStr "lora1", 1); (PNone, 1)] [(PInt 7, 1)] [])).
  vm_compute. reflexivity.
Defined.

Definition demo_item_a : pyval :=
  PDict [("baseModel", PStr "SDXL"); ("meta", PDict [("resources", PList [PDict [("name", PStr "lora1")]])])].
Definition demo_item_b : pyval :=
  PDict [("baseModel", PStr "SD1.5"); ("meta", PDict [("resources", PList [PDict [("name", PStr "lora2")]])])].

Lemma main_counts_item_order_witness :
  Counter.equiv [(PStr "SDXL", 1); (PStr "SD1.5", 1)] [(PStr "SD1.5", 1); (PStr "SDXL", 1)] /\
  Counter.equiv [(PStr "lora1", 1); (PStr "lora2", 1)] [(PStr "lora2", 1); (PStr "lora1", 1)] /\
  Counter.equiv [] [] /\ Counter.equiv [] [].
Proof.
  apply (main_counts_item_order (PDict [("items", PList [demo_item_a; demo_item_b])])
           (PDict [("items", PList [demo_item_b; demo_item_a])]) [demo_item_a; demo_item_b] [demo_item_b; demo_item_a]
           (mk_tables [(PStr "SDXL", 1); (PStr "SD1.5", 1)] [(PStr "lora1", 1); (PStr "lora2", 1)] [] [])
           (mk_tables [(PStr "SD1.5", 1); (PStr "SDXL", 1)] [(PStr "lora2", 1); (PStr "lora1", 1)] [] []));
    [reflexivity | reflexivity | apply perm_swap | vm_compute; reflexivity | vm_compute; reflexivity].
Defined.

Lemma main_counts_totals_witness :
  exists items xs, py_get demo_analyzer_page "items" (PList []) = Ok items /\
  py_iter items = Ok xs /\
  Counter.total [(PStr "SDXL", 1)] =
    length (List.filter (fun it => truthy (field it "baseModel")) xs) /\
  Counter.total [(PStr "lora1", 1); (PNone, 1)] =
    sum_list_with (fun it => length (entry_list (field (item_meta it) "resources"))) xs /\
  Counter.total [(PInt 7, 1)] =
    sum_list_with (fun it => length (entry_list (field (item_meta it) "civitaiResources"))) xs /\
  Counter.total [] =
    sum_list_with (fun it => length (entry_list (field (item_meta it) "additionalResources"))) xs.
Proof.
  apply (main_counts_totals demo_analyzer_page
           (mk_tables [(PStr "SDXL", 1)] [(PStr "lora1", 1); (PNone, 1)] [(PInt 7, 1)] [])).
  vm_compute. reflexivity.
Defined.

Lemma count_item_attribute_error_witness :
  count_item (empty_tables (T := Counter.t))
    (PDict [("baseModel", PStr "SDXL"); ("meta", PStr "oops")]) = Err AttributeError.
Proof. apply count_item_attribute_error. right. vm_compute. auto. Defined.

(** ** Properties of the menu loop *)

(** A histogram of counts is always printed. *)
Lemma make_histogram_counts_ok (rows : list (pyval * nat)) :
  exists h, make_histogram (map (fun r => PInt (Z.of_nat r.2)) rows) 20 100 = Ok h.
Proof.
  destruct (make_histogram_total (map (fun r => PInt (Z.of_nat r.2)) rows) 20 100)
    as (h & Hh & _); [lia | | by eexists].
  induction rows as [|r rows IH]; simpl; constructor; [by eexists | exact IH].
Qed.

(** The frame chosen in [AtFilter] exists. *)
Definition mode_ok (dfs : list (string * list (pyval * nat))) (m : mode) : Prop :=
  match m with AtMenu => True | AtFilter k _ => is_Some (dfs !! (k - 1)) end.

(** [int(val)] after [val.isdigit()]: the digits read by [parse_nat]
    are the value of Python's [int] ([py_int_of_string]). *)
Lemma digits_fold l a b :
  Forall (fun c => is_digit c = true) l ->
  fold_left digit_step l (Some (Z.of_nat a, b)) =
  Some (Z.of_nat (fold_left (fun acc c => 10 * acc + (nat_of_ascii c - 48)) l a),
        match l with [] => b | _ => true end).
Proof.
  revert a b. induction l as [|c l IH]; intros a b Hl; [done|]. inversion Hl as [|? ? Hc Hl']; subst.
  cbn [fold_left]. unfold digit_step at 2. rewrite Hc.
  replace (10 * Z.of_nat a + Z.of_nat (nat_of_ascii c - 48))%Z
    with (Z.of_nat (10 * a + (nat_of_ascii c - 48))) by lia.
  rewrite IH by done. by destruct l.
Qed.

Lemma py_int_digits s :
  is_digits (strip s) = true -> py_int_of_string s = Some (Z.of_nat (parse_nat (strip s))).
Proof.
  unfold is_digits, py_int_of_string, parse_nat. intros [Hne Hall]%andb_prop.
  destruct (String.list_ascii_of_string (strip s)) as [|c l] eqn:E.
  - apply (f_equal String.string_of_list_ascii) in E.
    rewrite String.string_of_list_ascii_of_string in E. by rewrite E in Hne.
  - assert (Forall (fun c => is_digit c = true) (c :: l)) as Hd
      by (apply List.Forall_forall, forallb_forall, Hall).
    destruct (Ascii.eqb_spec c "+") as [->|]; [discriminate Hall|].
    destruct (Ascii.eqb_spec c "-") as [->|]; [discriminate Hall|].
    unfold digits_val. change (Some (0%Z, false)) with (Some (Z.of_nat 0, false)).
    by rewrite (digits_fold (c :: l) 0 false Hd).
Qed.

(** A valid menu choice moves to the filter question of that frame. *)
Lemma interact_menu_choice dfs line rest k name rows :
  is_digits (strip line) = true -> parse_nat (strip line) = k ->
  1 <= k <= length dfs -> dfs !! (k - 1) = Some (name, rows) ->
  exists h, make_histogram (map (fun r => PInt (Z.of_nat r.2)) rows) 20 100 = Ok h /\
    interact_loop dfs AtMenu (line :: rest) = interact_loop dfs (AtFilter k h) rest.
Proof.
  intros Hd Hk Hr Hlk. destruct (make_histogram_counts_ok rows) as [h Hh].
  exists h. split; [done|]. cbn [interact_loop]. rewrite Hd, Hk.
  rewrite (proj2 (Nat.leb_le 1 k)), (proj2 (Nat.leb_le k _)), (proj2 (Nat.eqb_neq k _)) by lia.
  cbn [andb]. rewrite Hlk. cbn [default fmap option_fmap option_map snd]. unfold id. by rewrite Hh.
Qed.

(** C23: one round of the analyzer's menu.  When the operator chooses
    the frame [k] ([int(choice)], a valid index) and then answers the
    count filter, the round prints one view of that frame and the
    session goes on at the menu with the remaining lines: on enter the
    view shows the whole frame; on a number [n] ([int(val)]) it shows the
    rows with [count >= n] in the frame's order; on anything else the
    filter is asked again, as if the answer had not been typed. *)
Theorem interact_views_filtered dfs line1 line2 rest k name rows :
  is_digits (strip line1) = true -> py_int_of_string line1 = Some (Z.of_nat k) ->
  1 <= k <= length dfs -> dfs !! (k - 1) = Some (name, rows) ->
  (strip line2 = "" -> exists h,
     interact_loop dfs AtMenu (line1 :: line2 :: rest) =
     (mk_view name h None rows :: (interact_loop dfs AtMenu rest).1, (interact_loop dfs AtMenu rest).2)) /\
  (forall n, is_digits (strip line2) = true -> py_int_of_string line2 = Some (Z.of_nat n) -> exists h,
     interact_loop dfs AtMenu (line1 :: line2 :: rest) =
     (mk_view name h (Some n) (List.filter (fun r => n <=? r.2) rows) :: (interact_loop dfs AtMenu rest).1,
      (interact_loop dfs AtMenu rest).2)) /\
  (strip line2 <> "" -> is_digits (strip line2) = false ->
     interact_loop dfs AtMenu (line1 :: line2 :: rest) = interact_loop dfs AtMenu (line1 :: rest)).
Proof.
  intros Hd1 Hk1 Hk Hlk.
  rewrite (py_int_digits _ Hd1) in Hk1. injection Hk1 as Hk1%Nat2Z.inj.
  destruct (interact_menu_choice dfs line1 (line2 :: rest) k name rows Hd1 Hk1 Hk Hlk) as (h & Hh & ->).
  destruct (interact_menu_choice dfs line1 rest k name rows Hd1 Hk1 Hk Hlk) as (h' & Hh' & ->).
  assert (h' = h) as -> by congruence.
  cbn [interact_loop]. rewrite Hlk. cbn [default]. unfold id.
  split; [|split].
  - intros He. exists h. rewrite He. cbn. by destruct (interact_loop dfs AtMenu rest).
  - intros n Hd2 Hn2. exists h. rewrite (py_int_digits _ Hd2) in Hn2. injection Hn2 as Hn2%Nat2Z.inj.
    rewrite Hd2, Hn2. destruct (String.eqb_spec (strip line2) "") as [He|]; [by rewrite He in Hd2|].
    by destruct (interact_loop dfs AtMenu rest).
  - intros Hne Hd2. rewrite Hd2. by destruct (String.eqb_spec (strip line2) "").
Qed.

(** C24: the analyzer's menu loop ends only at the exit choice or when
    the input runs out: the histogram of a frame never fails, and invalid
    choices and filters are asked again. *)
Theorem interact_only_eof t inputs :
  (interact_with_df t inputs).2 = None \/ (interact_with_df t inputs).2 = Some EOFError.
Proof.
  unfold interact_with_df. generalize AtMenu as m.
  induction inputs as [|line rest IH]; intros m; cbn [interact_loop]; [by right|].
  destruct m as [|k h].
  - destruct (is_digits _ && _ && _); [|apply IH].
    destruct (Nat.eqb _ _); [by left|].
    destruct (make_histogram_counts_ok (default [] (snd <$> frames t !! (parse_nat (strip line) - 1))))
      as [h Hh].
    rewrite Hh. apply IH.
  - destruct (default _ _) as [name rows].
    destruct (String.eqb _ _); [|destruct (is_digits _)]; [..|apply IH];
      destruct (interact_loop _ AtMenu rest) as [vs e] eqn:Hr; simpl;
      specialize (IH AtMenu); rewrite Hr in IH; exact IH.
Qed.

(** ** Witnesses of the menu loop *)

Lemma interact_views_filtered_witness :
  exists h, interact_loop (frames (mk_tables [(PStr "SDXL", 1)] [(PStr "lora1", 3); (PNone, 1)] [(PInt 7, 1)] []))
    AtMenu [" 2 "; "2"; "5"] =
  (mk_view "resources" h (Some 2) [(PStr "lora1", 3)] ::
     (interact_loop (frames (mk_tables [(PStr "SDXL", 1)] [(PStr "lora1", 3); (PNone, 1)] [(PInt 7, 1)] []))
        AtMenu ["5"]).1,
   (interact_loop (frames (mk_tables [(PStr "SDXL", 1)] [(PStr "lora1", 3); (PNone, 1)] [(PInt 7, 1)] []))
      AtMenu ["5"]).2).
Proof.
  destruct (interact_views_filtered (frames (mk_tables [(PStr "SDXL", 1)] [(PStr "lora1", 3); (PNone, 1)] [(PInt 7, 1)] []))
              " 2 " "2" ["5"] 2 "resources" [(PStr "lora1", 3); (PNone, 1)])
    as (_ & H & _); [vm_compute; reflexivity | vm_compute; reflexivity | cbn; lia | vm_compute; reflexivity |].
  apply (H 2); vm_compute; reflexivity.
Defined.
