(* ===== verification/Viewer.v ===== *)
(** The curator of [src/viewer.py].

    [calc_custom_score] is the [likeScore] of [load_and_summarize].  The
    selection file [selected_datas.json] is a [file]: missing, not JSON,
    a JSON document, or in a [SELECTED_DATA_DIR] that does not exist;
    [load_selection] is the [try] block of the save command that reads and
    repairs it, [save_selected] appends the current row and writes it back
    with [write_selection], which raises [FileNotFoundError] when the
    directory is missing.  The curator loop [show_images_with_summary]
    is modelled over an explicit state (the index, the selection file and
    the Python local [row]) and an explicit stream of key codes returned
    by [cv2.waitKey(0)]. *)

From S2P Require Import Prelude PyValue.

(** ** The like score *)

(** [calc_custom_score(stats)]: the sum [like + cry + laugh + heart -
    dislike] with Python's [+] and [-], evaluated left to right. *)
Definition calc_custom_score (stats : pyval) : Py pyval :=
  if negb (is_dict stats) then Ok (PInt 0) else
  a <- py_get stats "likeCount" (PInt 0) ;;
  b <- py_get stats "cryCount" (PInt 0) ;;
  s1 <- py_add a b ;;
  c <- py_get stats "laughCount" (PInt 0) ;;
  s2 <- py_add s1 c ;;
  d <- py_get stats "heartCount" (PInt 0) ;;
  s3 <- py_add s2 d ;;
  e <- py_get stats "dislikeCount" (PInt 0) ;;
  py_sub s3 e.

(** ** The selection file *)

(** The state of [f"{SELECTED_DATA_DIR}/selected_datas.json"] on disk:
    missing in an existing directory, not valid JSON, a JSON document,
    or in a directory that does not exist, where [open] raises
    [FileNotFoundError] for reading and for writing. *)
Inductive file := FMissing | FInvalid | FJson (j : pyval) | FNoDir.

(** The inner [try] of the save command: [json.load], then the repair
    [if "items" not in selected_json or not isinstance(selected_json
    ["items"], list): selected_json["items"] = []].  A missing file or
    invalid JSON gives [{"items": []}]; any other exception (the [in] or
    the assignment on a document that is not an object) is not caught
    here. *)
Definition load_selection (f : file) : Py pyval :=
  match f with
  | FMissing | FInvalid | FNoDir => Ok (PDict [("items", PList [])])
  | FJson j =>
      has <- py_contains "items" j ;;
      bad <- (if negb has then Ok true
              else v <- py_getitem j "items" ;; Ok (negb (is_list v))) ;;
      if bad then py_setitem j "items" (PList []) else Ok j
  end.

(** [selected_json["items"].append(x)] *)
Definition append_item (j : pyval) (x : pyval) : Py pyval :=
  items <- py_getitem j "items" ;;
  match items with
  | PList l => py_setitem j "items" (PList (l ++ [x]))
  | _ => Err AttributeError
  end.

(** [with open(selected_json_path, "w") as f: json.dump(selected_json,
    f, ...)]: the file now holds the document, unless its directory does
    not exist. *)
Definition write_selection (f : file) (j : pyval) : Py file :=
  match f with FNoDir => Err FileNotFoundError | _ => Ok (FJson j) end.

(** The save command on the row [r]: load and repair, append
    [df.iloc[idx].to_dict()], and write the document back. *)
Definition save_selected (f : file) (r : list (string * pyval)) : Py file :=
  j <- load_selection f ;;
  j' <- append_item j (PDict r) ;;
  write_selection f j'.

(** ** The curator loop *)

(** A row of the [DataFrame]: the value of every column, [NaN] where the
    item had no such key. *)
Abbreviation row := (list (string * pyval)).

(** [row.get(k, d)]: the default only for a column that does not exist. *)
Definition row_get (r : row) (k : string) (d : pyval) : pyval := default d (dict_lookup k r).

(** [row[k]] *)
Definition row_getitem (r : row) (k : string) : Py pyval :=
  match dict_lookup k r with Some v => Ok v | None => Err KeyError end.

(** The lines of the information panel, as values rather than text. *)
Record info := mk_info {
  i_index : nat; i_total : nat; i_id : pyval; i_nsfw : pyval; i_like : pyval;
  i_base : pyval; i_resources : nat; i_civitai : nat; i_prompt : pyval; i_negative : pyval
}.

(** [row.get('meta', {}).get(k, '')[:100] if row.get('meta', {}) is not
    None else 'N/A'] *)
Definition prompt_line (r : row) (k : string) : Py pyval :=
  match row_get r "meta" (PDict []) with
  | PNone => Ok (PStr "N/A")
  | m => v <- py_get m k (PStr "") ;; py_prefix 100 v
  end.

(** [get_image_info(row)], its list evaluated in order. *)
Definition get_image_info (idx total : nat) (r : row) : Py info :=
  id <- row_getitem r "id" ;;
  let nsfw := row_get r "nsfwLevel" (PStr "-") in
  let like := row_get r "likeScore" (PInt 0) in
  let base := row_get r "baseModel" (PStr "N/A") in
  nres <- py_len (row_get r "resources" (PList [])) ;;
  nciv <- (let m := row_get r "meta" (PDict []) in
           if is_dict m then v <- py_get m "civitaiResources" (PList []) ;; py_len v
           else Ok 0) ;;
  pp <- prompt_line r "prompt" ;;
  nn <- prompt_line r "negativePrompt" ;;
  Ok (mk_info (idx + 1) total id nsfw like base nres nciv pp nn).

(** An image by its height and width. *)
Record image := mk_image { img_h : nat; img_w : nat }.

(** [url_to_image(url)]: [fetch] is the download and decoding, [None]
    when either raises; every such exception is caught and replaced by
    the 300x300 gray placeholder. *)
Definition url_to_image (fetch : pyval -> option image) (url : pyval) : image :=
  match fetch url with Some img => img | None => mk_image 300 300 end.

(** [draw_summary(img, info_lines)]: resize to height 2400 and stack the
    300-pixel panel.  [int(w * (2400 / h))] is computed exactly here;
    [cv2.resize] rejects a width of 0. *)
Definition draw_summary (img : image) (i : info) : Py image :=
  if Nat.eqb (img_h img) 0 then Err ZeroDivisionError else
  let new_w := img_w img * 2400 / img_h img in
  if Nat.eqb new_w 0 then Err CV2Error else Ok (mk_image (2400 + 300) new_w).

(** The statements of the [try] block between [df.iloc[idx]] and
    [cv2.imshow]: the URL, the image, the panel and the composition. *)
Definition render (fetch : pyval -> option image) (total idx : nat) (r : row) : Py image :=
  url <- row_getitem r "url" ;;
  let img := url_to_image fetch url in
  i <- get_image_info idx total r ;;
  draw_summary img i.

(** The key codes [ord("p")], [ord("a")], [ord("q")], [ord("d")]. *)
Definition key_p : Z := 112.
Definition key_a : Z := 97.
Definition key_q : Z := 113.
Definition key_d : Z := 100.

(** The locals of [show_images_with_summary] that outlive an iteration:
    [idx], the local [row] (unbound before the first assignment), and the
    selection file on disk. *)
Record vstate := mk_vstate { v_idx : nat; v_row : option row; v_sel : file }.

(** The end of the [try] block of one iteration: normal end (possibly a
    [break]), an exception, or a [cv2.waitKey(0)] that waits forever
    because no key comes. *)
Inductive tryres :=
| TOk (st : vstate) (quit : bool) (rest : list Z)
| TExc (st : vstate) (e : exc) (rest : list Z)
| TBlock (st : vstate).

(** The [try] block: fetch the row, render it, wait for a key, dispatch. *)
Definition try_block (fetch : pyval -> option image) (rows : list row) (st : vstate)
    (keys : list Z) : tryres :=
  let total := length rows in
  match rows !! v_idx st with
  | None => TExc st IndexError keys
  | Some r =>
      let st := mk_vstate (v_idx st) (Some r) (v_sel st) in
      match render fetch total (v_idx st) r with
      | Err e => TExc st e keys
      | Ok _ =>
          match keys with
          | [] => TBlock st
          | k :: rest =>
              if Z.eqb k key_p then TOk st true rest
              else if Z.eqb k key_a then
                TOk (mk_vstate (clamp_next (v_idx st) total) (v_row st) (v_sel st)) false rest
              else if Z.eqb k key_q then
                TOk (mk_vstate (clamp_prev (v_idx st)) (v_row st) (v_sel st)) false rest
              else if Z.eqb k key_d then
                match save_selected (v_sel st) r with
                | Ok f' => TOk (mk_vstate (clamp_next (v_idx st) total) (v_row st) f') false rest
                | Err e => TExc st e rest
                end
              else TOk st false rest
          end
      end
  end.

(** How the loop ends: [break] on ["p"], a key stream that runs out
    ([cv2.waitKey(0)] blocks), or an exception that escapes. *)
Inductive vout :=
| VQuit (st : vstate)
| VWait (st : vstate)
| VCrash (st : vstate) (e : exc)
| VFuel.

(** One iteration: the [try] block, then the [except] block, which
    prints [row['id']] and accepts only ["a"] and ["q"]. *)
Definition viewer_step (fetch : pyval -> option image) (rows : list row) (st : vstate)
    (keys : list Z) : (vstate * list Z) + vout :=
  match try_block fetch rows st keys with
  | TOk st' true _ => inr (VQuit st')
  | TOk st' false rest => inl (st', rest)
  | TBlock st' => inr (VWait st')
  | TExc st' _ rest =>
      match v_row st' with
      | None => inr (VCrash st' UnboundLocalError)
      | Some r =>
          match row_getitem r "id" with
          | Err e => inr (VCrash st' e)
          | Ok _ =>
              match rest with
              | [] => inr (VWait st')
              | k :: rest' =>
                  if Z.eqb k key_a then
                    inl (mk_vstate (clamp_next (v_idx st') (length rows)) (v_row st') (v_sel st'), rest')
                  else if Z.eqb k key_q then
                    inl (mk_vstate (clamp_prev (v_idx st')) (v_row st') (v_sel st'), rest')
                  else inl (st', rest')
              end
          end
      end
  end.

(** [while True: ...], with [fuel] bounding the number of iterations;
    every iteration that goes on consumes a key, so [S (length keys)]
    iterations are enough ([run_viewer_enough_fuel]). *)
Fixpoint run_viewer (fuel : nat) (fetch : pyval -> option image) (rows : list row)
    (st : vstate) (keys : list Z) : vout :=
  match fuel with
  | O => VFuel
  | S fuel' =>
      match viewer_step fetch rows st keys with
      | inl (st', keys') => run_viewer fuel' fetch rows st' keys'
      | inr o => o
      end
  end.

(** [show_images_with_summary(df)] on the rows [rows], the selection file
    [f] and the keys pressed. *)
Definition show_images_with_summary (fetch : pyval -> option image) (rows : list row)
    (f : file) (keys : list Z) : vout :=
  run_viewer (S (length keys)) fetch rows (mk_vstate 0 None f) keys.

(** ** The curator of the specification *)

(** The operator commands of the specification. *)
Inductive cmd := CNext | CPrev | CSave | CQuit | COther.

(** The abstract curator: the current index and the selection set. *)
Record astate := mk_astate { a_idx : nat; a_sel : list pyval }.

Definition cmd_of_key (k : Z) : cmd :=
  if Z.eqb k key_p then CQuit else if Z.eqb k key_a then CNext
  else if Z.eqb k key_q then CPrev else if Z.eqb k key_d then CSave else COther.

(** One command on [n] items whose current one is [cur]; the flag says
    whether the session ends.  Saving appends the current item and moves
    on, as the code does. *)
Definition astep (n : nat) (cur : pyval) (a : astate) (c : cmd) : astate * bool :=
  match c with
  | CNext => (mk_astate (clamp_next (a_idx a) n) (a_sel a), false)
  | CPrev => (mk_astate (clamp_prev (a_idx a)) (a_sel a), false)
  | CSave => (mk_astate (clamp_next (a_idx a) n) (a_sel a ++ [cur]), false)
  | CQuit => (a, true)
  | COther => (a, false)
  end.

(** The selection set a file holds, once loaded and repaired. *)
Definition sel_items (f : file) : option (list pyval) :=
  match load_selection f with
  | Ok (PDict kvs) => match dict_lookup "items" kvs with Some (PList l) => Some l | _ => None end
  | _ => None
  end.

(** The concrete state [st] represents the abstract state [a]. *)
Definition vrel (st : vstate) (a : astate) : Prop :=
  v_idx st = a_idx a /\ sel_items (v_sel st) = Some (a_sel a).

(** ** Properties of the like score *)

(** [stats.get(f, 0)] when it is an [int]; 0 otherwise. *)
Definition int_field (kvs : list (string * pyval)) (f : string) : Z :=
  match dict_lookup f kvs with Some (PInt z) => z | _ => 0 end.

Definition score_fields : list string :=
  ["likeCount"; "cryCount"; "laughCount"; "heartCount"; "dislikeCount"].

(** [v] is a number for Python's arithmetic. *)
Definition is_num (v : pyval) : bool := if to_num v is Some _ then true else false.

Lemma py_get_int kvs f :
  (dict_lookup f kvs = None \/ exists z, dict_lookup f kvs = Some (PInt z)) ->
  py_get (PDict kvs) f (PInt 0) = Ok (PInt (int_field kvs f)).
Proof. unfold int_field, py_get. intros [->|[z ->]]; reflexivity. Qed.

Lemma py_add_num_inv a b v : py_add a b = Ok v -> is_num v = true -> is_num a && is_num b = true.
Proof.
  unfold py_add, is_num. destruct (to_num a), (to_num b); try done;
    destruct a, b; simpl; try discriminate; by intros [= <-].
Qed.

Lemma py_sub_num_inv a b v : py_sub a b = Ok v -> is_num a && is_num b = true /\ is_num v = true.
Proof.
  unfold py_sub, is_num. destruct (to_num a), (to_num b); try discriminate.
  intros [= <-]. split; [done|]. by destruct (num_binop _ _ _ _).
Qed.

Lemma py_add_num a b : is_num a = true -> is_num b = true -> exists v, py_add a b = Ok v /\ is_num v = true.
Proof.
  unfold py_add, is_num. destruct (to_num a), (to_num b); try discriminate. intros _ _.
  eexists; split; [done|]. by destruct (num_binop _ _ _ _).
Qed.

(** The like score of a [stats] object whose five counts are absent
    or integers is [like + cry + laugh + heart - dislike], an absent
    count counting 0; the score of the scenario of the specification,
    [{"likeCount": 5, "dislikeCount": 2}], is 3. *)
Theorem calc_custom_score_ints kvs :
  Forall (fun f => dict_lookup f kvs = None \/ exists z, dict_lookup f kvs = Some (PInt z))
    score_fields ->
  calc_custom_score (PDict kvs) =
  Ok (PInt (int_field kvs "likeCount" + int_field kvs "cryCount" + int_field kvs "laughCount"
            + int_field kvs "heartCount" - int_field kvs "dislikeCount")%Z).
Proof.
  intros Hf. repeat (apply Forall_cons_1 in Hf as [? Hf]).
  unfold calc_custom_score. rewrite !py_get_int by done. reflexivity.
Qed.

Lemma py_add_err a b e : py_add a b = Err e -> e = TypeError.
Proof. unfold py_add. destruct (to_num a), (to_num b); try discriminate; destruct a, b; by intros [= <-]. Qed.

Lemma py_sub_err a b e : py_sub a b = Err e -> e = TypeError.
Proof. unfold py_sub. destruct (to_num a), (to_num b); by intros [= <-]. Qed.

(** On an object, reading the counts cannot fail: every failure of the
    score is one of its additions or its subtraction. *)
Lemma calc_custom_score_err kvs e : calc_custom_score (PDict kvs) = Err e -> e = TypeError.
Proof.
  unfold calc_custom_score. cbn [is_dict negb py_get]. intros H.
  repeat (apply bind_err in H as [H|(? & ? & H)]; try discriminate);
    first [by eapply py_add_err | by eapply py_sub_err].
Qed.

(** C31: the like score of an object is computed exactly when each of the
    five counts is absent or a number; a count of any other type (a
    string, [null], a list) makes [calc_custom_score] raise [TypeError],
    which [df["stats"].apply] does not catch, and no other exception is
    raised on an object. *)
Theorem calc_custom_score_ok_iff kvs :
  ((exists v, calc_custom_score (PDict kvs) = Ok v) <->
   Forall (fun f => is_num (default (PInt 0) (dict_lookup f kvs)) = true) score_fields) /\
  (forall e, calc_custom_score (PDict kvs) = Err e -> e = TypeError).
Proof.
  split; [|apply calc_custom_score_err].
  unfold calc_custom_score, score_fields. simpl. split.
  - intros [v Hv]. inv_ok.
    destruct (py_sub_num_inv _ _ _ Hv) as [[H3 H5]%andb_prop _].
    apply py_add_num_inv in E1 as [H2 H4]%andb_prop; [|done].
    apply py_add_num_inv in E0 as [H1 H3']%andb_prop; [|done].
    apply py_add_num_inv in E as [Ha Hb]%andb_prop; [|done].
    repeat constructor; assumption.
  - intros Hf. repeat (apply Forall_cons_1 in Hf as [? Hf]).
    destruct (py_add_num _ _ H H0) as (s1 & -> & Hs1).
    destruct (py_add_num _ _ Hs1 H1) as (s2 & -> & Hs2).
    destruct (py_add_num _ _ Hs2 H2) as (s3 & -> & Hs3).
    unfold py_sub, is_num in *.
    destruct (to_num s3), (to_num (default (PInt 0) (dict_lookup "dislikeCount" kvs)));
      try discriminate. eauto.
Qed.

(** [{"likeCount": "12"}]: a count read as a string. *)
Lemma calc_custom_score_ok_iff_witness :
  exists e, calc_custom_score (PDict [("likeCount", PStr "12")]) = Err e /\ e = TypeError.
Proof.
  exists TypeError. split; [vm_compute; reflexivity|].
  apply (proj2 (calc_custom_score_ok_iff [("likeCount", PStr "12")]) TypeError). vm_compute. reflexivity.
Defined.

(** ** Properties of the selection file *)

(** The invariant of the specification: an object whose ["items"] is a
    list. *)
Definition selection_wf (j : pyval) (l : list pyval) : Prop :=
  exists kvs, j = PDict kvs /\ dict_lookup "items" kvs = Some (PList l).

Lemma py_setitem_dict j k v j' : py_setitem j k v = Ok j' -> exists kvs, j = PDict kvs /\ j' = PDict (dict_set k v kvs).
Proof. destruct j; simpl; try discriminate. intros [= <-]. eauto. Qed.

Lemma py_getitem_dict j k v : py_getitem j k = Ok v -> exists kvs, j = PDict kvs /\ dict_lookup k kvs = Some v.
Proof.
  destruct j as [| | | | | | |kvs]; simpl; try discriminate.
  destruct (dict_lookup k kvs) eqn:E; [intros [= <-]; eauto | discriminate].
Qed.

(** C13: whatever the file held, a successful load gives an object whose
    ["items"] is a list: a missing or invalid file becomes [{"items": []}],
    a missing or non-list ["items"] is reset to [[]], and a well-formed
    document is kept as it is. *)
Theorem load_selection_wf f j :
  load_selection f = Ok j ->
  exists l, selection_wf j l /\
    (forall kvs l0, f = FJson (PDict kvs) -> dict_lookup "items" kvs = Some (PList l0) ->
       j = PDict kvs).
Proof.
  destruct f as [| |j0|]; simpl;
    [intros [= <-]; exists []; split; [eexists; split; done | done]..| |
     intros [= <-]; exists []; split; [eexists; split; done | done]].
  intros Hl. inv_ok. destruct a0.
    + apply py_setitem_dict in Hl as (kvs & -> & ->).
      exists []. split; [eexists; split; [done | apply dict_lookup_set_eq]|].
      intros kvs' l0 [= ->] Hi. simpl in E. rewrite Hi, bool_decide_eq_true_2 in E by eauto.
      injection E as <-. simpl in E0. rewrite Hi in E0. discriminate.
    + injection Hl as <-. destruct a; simpl in E0; [|discriminate].
      destruct (py_getitem j0 "items") as [v|] eqn:Hv; [|discriminate].
      apply py_getitem_dict in Hv as (kvs & -> & Hi).
      destruct v; try discriminate E0.
      exists l. split; [eexists; split; done|]. by intros ? ? [= ->].
Qed.

(** C3: saving a row and loading the file again gives a list of items
    whose last element is that row and whose other elements are the
    items the file held before (after the repair): the file is
    append-only, and a reload needs no repair. *)
Theorem save_selected_roundtrip f r f' :
  save_selected f r = Ok f' ->
  exists j l, load_selection f = Ok j /\ py_getitem j "items" = Ok (PList l) /\
  exists j', f' = FJson j' /\ load_selection f' = Ok j' /\
    py_getitem j' "items" = Ok (PList (l ++ [PDict r])).
Proof.
  unfold save_selected. destruct (load_selection f) as [j|] eqn:Hj; [|discriminate].
  destruct (load_selection_wf f j Hj) as (l & (kvs & -> & Hi) & _).
  unfold append_item. simpl. rewrite Hi. simpl.
  intros Hw. assert (f' = FJson (PDict (dict_set "items" (PList (l ++ [PDict r])) kvs))) as ->
    by (destruct f; try discriminate; by injection Hw as <-).
  exists (PDict kvs), l. split; [done|]. split; [simpl; by rewrite Hi|].
  eexists; split; [done|]. simpl.
  rewrite (dict_lookup_set_eq "items"). simpl. split; done.
Qed.

(** C32: when the file holds valid JSON that is not an object (a list, a
    string, a number, [null]), the repair itself raises [TypeError]: the
    save command fails and the file is left as it was, against the
    specification's promise that a malformed file is repaired. *)
Theorem save_selected_non_object j r :
  is_dict j = false -> save_selected (FJson j) r = Err TypeError.
Proof.
  intros Hj. unfold save_selected, load_selection.
  destruct j; try done; simpl.
  - by destruct (String.index 0 "items" s).
  - by destruct (existsb _ _).
Qed.

(** ** Properties of the curator loop *)

Section Loop.
Variable fetch : pyval -> option image.
Variable rows : list row.

(** The states reachable from a state and its key stream by iterations
    that go on. *)
Inductive vreach : vstate * list Z -> vstate * list Z -> Prop :=
| vreach_refl c : vreach c c
| vreach_step st keys st' keys' c :
    viewer_step fetch rows st keys = inl (st', keys') -> vreach (st', keys') c ->
    vreach (st, keys) c.

Lemma try_block_consumes st keys st' q rest :
  try_block fetch rows st keys = TOk st' q rest -> length rest < length keys.
Proof.
  unfold try_block. destruct (rows !! v_idx st) as [r|]; [|discriminate].
  destruct (render _ _ _ _); [|discriminate]. destruct keys as [|k ks]; [discriminate|].
  simpl. repeat case_match; intros [= <- <- <-]; lia.
Qed.

Lemma try_block_exc_keys st keys st' e rest :
  try_block fetch rows st keys = TExc st' e rest -> length rest <= length keys.
Proof.
  unfold try_block. destruct (rows !! v_idx st) as [r|]; [|intros [= _ _ <-]; lia].
  destruct (render _ _ _ _); [|intros [= _ _ <-]; lia]. destruct keys as [|k ks]; [discriminate|].
  simpl. repeat case_match; try discriminate; intros [= _ _ <-]; lia.
Qed.

(** Every iteration that goes on consumes at least one key. *)
Lemma viewer_step_consumes st keys st' keys' :
  viewer_step fetch rows st keys = inl (st', keys') -> length keys' < length keys.
Proof.
  unfold viewer_step. destruct (try_block fetch rows st keys) as [s q rest|s e rest|s] eqn:Ht.
  - destruct q; [discriminate|]. intros [= _ <-]. by eapply try_block_consumes.
  - apply try_block_exc_keys in Ht.
    destruct (v_row s) as [r|]; [|discriminate]. destruct (row_getitem r "id"); [|discriminate].
    destruct rest as [|k rest']; [discriminate|]. simpl in Ht.
    repeat case_match; intros [= _ <-]; lia.
  - discriminate.
Qed.

Lemma viewer_step_not_fuel st keys : viewer_step fetch rows st keys <> inr VFuel.
Proof. unfold viewer_step. repeat case_match; congruence. Qed.

Lemma run_viewer_fuel n st keys : length keys < n -> run_viewer n fetch rows st keys <> VFuel.
Proof.
  revert st keys. induction n as [|n IH]; intros st keys Hn; [lia|]. simpl.
  destruct (viewer_step fetch rows st keys) as [[st' keys']|o] eqn:Hs.
  - apply IH. apply viewer_step_consumes in Hs. lia.
  - intros ->. by apply (viewer_step_not_fuel st keys).
Qed.

(** The index stays a valid row index. *)
Lemma viewer_step_idx st keys st' keys' :
  v_idx st < length rows -> viewer_step fetch rows st keys = inl (st', keys') ->
  v_idx st' < length rows.
Proof.
  intros Hi. unfold viewer_step, try_block.
  destruct (rows !! v_idx st) as [r|] eqn:Hr; simpl.
  - destruct (render _ _ _ _); simpl.
    + destruct keys as [|k ks]; [discriminate|].
      repeat case_match; simpl; intros; simplify_eq; simpl; auto with civitai.
    + repeat case_match; simpl; intros; simplify_eq; simpl; auto with civitai.
  - apply lookup_ge_None in Hr. lia.
Qed.

End Loop.

Lemma sel_items_save f l r :
  f <> FNoDir -> sel_items f = Some l ->
  exists f', save_selected f r = Ok f' /\ sel_items f' = Some (l ++ [PDict r]).
Proof.
  intros Hd. unfold sel_items, save_selected. destruct (load_selection f) as [j|] eqn:Hj; [|discriminate].
  destruct j as [| | | | | | |kvs]; try discriminate.
  destruct (dict_lookup "items" kvs) as [[]|] eqn:Hi; try discriminate. intros [= ->].
  unfold append_item. simpl. rewrite Hi. simpl.
  eexists; split; [by destruct f|]. simpl.
  rewrite (dict_lookup_set_eq "items"). simpl. by rewrite (dict_lookup_set_eq "items").
Qed.

Section LoopClaims.
Variable fetch : pyval -> option image.
Variable rows : list row.

(** C2: the curator refines the curator of the specification: from a
    state that represents an abstract one, on a row that renders, the key
    pressed moves the index as [astep] does (["a"] forward clamped at the
    last row, ["q"] back clamped at 0), ["d"] appends the row to the
    selection file and moves on, ["p"] ends the session, and any other
    key changes nothing.  The one exception is ["d"] when the directory
    of the selection file does not exist: writing it raises
    [FileNotFoundError], nothing is appended, the index stays and the
    [except] block takes over with the rest of the keys. *)
Theorem try_block_refines st a r img k rest :
  vrel st a -> rows !! v_idx st = Some r ->
  render fetch (length rows) (v_idx st) r = Ok img ->
  (v_sel st = FNoDir -> cmd_of_key k = CSave ->
   try_block fetch rows st (k :: rest) = TExc (mk_vstate (v_idx st) (Some r) FNoDir) FileNotFoundError rest) /\
  (v_sel st <> FNoDir \/ cmd_of_key k <> CSave ->
   exists st', try_block fetch rows st (k :: rest) =
     TOk st' (astep (length rows) (PDict r) a (cmd_of_key k)).2 rest /\
     vrel st' (astep (length rows) (PDict r) a (cmd_of_key k)).1).
Proof.
  intros [Hi Hs] Hr Hren. unfold try_block. rewrite Hr. simpl. rewrite Hren.
  unfold cmd_of_key, astep, vrel in *. simpl.
  destruct (Z.eqb k key_p); [split; [intros _ [=] | by eexists]|].
  destruct (Z.eqb k key_a); [split; [intros _ [=]|]; eexists; split; [done|]; simpl; by rewrite Hi|].
  destruct (Z.eqb k key_q); [split; [intros _ [=]|]; eexists; split; [done|]; simpl; by rewrite Hi|].
  destruct (Z.eqb k key_d); [|split; [intros _ [=] | by eexists]].
  split; [intros Hf _; by rewrite Hf|]. intros [Hf|]; [|done].
  destruct (sel_items_save (v_sel st) (a_sel a) r Hf Hs) as (f' & -> & Hf').
  eexists; split; [done|]. simpl. by rewrite Hi.
Qed.

(** C11: the index of every state the curator reaches from the first row
    is a valid row index: [min(idx + 1, total - 1)] and [max(idx - 1, 0)]
    keep it in range on both the normal and the error path. *)
Theorem vreach_idx f keys st keys' :
  rows <> [] -> vreach fetch rows (mk_vstate 0 None f, keys) (st, keys') ->
  v_idx st < length rows.
Proof.
  intros Hne Hr. assert (0 < length rows) as H0 by (destruct rows; simpl; [done | lia]).
  remember (mk_vstate 0 None f, keys) as c eqn:Ec. remember (st, keys') as c' eqn:Ec'.
  assert (v_idx c.1 < length rows) as Hc by (subst c; done). clear Ec.
  induction Hr as [c|st0 ks st1 ks1 c Hs Hr IH]; subst; [done|].
  apply IH; [done|]. simpl in *. by eapply viewer_step_idx.
Qed.

(** C12: the curator stops on every finite key stream: after at most
    one iteration per key it has quit, crashed or is waiting for a key,
    never needing more iterations. *)
Theorem show_images_terminates f keys :
  show_images_with_summary fetch rows f keys <> VFuel.
Proof. apply run_viewer_fuel. lia. Qed.

(** C21: on a row that fails to render (a missing [url], a [meta] that is
    not an object, an image too narrow to resize...), the error path only
    accepts ["a"] and ["q"]: ["p"] does not end the session and ["d"]
    saves nothing, against the specification's promise that the four
    commands remain available. *)
Theorem error_path_ignores_quit_and_save st r e k rest :
  rows !! v_idx st = Some r -> render fetch (length rows) (v_idx st) r = Err e ->
  (exists i, row_getitem r "id" = Ok i) -> k = key_p \/ k = key_d ->
  viewer_step fetch rows st (k :: rest) = inl (mk_vstate (v_idx st) (Some r) (v_sel st), rest).
Proof.
  intros Hr Hren [i Hid] Hk. unfold viewer_step, try_block. rewrite Hr. simpl. rewrite Hren.
  simpl. rewrite Hid. by destruct Hk as [-> | ->].
Qed.

End LoopClaims.

Lemma broken_row_step fetch r e i st k ks :
  render fetch 1 0 r = Err e -> row_getitem r "id" = Ok i -> v_idx st = 0 ->
  exists st'', viewer_step fetch [r] st (k :: ks) = inl (st'', ks) /\ v_idx st'' = 0.
Proof.
  intros Hren Hid H0. unfold viewer_step, try_block. rewrite H0. simpl. rewrite Hren.
  simpl. rewrite Hid. unfold clamp_next, clamp_prev.
  destruct (Z.eqb k key_a); [|destruct (Z.eqb k key_q)]; eexists; split; try done; simpl; lia.
Qed.

(** C20: with a single row that fails to render, no key sequence ends the
    session: the curator cannot be quit, only interrupted. *)
Theorem broken_single_row_never_quits fetch r e n st keys st' :
  render fetch 1 0 r = Err e -> (exists i, row_getitem r "id" = Ok i) ->
  v_idx st = 0 -> run_viewer n fetch [r] st keys <> VQuit st'.
Proof.
  intros Hren [i Hid]. revert st keys. induction n as [|n IH]; intros st keys H0; simpl; [done|].
  destruct keys as [|k ks].
  - unfold viewer_step, try_block. rewrite H0. simpl. rewrite Hren. simpl. by rewrite Hid.
  - destruct (broken_row_step fetch r e i st k ks Hren Hid H0) as (st'' & -> & H0'').
    by apply IH.
Qed.

Lemma length_substring_le n s : String.length (String.substring 0 n s) <= n.
Proof.
  revert s. induction n as [|n IH]; intros [|c s]; simpl; try lia. specialize (IH s). lia.
Qed.

(** The prompt and negative-prompt lines of the panel hold at most
    100 characters (or list elements), or ["N/A"]. *)
Theorem prompt_line_bounded r k v :
  prompt_line r k = Ok v -> exists n, py_len v = Ok n /\ n <= 100.
Proof.
  unfold prompt_line. destruct (row_get r "meta" (PDict [])) as [| | | | | | |kvs] eqn:Hm.
  1: intros [= <-]; exists 3; split; [reflexivity | lia].
  all: simpl; try discriminate.
  intros Hp. destruct (default (PStr "") (dict_lookup k kvs)); simpl in Hp; try discriminate;
    injection Hp as <-; eexists; (split; [reflexivity|]).
  - apply length_substring_le.
  - rewrite length_take. lia.
Qed.

(** C40: the panel's resource count reads a top-level [resources] column:
    for a row without one, as every catalogue item keeps its resources
    under [meta], the count shown is 0 whatever [meta.resources] holds. *)
Theorem get_image_info_resources_top_level idx total r i :
  dict_lookup "resources" r = None -> get_image_info idx total r = Ok i -> i_resources i = 0.
Proof.
  intros Hn Hi. unfold get_image_info, row_get in Hi. rewrite Hn in Hi. simpl in Hi.
  inv_ok. simpl in *. inv_ok. done.
Qed.

(** At the ends of the list the moves are clamped: ["a"] on the last
    row and ["q"] on the first row leave the index where it is. *)
Theorem try_block_clamps fetch rows st r img rest :
  rows !! v_idx st = Some r -> render fetch (length rows) (v_idx st) r = Ok img ->
  (S (v_idx st) = length rows ->
     exists st', try_block fetch rows st (key_a :: rest) = TOk st' false rest /\ v_idx st' = v_idx st) /\
  (v_idx st = 0 ->
     exists st', try_block fetch rows st (key_q :: rest) = TOk st' false rest /\ v_idx st' = 0).
Proof.
  intros Hr Hren. unfold try_block. rewrite Hr. simpl. rewrite Hren. simpl.
  split; intros Hi; eexists; (split; [reflexivity|]); simpl; unfold clamp_next, clamp_prev; lia.
Qed.

(** ** Witnesses *)

Definition demo_row0 : row :=
  [("id", PInt 1); ("url", PStr "u1"); ("meta", PDict [("prompt", PStr "a cat")]);
   ("likeScore", PInt 3)].
(** A row without [meta] in a frame where another row has it: its cell is
    [NaN], which has no [get]. *)
Definition demo_row1 : row :=
  [("id", PInt 2); ("url", PStr "u2"); ("meta", PNaN); ("likeScore", PInt 1)].
Definition demo_fetch (u : pyval) : option image := Some (mk_image 512 512).

Lemma calc_custom_score_ints_witness :
  calc_custom_score (PDict [("likeCount", PInt 5); ("dislikeCount", PInt 2)]) = Ok (PInt 3).
Proof.
  rewrite calc_custom_score_ints; [reflexivity|].
  apply List.Forall_forall. intros f Hf. simpl in Hf.
  repeat destruct Hf as [<-|Hf]; vm_compute; eauto; contradiction.
Defined.

Lemma load_selection_wf_witness :
  exists l, selection_wf (PDict [("items", PList [])]) l /\
    (forall kvs l0, FJson (PDict [("items", PStr "bad")]) = FJson (PDict kvs) ->
       dict_lookup "items" kvs = Some (PList l0) -> PDict [("items", PList [])] = PDict kvs).
Proof. apply load_selection_wf. reflexivity. Defined.

Lemma save_selected_roundtrip_witness :
  exists j l, load_selection FMissing = Ok j /\ py_getitem j "items" = Ok (PList l) /\
  exists j', FJson (PDict [("items", PList [PDict demo_row0])]) = FJson j' /\
    load_selection (FJson (PDict [("items", PList [PDict demo_row0])])) = Ok j' /\
    py_getitem j' "items" = Ok (PList (l ++ [PDict demo_row0])).
Proof. apply save_selected_roundtrip. reflexivity. Defined.

Lemma save_selected_non_object_witness : save_selected (FJson (PList [])) demo_row0 = Err TypeError.
Proof. apply save_selected_non_object. reflexivity. Defined.

Lemma try_block_refines_witness :
  exists st', try_block demo_fetch [demo_row0; demo_row1] (mk_vstate 0 None FMissing) (key_d :: []) =
    TOk st' (astep 2 (PDict demo_row0) (mk_astate 0 []) (cmd_of_key key_d)).2 [] /\
    vrel st' (astep 2 (PDict demo_row0) (mk_astate 0 []) (cmd_of_key key_d)).1.
Proof.
  apply (try_block_refines demo_fetch [demo_row0; demo_row1] (mk_vstate 0 None FMissing)
           (mk_astate 0 []) demo_row0 (mk_image 2700 2400));
    [split; reflexivity | reflexivity | reflexivity | left; discriminate].
Defined.

(** The same command when [SELECTED_DATA_DIR] does not exist. *)
Lemma try_block_refines_nodir_witness :
  try_block demo_fetch [demo_row0; demo_row1] (mk_vstate 0 None FNoDir) (key_d :: []) =
  TExc (mk_vstate 0 (Some demo_row0) FNoDir) FileNotFoundError [].
Proof.
  apply (try_block_refines demo_fetch [demo_row0; demo_row1] (mk_vstate 0 None FNoDir)
           (mk_astate 0 []) demo_row0 (mk_image 2700 2400));
    [split; reflexivity | reflexivity | reflexivity | reflexivity | reflexivity].
Defined.

Lemma vreach_idx_witness : v_idx (mk_vstate 1 (Some demo_row0) FMissing) < length [demo_row0; demo_row1].
Proof.
  apply (vreach_idx demo_fetch [demo_row0; demo_row1] FMissing [key_a] _ []); [done|].
  eapply vreach_step; [reflexivity | apply vreach_refl].
Defined.

Lemma error_path_ignores_quit_and_save_witness :
  viewer_step demo_fetch [demo_row0; demo_row1] (mk_vstate 1 (Some demo_row0) FMissing) [key_p] =
  inl (mk_vstate 1 (Some demo_row1) FMissing, []).
Proof.
  apply (error_path_ignores_quit_and_save demo_fetch [demo_row0; demo_row1]
           (mk_vstate 1 (Some demo_row0) FMissing) demo_row1 AttributeError key_p []);
    [reflexivity | reflexivity | eexists; reflexivity | by left].
Defined.

Lemma broken_single_row_never_quits_witness :
  run_viewer 5 demo_fetch [demo_row1] (mk_vstate 0 None FMissing) [key_p; key_d; key_p]
  <> VQuit (mk_vstate 0 (Some demo_row1) FMissing).
Proof.
  apply (broken_single_row_never_quits demo_fetch demo_row1 AttributeError);
    [reflexivity | eexists; reflexivity | reflexivity].
Defined.

Lemma prompt_line_bounded_witness : exists n, py_len (PStr "a cat") = Ok n /\ n <= 100.
Proof. apply (prompt_line_bounded demo_row0 "prompt"). reflexivity. Defined.

Lemma get_image_info_resources_top_level_witness :
  i_resources (mk_info 1 1 (PInt 7) PNaN (PInt 0) (PStr "SDXL") 0 1 (PStr "") (PStr "")) = 0.
Proof.
  apply (get_image_info_resources_top_level 0 1
           [("id", PInt 7); ("meta", PDict [("civitaiResources", PList [PInt 1])]);
            ("nsfwLevel", PNaN); ("baseModel", PStr "SDXL")]); reflexivity.
Defined.

Lemma try_block_clamps_witness :
  (S 1 = length [demo_row1; demo_row0] ->
     exists st', try_block demo_fetch [demo_row1; demo_row0] (mk_vstate 1 None FMissing) (key_a :: [])
                 = TOk st' false [] /\ v_idx st' = 1) /\
  (1 = 0 ->
     exists st', try_block demo_fetch [demo_row1; demo_row0] (mk_vstate 1 None FMissing) (key_q :: [])
                 = TOk st' false [] /\ v_idx st' = 0).
Proof.
  apply (try_block_clamps demo_fetch [demo_row1; demo_row0] (mk_vstate 1 None FMissing) demo_row0
           (mk_image 2700 2400)); reflexivity.
Defined.
