(* ===== verification/Loader.v ===== *)
(** The loader of [src/viewer.py], [load_and_summarize] (lines 17-67),
    and the viewer's [__main__] (lines 168-191), which connect the
    crawler's data directory to the curator loop.

    The directory is the crawler's file store [Crawler.store]; its
    entries, in the order [glob] returns them (the order of the
    directory, which the code does not fix), are a list of paths; the
    store holds parsed documents, so a page that is not valid JSON (which
    the crawler never writes) is not modelled.  A
    [DataFrame] built from a list of records is a [frame]: its columns
    in order of first appearance and one [row] per record, [NaN] where a
    record lacks a column.  [df.sort_values] is a library call whose
    order among equal keys pandas does not fix (its default is an
    unstable quicksort); it is the class [SortValues] with the contract
    [SortValuesSpec], and [merge_sort_values] is one implementation. *)

From stdpp Require Import sorting.
From Stdlib Require Import Ascii.
From S2P Require Import Prelude PyValue Counter Crawler Histogram Viewer.

(** ** The directory *)

(** [s] with the prefix [pre] removed, if [pre] is a prefix of [s]. *)
Fixpoint strip_prefix (pre s : string) : option string :=
  match pre, s with
  | EmptyString, _ => Some s
  | String a pre', String b s' => if Ascii.eqb a b then strip_prefix pre' s' else None
  | _, _ => None
  end.

(** The tail [*.json] of the pattern: a name part without a path
    separator, then [.json]; [*] may match the empty string. *)
Fixpoint star_json (s : string) : bool :=
  String.eqb s ".json" ||
  match s with
  | EmptyString => false
  | String c s' => negb (Ascii.eqb c "/") && star_json s'
  end.

(** The paths [glob.glob(os.path.join(json_path, "civitai_datas_*.json"))]
    returns: the entries of the directory matching the pattern. *)
Definition glob_match (dir p : string) : bool :=
  match strip_prefix (path_join dir "civitai_datas_") p with
  | Some rest => star_json rest
  | None => false
  end.

Definition glob (dir : string) (entries : list string) : list string :=
  List.filter (glob_match dir) entries.

(** [open(file)] and [json.load(f)] on a file of the store. *)
Definition read_json (fs : store) (p : string) : Py pyval :=
  match fs !! p with Some d => Ok d | None => Err FileNotFoundError end.

(** What [items.extend(data.get("items", []))] appends for a page. *)
Definition page_items (data : pyval) : Py (list pyval) :=
  its <- py_get data "items" (PList []) ;;
  py_iter its.

(** One pass of the directory loop. *)
Definition extend_page (fs : store) (acc : list pyval) (p : string) : Py (list pyval) :=
  data <- read_json fs p ;;
  l <- page_items data ;;
  Ok (acc ++ l).

(** The [items] of [load_and_summarize]: all pages of a directory, in
    the order of its [entries], or the [items] of one file. *)
Definition load_items (fs : store) (entries : list string) (is_dir : string -> bool)
    (json_path : string) : Py pyval :=
  if is_dir json_path then
    l <- fold_res (extend_page fs) [] (glob json_path entries) ;;
    Ok (PList l)
  else
    data <- read_json fs json_path ;;
    py_get data "items" (PList []).

(** ** Frames *)

(** A [DataFrame]: its columns and its rows. *)
Record frame := mk_frame { f_cols : list string; f_rows : list row }.

(** Columns in order of first appearance over the records. *)
Definition add_cols (cols : list string) (kvs : list (string * pyval)) : list string :=
  fold_left (fun cs kv => if existsb (String.eqb kv.1) cs then cs else cs ++ [kv.1]) kvs cols.

Definition frame_columns (recs : list (list (string * pyval))) : list string :=
  fold_left add_cols recs [].

(** A record as a row of the frame: every column, [NaN] where missing. *)
Definition frame_row (cols : list string) (kvs : list (string * pyval)) : row :=
  map (fun c => (c, default PNaN (dict_lookup c kvs))) cols.

Definition as_record (v : pyval) : Py (list (string * pyval)) :=
  match v with PDict kvs => Ok kvs | _ => Err TypeError end.

(** [pd.DataFrame(items)] for a list of records, or [None] (the empty
    frame).  Frames of other values (a list of scalars, a dict of
    columns) are not modelled and raise. *)
Definition data_frame (items : pyval) : Py frame :=
  match items with
  | PList l =>
      recs <- map_res as_record l ;;
      let cols := frame_columns recs in
      Ok (mk_frame cols (map (frame_row cols) recs))
  | PNone => Ok (mk_frame [] [])
  | _ => Err ValueError
  end.

Definition has_col (c : string) (df : frame) : bool := existsb (String.eqb c) (f_cols df).

(** [df[c]] *)
Definition get_column (c : string) (df : frame) : Py (list pyval) :=
  if has_col c df then Ok (map (fun r => row_get r c PNaN) (f_rows df)) else Err KeyError.

(** [df[c] = vs]: an existing column keeps its place, a new one is last. *)
Definition set_column (c : string) (vs : list pyval) (df : frame) : frame :=
  mk_frame (if has_col c df then f_cols df else f_cols df ++ [c])
           (zip_with (fun r v => dict_set c v r) (f_rows df) vs).

(** [series.value_counts().to_dict()]: the counts of the non-missing
    values (pandas orders the keys by count; the order is only printed). *)
Definition value_counts (col : list pyval) : Py Counter.t := Counter.counts (dropna col).

(** [summarize_resources(col)]: the [type] of every entry of [meta[col]]
    over the non-missing [meta] cells, counted. *)
Definition resource_types (col : string) (acc : list pyval) (meta : pyval) : Py (list pyval) :=
  rs <- py_get meta col (PList []) ;;
  l <- py_iter rs ;;
  ts <- map_res (fun res => py_get res "type" (PStr "unknown")) l ;;
  Ok (acc ++ ts).

Definition summarize_resources (df : frame) (col : string) : Py Counter.t :=
  metas <- get_column "meta" df ;;
  types <- fold_res (resource_types col) [] (dropna metas) ;;
  Counter.counts types.

(** ** Sorting *)

(** The value of a cell as pandas orders it: numbers, strings, values
    that have no order ([list], [dict]), and the missing values. *)
Inductive skey := KNum (q : Q) | KStr (s : string) | KObj | KNA.

Definition skey_of (v : pyval) : skey :=
  match v with
  | PNone | PNaN => KNA
  | PBool b => KNum (if b then 1 else 0)
  | PInt z => KNum (inject_Z z)
  | PFloat q => KNum q
  | PStr s => KStr s
  | PList _ | PDict _ => KObj
  end.

(** [a] may come before [b] in [ascending=False] order, missing values
    last ([na_position="last"]).  Between kinds that pandas cannot
    compare the order is arbitrary: the contract below only applies to
    columns of one kind. *)
Definition key_before (a b : skey) : bool :=
  match a, b with
  | KNA, KNA => true
  | KNA, _ => false
  | _, KNA => true
  | KNum x, KNum y => Qle_bool y x
  | KStr x, KStr y => match String.compare x y with Lt => false | _ => true end
  | KNum _, _ => true
  | KStr _, KNum _ => false
  | KStr _, _ => true
  | KObj, KObj => true
  | KObj, _ => false
  end.

(** The rows are in descending order of the column [c]. *)
Definition row_before (c : string) (r1 r2 : row) : Prop :=
  key_before (skey_of (row_get r1 c PNaN)) (skey_of (row_get r2 c PNaN)) = true.

#[export] Instance row_before_dec c : RelDecision (row_before c).
Proof. intros r1 r2. unfold row_before. apply _. Defined.

(** A column pandas can sort: numbers and missing values, or strings and
    missing values. *)
Definition sortable_col (vs : list pyval) : bool :=
  forallb (fun v => match skey_of v with KNum _ | KNA => true | _ => false end) vs ||
  forallb (fun v => match skey_of v with KStr _ | KNA => true | _ => false end) vs.

(** [df.sort_values(c, ascending=False).reset_index(drop=True)]. *)
Class SortValues := sort_values : string -> frame -> Py frame.

(** What the code relies on: the sorted frame has the same columns and a
    permutation of the rows, in descending order of the column; a
    missing column raises [KeyError]; a sortable column is sorted. *)
Class SortValuesSpec `{SortValues} := {
  sort_values_ok c df df' : sort_values c df = Ok df' ->
    f_cols df' = f_cols df /\ f_rows df' ≡ₚ f_rows df /\ Sorted (row_before c) (f_rows df');
  sort_values_missing c df : has_col c df = false -> sort_values c df = Err KeyError;
  sort_values_total c df : has_col c df = true ->
    sortable_col (map (fun r => row_get r c PNaN) (f_rows df)) = true ->
    exists df', sort_values c df = Ok df'
}.

(** A merge sort, which raises [TypeError] on a column of mixed kinds as
    numpy's comparison does. *)
Definition merge_sort_values (c : string) (df : frame) : Py frame :=
  vs <- get_column c df ;;
  if sortable_col vs then Ok (mk_frame (f_cols df) (merge_sort (row_before c) (f_rows df)))
  else Err TypeError.

(** ** The loader and the viewer's [__main__] *)

(** What [load_and_summarize] returns. *)
Record summary := mk_summary {
  s_df : frame; s_nsfw : Counter.t; s_base_model : Counter.t;
  s_resources : Counter.t; s_civitai_resources : Counter.t
}.

Section Main.
Context `{SortValues}.

(** [load_and_summarize(json_path, sort_col)]. *)
Definition load_and_summarize (fs : store) (entries : list string) (is_dir : string -> bool)
    (json_path sort_col : string) : Py summary :=
  items <- load_items fs entries is_dir json_path ;;
  df <- data_frame items ;;
  stats <- get_column "stats" df ;;
  scores <- map_res calc_custom_score stats ;;
  let df := set_column "likeScore" scores df in
  nsfw <- get_column "nsfwLevel" df ;;
  ns <- value_counts nsfw ;;
  bm <- get_column "baseModel" df ;;
  bs <- value_counts bm ;;
  rs <- summarize_resources df "resources" ;;
  cs <- summarize_resources df "civitaiResources" ;;
  df' <- sort_values sort_col df ;;
  Ok (mk_summary df' ns bs rs cs).

(** The viewer's [__main__]: load and summarize, the [likeScore]
    histogram, then the curator loop on the sorted rows. *)
Definition viewer_main (fs : store) (entries : list string) (is_dir : string -> bool)
    (json_path sort_col : string) (fetch : pyval -> option image) (sel : file)
    (keys : list Z) : Py vout :=
  s <- load_and_summarize fs entries is_dir json_path sort_col ;;
  ls <- get_column "likeScore" (s_df s) ;;
  _ <- make_histogram ls 20 100 ;;
  Ok (show_images_with_summary fetch (f_rows (s_df s)) sel keys).

End Main.

(** ** The sorting contract *)

Lemma key_before_total a b : key_before a b = true \/ key_before b a = true.
Proof.
  destruct a as [x|x| |], b as [y|y| |]; simpl; auto.
  - rewrite !Qle_bool_iff. destruct (Qlt_le_dec x y); [right; by apply Qlt_le_weak | by left].
  - rewrite (String.compare_antisym y x). destruct (String.compare x y); simpl; auto.
Qed.

#[export] Instance row_before_total c : Total (row_before c).
Proof. intros r1 r2. apply key_before_total. Qed.

#[export] Instance merge_sort_sort_values : SortValues := merge_sort_values.

#[export] Instance merge_sort_sort_values_spec : SortValuesSpec.
Proof.
  split; unfold sort_values, merge_sort_sort_values, merge_sort_values, get_column.
  - intros c df df'. destruct (has_col c df); [|done]. simpl.
    destruct (sortable_col _); intros; simplify_eq/=.
    split; [done|]. split; [apply merge_sort_Permutation | apply Sorted_merge_sort, row_before_total].
  - intros c df ->. done.
  - intros c df -> Hs. simpl. rewrite Hs. by eexists.
Qed.

(** ** The directory the crawler fills *)

Lemma path_join_app d a b : path_join d (a +:+ b) = path_join d a +:+ b.
Proof.
  destruct d as [|ch d]; [done|]. unfold path_join.
  destruct (String.eqb _ _); by rewrite string_app_assoc.
Qed.

Lemma strip_prefix_app pre s : strip_prefix pre (pre +:+ s) = Some s.
Proof.
  induction pre as [|a pre IH]; [by destruct s|]. simpl. by rewrite Ascii.eqb_refl.
Qed.

Lemma star_json_app m : star_json (m +:+ ".json") = no_sep "/" m.
Proof.
  induction m as [|c m IH]; [done|].
  change (star_json (String c (m +:+ ".json")) = no_sep "/" (String c m)).
  assert (String.eqb (String c (m +:+ ".json")) ".json" = false) as Hne.
  { apply String.eqb_neq. intros Heq. apply (f_equal String.length) in Heq.
    simpl in Heq. rewrite string_length_app in Heq. simpl in Heq. lia. }
  unfold star_json at 1. fold star_json. rewrite Hne, IH. reflexivity.
Qed.

(** C27: the viewer's pattern [civitai_datas_*.json] in the data
    directory matches the file the crawler saves for the cursor [c]
    exactly when the cursor has no path separator ([str(None)] for the
    first page). *)
Theorem glob_match_page_path dd c : glob_match dd (page_path dd c) = no_sep "/" (cursor_str c).
Proof.
  unfold glob_match, page_path.
  change ("civitai_datas_" ++ cursor_str c ++ ".json")%string
    with ("civitai_datas_" +:+ (cursor_str c +:+ ".json")).
  rewrite path_join_app, strip_prefix_app. apply star_json_app.
Qed.

Lemma strip_prefix_Some pre s rest : strip_prefix pre s = Some rest -> s = pre +:+ rest.
Proof.
  revert s; induction pre as [|a pre IH]; intros s; [by intros [= <-]|].
  destruct s as [|b s]; simpl; [done|].
  destruct (Ascii.eqb_spec a b) as [->|]; [|done]. intros H. by rewrite (IH s H).
Qed.

Lemma star_json_inv s : star_json s = true -> exists m, s = m +:+ ".json".
Proof.
  induction s as [|c s IH]; [done|]. unfold star_json; fold star_json.
  intros [Heq%String.eqb_eq|[_ Hs]%andb_prop]%orb_true_iff; [by exists ""|].
  destruct (IH Hs) as [m ->]. by exists (String c m).
Qed.

(** A path the pattern matches is the page file of some cursor. *)
Lemma glob_match_page dd p : glob_match dd p = true -> exists c, p = page_path dd c.
Proof.
  unfold glob_match. destruct (strip_prefix _ p) as [rest|] eqn:Hp; [|done].
  intros (m & ->)%star_json_inv. apply strip_prefix_Some in Hp as ->.
  exists (Some m). unfold page_path. by rewrite <- path_join_app.
Qed.

Lemma extend_page_ok fs acc p acc' :
  extend_page fs acc p = Ok acc' ->
  exists d l, fs !! p = Some d /\ page_items d = Ok l /\ acc' = acc ++ l.
Proof.
  unfold extend_page, read_json. destruct (fs !! p) as [d|]; [|done].
  destruct (page_items d) as [l|] eqn:Hl; intros H; [|done]. injection H as <-. by exists d, l.
Qed.

(** The items loaded from a directory all come from its pages matched by
    [glob]. *)
Lemma load_items_dir_origin fs entries is_dir dd items (P : pyval -> Prop) :
  is_dir dd = true ->
  (forall p d l x, glob_match dd p = true -> fs !! p = Some d -> page_items d = Ok l ->
     In x l -> P x) ->
  load_items fs entries is_dir dd = Ok (PList items) -> Forall P items.
Proof.
  intros Hd HP. unfold load_items. rewrite Hd.
  destruct (fold_res _ _ _) as [l|] eqn:Hl; intros; simplify_eq/=.
  revert Hl. apply fold_res_inv_in; [|done].
  intros a p a' Hp Ha (d & l' & Hfs & Hpi & ->)%extend_page_ok.
  apply Forall_app; split; [done|]. apply List.Forall_forall. intros x Hx.
  apply filter_In in Hp as [_ Hg]. eauto.
Qed.

(** ** Frames keep their shape *)

(** Every row has exactly the frame's columns, in order. *)
Definition frame_wf (df : frame) : Prop :=
  Forall (fun r : row => map fst r = f_cols df) (f_rows df).

Lemma data_frame_wf items df : data_frame items = Ok df -> frame_wf df.
Proof.
  destruct items as [|b|z|q| |s|l|kvs]; simpl; intros Hdf; try done;
    [injection Hdf as <-; constructor|].
  destruct (map_res as_record l) as [recs|]; [|done]. injection Hdf as <-.
  apply List.Forall_forall. intros r (kvs & <- & _)%in_map_iff.
  unfold frame_row. rewrite map_map. apply map_id.
Qed.

Lemma set_column_wf c vs df :
  frame_wf df -> length (f_rows df) = length vs -> frame_wf (set_column c vs df).
Proof.
  intros Hwf Hlen. unfold frame_wf, set_column, has_col. simpl.
  eapply Forall2_zip_with_Forall; [|exact (Forall_Forall2_len _ _ _ Hlen Hwf)].
  intros r v Hr. by rewrite dict_set_keys_app, Hr.
Qed.

Lemma get_column_ok c df vs :
  get_column c df = Ok vs -> has_col c df = true /\ vs = map (fun r => row_get r c PNaN) (f_rows df).
Proof. unfold get_column. destruct (has_col c df); by intros [= <-]. Qed.

(** The [likeScore] written into each row is the score of its [stats]. *)
Lemma set_column_scores df stats scores :
  get_column "stats" df = Ok stats -> map_res calc_custom_score stats = Ok scores ->
  Forall (fun r => calc_custom_score (row_get r "stats" PNaN) = Ok (row_get r "likeScore" PNaN))
    (f_rows (set_column "likeScore" scores df)).
Proof.
  intros [_ ->]%get_column_ok Hs%map_res_Forall2. apply Forall2_map_l in Hs.
  eapply Forall2_zip_with_Forall; [|exact Hs].
  intros r v Hv. unfold row_get in *. by rewrite dict_lookup_set_eq, dict_lookup_set_ne.
Qed.

(** The steps of a successful [load_and_summarize]. *)
Lemma load_and_summarize_ok `{SortValues} fs entries is_dir path col s :
  load_and_summarize fs entries is_dir path col = Ok s ->
  exists items df stats scores,
    load_items fs entries is_dir path = Ok items /\ data_frame items = Ok df /\
    get_column "stats" df = Ok stats /\ map_res calc_custom_score stats = Ok scores /\
    sort_values col (set_column "likeScore" scores df) = Ok (s_df s).
Proof.
  unfold load_and_summarize. intros Hs. inv_ok. simpl. eauto 10.
Qed.

Lemma has_col_In c df : has_col c df = true <-> In c (f_cols df).
Proof.
  unfold has_col. rewrite existsb_exists. split.
  - by intros (c' & Hc & ->%String.eqb_eq).
  - intros Hc. exists c. by rewrite String.eqb_refl.
Qed.

Lemma set_column_In c vs df : In c (f_cols (set_column c vs df)).
Proof.
  unfold set_column. simpl. destruct (has_col c df) eqn:Hc; [by apply has_col_In|].
  apply in_or_app. by right; left.
Qed.

Lemma add_cols_In c cs kvs : In c (add_cols cs kvs) <-> In c cs \/ In c (map fst kvs).
Proof.
  revert cs; induction kvs as [|[k v] kvs IH]; intros cs; simpl; [tauto|].
  rewrite IH. destruct (existsb (String.eqb k) cs) eqn:He.
  - apply existsb_exists in He as (k' & Hk' & ->%String.eqb_eq). naive_solver.
  - rewrite in_app_iff. simpl. tauto.
Qed.

Lemma frame_columns_In c recs :
  In c (frame_columns recs) <-> exists kvs, In kvs recs /\ In c (map fst kvs).
Proof.
  unfold frame_columns.
  assert (forall cs, In c (fold_left add_cols recs cs) <->
            In c cs \/ exists kvs, In kvs recs /\ In c (map fst kvs)) as ->;
    [|simpl; naive_solver].
  induction recs as [|kvs recs IH]; intros cs; simpl; [naive_solver|].
  rewrite IH, add_cols_In. naive_solver.
Qed.

Lemma dict_lookup_None_notin k kvs : dict_lookup k kvs = None -> ~ In k (map fst kvs).
Proof.
  induction kvs as [|[k' v] kvs IH]; simpl; [by intros _ []|].
  destruct (String.eqb_spec k k'); [intros [=]|]. intros H [->|Hin]; [done | exact (IH H Hin)].
Qed.

(** A frame with a column has been built from a list of records, one row
    per record. *)
Lemma data_frame_rows items df c :
  data_frame items = Ok df -> has_col c df = true ->
  exists l, items = PList l /\ length (f_rows df) = length l.
Proof.
  destruct items as [|b|z|q| |s|l|kvs]; simpl; intros Hdf; try done; [by injection Hdf as <-|].
  destruct (map_res as_record l) as [recs|] eqn:Hr; [|done]. injection Hdf as <-. intros _.
  exists l. split; [done|]. simpl. rewrite length_map. by apply map_res_length in Hr.
Qed.

(** ** Properties of the loader *)

(** C5: every item the viewer loads from the data directory after a
    crawl is an item of the body of a successful response of that crawl,
    when the directory held no page file before: the crawler's files are
    the viewer's input. *)
Theorem crawl_then_load dd dir_exists net limit nsfw depth fs0 entries is_dir items :
  (forall c, fs0 !! page_path dd c = None) ->
  is_dir dd = true ->
  load_items (files (run dd dir_exists net limit nsfw depth fs0).1) entries is_dir dd
    = Ok (PList items) ->
  Forall (fun x => exists i r d l,
     sent (run dd dir_exists net limit nsfw depth fs0).1 !! i = Some r /\
     status_code (net i r) = 200%Z /\ body (net i r) = Some d /\
     page_items d = Ok l /\ In x l) items.
Proof.
  intros H0 Hd. apply load_items_dir_origin; [done|].
  intros p d l x Hg Hp Hl Hx.
  destruct (run_saved_pages dd dir_exists net limit nsfw depth fs0 p d Hp)
    as [Hf|(i & r & Hr & _ & H200 & Hb)];
    [apply glob_match_page in Hg as [c ->]; by rewrite H0 in Hf|].
  exists i, r, d, l. auto.
Qed.

(** C6: whatever [sort_values] implements the contract, a successful
    [load_and_summarize] returns a rectangular frame with one row per
    item loaded, a [likeScore] column holding [calc_custom_score] of each
    row's [stats], sorted in descending order of [sort_col]. *)
Theorem load_and_summarize_rows `{SortValuesSpec} fs entries is_dir path col s :
  load_and_summarize fs entries is_dir path col = Ok s ->
  frame_wf (s_df s) /\ In "likeScore" (f_cols (s_df s)) /\
  Forall (fun r => calc_custom_score (row_get r "stats" PNaN) = Ok (row_get r "likeScore" PNaN))
    (f_rows (s_df s)) /\
  Sorted (row_before col) (f_rows (s_df s)) /\
  exists items, load_items fs entries is_dir path = Ok (PList items) /\
    length (f_rows (s_df s)) = length items.
Proof.
  intros (items & df & stats & scores & Hl & Hdf & Hst & Hsc & Hsort)%load_and_summarize_ok.
  apply sort_values_ok in Hsort as (Hcols & Hperm & Hsorted).
  pose proof Hst as [Hhas Hstats]%get_column_ok.
  destruct (data_frame_rows _ _ _ Hdf Hhas) as (l & -> & Hlen).
  assert (length (f_rows df) = length scores) as Hls.
  { apply map_res_length in Hsc. by rewrite Hsc, Hstats, length_map. }
  unfold frame_wf. rewrite Hcols. split; [|split; [|split; [|split]]]; [rewrite Hperm| |rewrite Hperm| |].
  - by apply set_column_wf, Hls; apply (data_frame_wf (PList l)).
  - apply set_column_In.
  - by apply (set_column_scores df stats).
  - done.
  - exists l. split; [done|]. rewrite Hperm. simpl.
    rewrite (length_zip_with_same_l _ (fun _ _ => True)); [done|].
    by apply Forall_Forall2_len, List.Forall_forall.
Qed.

(** C30: a directory without pages, or items none of which has a
    [stats] key, makes [load_and_summarize] raise [KeyError]: pandas'
    frame has no [stats] column to score. *)
Theorem load_and_summarize_no_stats `{SortValues} fs entries is_dir path col items :
  load_items fs entries is_dir path = Ok (PList items) ->
  Forall (fun x => exists kvs, x = PDict kvs /\ dict_lookup "stats" kvs = None) items ->
  load_and_summarize fs entries is_dir path col = Err KeyError.
Proof.
  intros Hl Hitems. unfold load_and_summarize. rewrite Hl. simpl.
  assert (exists recs, map_res as_record items = Ok recs /\
            Forall (fun kvs => ~ In "stats" (map fst kvs)) recs) as (recs & -> & Hrecs).
  { clear Hl. induction Hitems as [|x items Hx _ IH]; [by exists []|].
    destruct Hx as (kvs & -> & Hk), IH as (recs & Hr & Hrecs). simpl. rewrite Hr.
    exists (kvs :: recs). split; [done|].
    constructor; [by apply dict_lookup_None_notin | done]. }
  simpl. unfold get_column.
  destruct (has_col "stats" _) eqn:Hc; [|done].
  apply has_col_In, frame_columns_In in Hc as (kvs & Hin & Hs). simpl in Hin.
  by apply List.Forall_forall with (x := kvs) in Hrecs.
Qed.

(** A like score is a number. *)
Lemma calc_custom_score_num stats r : calc_custom_score stats = Ok r -> is_num r = true.
Proof.
  unfold calc_custom_score. destruct (negb (is_dict stats)); [by intros [= <-]|].
  intros H. inv_ok. by apply py_sub_num_inv in H as [_ ?].
Qed.

(** numpy reads every non-missing number of a column. *)
Lemma dropna_to_Q l :
  Forall (fun v => is_num v = true) l -> Forall (fun v => exists q, to_Q v = Ok q) (dropna l).
Proof.
  induction 1 as [|v l Hv _ IH]; simpl; [constructor|].
  unfold is_num in Hv. destruct v; simpl in *; try discriminate; try done;
    (constructor; [eexists; reflexivity | exact IH]).
Qed.

(** C26: once [load_and_summarize] succeeds, the viewer's [__main__]
    always reaches the curator loop on the sorted rows: the [likeScore]
    column exists and holds numbers, so its histogram cannot fail. *)
Theorem viewer_main_runs `{SortValuesSpec} fs entries is_dir path col fetch sel keys s :
  load_and_summarize fs entries is_dir path col = Ok s ->
  viewer_main fs entries is_dir path col fetch sel keys =
  Ok (show_images_with_summary fetch (f_rows (s_df s)) sel keys).
Proof.
  intros Hs.
  pose proof Hs as (items & df & stats & scores & _ & _ & Hst & Hsc & Hsort)%load_and_summarize_ok.
  apply sort_values_ok in Hsort as (Hcols & Hperm & _).
  unfold viewer_main. rewrite Hs. simpl. unfold get_column.
  replace (has_col "likeScore" (s_df s)) with true
    by (symmetry; apply has_col_In; rewrite Hcols; apply set_column_In).
  simpl. destruct (make_histogram_total (map (fun r => row_get r "likeScore" PNaN) (f_rows (s_df s)))
                     20 100) as (h & -> & _); [lia| |done].
  apply dropna_to_Q, Forall_map.
  pose proof (set_column_scores df stats scores Hst Hsc) as Hf. rewrite <- Hperm in Hf.
  eapply Forall_impl; [exact Hf|]. intros r. apply calc_custom_score_num.
Qed.

(** ** Witnesses *)

(** A catalogue item with an id, a like count, a level, a base model and
    its meta. *)
Definition demo_item (id like : Z) (nsfw : string) (bm meta : pyval) : pyval :=
  PDict [("id", PInt id); ("nsfwLevel", PStr nsfw); ("baseModel", bm);
         ("stats", PDict [("likeCount", PInt like); ("heartCount", PInt 1)]); ("meta", meta)].

(** A data directory with two pages, one of them with an item without
    [stats], and a file the pattern does not match. *)
Definition demo_store : store :=
  <["datas/civitai_datas_None.json" :=
      PDict [("items", PList [demo_item 1 5 "None" (PStr "SDXL")
                                (PDict [("resources", PList [PDict [("type", PStr "lora")]])])])]]>
  (<["datas/civitai_datas_abc.json" :=
      PDict [("items", PList [PDict [("id", PInt 2); ("stats", PNone)];
                              demo_item 3 9 "X" (PStr "Pony") PNone])]]>
  (<["datas/notes.json" := PDict []]> ∅)).

Definition demo_entries : list string :=
  ["datas/notes.json"; "datas/civitai_datas_abc.json"; "datas/civitai_datas_None.json"].

Lemma crawl_then_load_witness :
  Forall (fun x => exists i r d l,
     sent (run "datas" demo_dirs demo_net 100 false 10 ∅).1 !! i = Some r /\
     status_code (demo_net i r) = 200%Z /\ body (demo_net i r) = Some d /\
     page_items d = Ok l /\ In x l)
    [PDict [("id", PInt 1)]; PDict [("id", PInt 1)]; PDict [("id", PInt 1)]].
Proof.
  apply (crawl_then_load "datas" demo_dirs demo_net 100 false 10 ∅
           ["datas/civitai_datas_None.json"; "datas/civitai_datas_abc.json";
            "datas/civitai_datas_def.json"] (fun _ => true)).
  - intros c. apply lookup_empty.
  - reflexivity.
  - vm_compute. reflexivity.
Defined.

Lemma load_and_summarize_rows_witness :
  match load_and_summarize demo_store demo_entries (fun _ => true) "datas" "likeScore" with
  | Ok s =>
      frame_wf (s_df s) /\ In "likeScore" (f_cols (s_df s)) /\
      Forall (fun r => calc_custom_score (row_get r "stats" PNaN) = Ok (row_get r "likeScore" PNaN))
        (f_rows (s_df s)) /\
      Sorted (row_before "likeScore") (f_rows (s_df s)) /\
      exists items, load_items demo_store demo_entries (fun _ => true) "datas" = Ok (PList items) /\
        length (f_rows (s_df s)) = length items
  | Err _ => False
  end.
Proof.
  destruct (load_and_summarize demo_store demo_entries (fun _ => true) "datas" "likeScore")
    as [s|e] eqn:E; [exact (load_and_summarize_rows _ _ _ _ _ s E)|].
  vm_compute in E. discriminate E.
Defined.

Lemma load_and_summarize_no_stats_witness :
  load_and_summarize demo_store [] (fun _ => true) "datas" "likeScore" = Err KeyError.
Proof. apply (load_and_summarize_no_stats _ _ _ _ _ []); [reflexivity | constructor]. Defined.

Lemma viewer_main_runs_witness :
  match load_and_summarize demo_store demo_entries (fun _ => true) "datas" "likeScore" with
  | Ok s =>
      viewer_main demo_store demo_entries (fun _ => true) "datas" "likeScore" demo_fetch FMissing
        [key_q] = Ok (show_images_with_summary demo_fetch (f_rows (s_df s)) FMissing [key_q])
  | Err _ => False
  end.
Proof.
  destruct (load_and_summarize demo_store demo_entries (fun _ => true) "datas" "likeScore")
    as [s|e] eqn:E; [exact (viewer_main_runs _ _ _ _ _ _ _ _ s E)|].
  vm_compute in E. discriminate E.
Defined.
