(* ===== verification/TypeInspector.v ===== *)
(** The type inspector of [src/show_json_types.py], [print_types].

    The recursion descends into an object's values and into the first
    element of a non-empty list, while [depth < max_depth].  It is
    structural on the JSON value: a nested [fix] walks the entries of an
    object.  A printed line is kept as its [prefix] and the rest of the
    text ([f"{prefix}{k}: {type(v).__name__}"] is [prefix] followed by
    [k ++ ": " ++ type_name v]). *)

From S2P Require Import Prelude PyValue.

(** [isinstance(v, (dict, list))] *)
Definition is_container (v : pyval) : bool := is_dict v || is_list v.

(** [print_types(obj, prefix, depth, max_depth)]: the lines printed. *)
Fixpoint print_types (obj : pyval) (prefix : string) (depth max_depth : nat)
  : list (string * string) :=
  match obj with
  | PDict kvs =>
      (fix entries (kvs : list (string * pyval)) : list (string * string) :=
         match kvs with
         | [] => []
         | (k, v) :: kvs' =>
             (prefix, k +:+ ": " +:+ type_name v) ::
             (if is_container v && (depth <? max_depth)
              then print_types v (prefix +:+ "  ") (S depth) max_depth else [])
             ++ entries kvs'
         end) kvs
  | PList (x :: _) =>
      (prefix, "[list of " +:+ type_name x +:+ "]") ::
      (if is_container x && (depth <? max_depth)
       then print_types x (prefix +:+ "  ") (S depth) max_depth else [])
  | _ => []
  end.

(** The [__main__] call: [print_types(data, max_depth=args.max_depth)]. *)
Definition show_json_types (data : pyval) (max_depth : nat) : list (string * string) :=
  print_types data "" 1 max_depth.

(** [j] levels of two-space indentation. *)
Fixpoint indent (j : nat) : string :=
  match j with O => "" | S j' => "  " +:+ indent j' end.

(** ** Properties *)

Lemma indent_S j : "  " +:+ indent j = indent (S j).
Proof. reflexivity. Qed.

(** A line printed by a nested call is a line of the caller one level
    deeper. *)
Lemma nested_line prefix depth md v p t :
  (forall prefix' depth', In (p, t) (print_types v prefix' depth' md) ->
     exists j, p = prefix' +:+ indent j /\ depth' + j <= Nat.max depth' md) ->
  In (p, t) (if is_container v && (depth <? md)
             then print_types v (prefix +:+ "  ") (S depth) md else []) ->
  exists j, p = prefix +:+ indent j /\ depth + j <= Nat.max depth md.
Proof.
  intros IH Hin. destruct (is_container v && (depth <? md)) eqn:Hc; [|done].
  apply andb_prop in Hc as [_ Hlt%Nat.ltb_lt].
  destruct (IH _ _ Hin) as (j & -> & Hj). exists (S j).
  rewrite string_app_assoc, indent_S. split; [done | lia].
Qed.

(** C39: the printed lines are indented two spaces per level, below the
    [depth] of the call and never deeper than [max_depth]: with the
    script's defaults ([depth = 1]) a line is indented at most
    [max_depth - 1] levels. *)
Theorem print_types_indent obj prefix depth md p t :
  In (p, t) (print_types obj prefix depth md) ->
  exists j, p = prefix +:+ indent j /\ depth + j <= Nat.max depth md.
Proof.
  revert prefix depth p t.
  induction obj as [| | | | | |l Hl|kvs Hkvs] using pyval_ind; intros prefix depth p t;
    simpl; try done.
  - destruct l as [|x l']; [done|]. apply Forall_cons_1 in Hl as [Hx _].
    intros [[= Hp Ht]|Hin]; [subst; exists 0; rewrite string_app_nil_r; split; [done | lia]|].
    eapply nested_line; [|exact Hin]. intros ? ?. apply Hx.
  - induction Hkvs as [|[k v] kvs Hv _ IH]; [done|]. simpl.
    intros [[= Hp Ht]|Hin]; [subst; exists 0; rewrite string_app_nil_r; split; [done | lia]|].
    apply in_app_or in Hin as [Hin|Hin]; [|by apply IH].
    eapply nested_line; [|exact Hin]. intros ? ?. apply Hv.
Qed.

(** When [depth] has reached [max_depth], an object prints one line
    per key, [k: type], and nothing below. *)
Theorem print_types_shallow kvs prefix depth md :
  md <= depth ->
  print_types (PDict kvs) prefix depth md =
  map (fun kv => (prefix, kv.1 +:+ ": " +:+ type_name kv.2)) kvs.
Proof.
  intros Hd. simpl. induction kvs as [|[k v] kvs IH]; simpl; [done|].
  rewrite IH. destruct (Nat.ltb_spec depth md); [lia|]. by rewrite andb_false_r.
Qed.

(** ** Witnesses *)

Definition demo_doc : pyval :=
  PDict [("items", PList [PDict [("id", PInt 1)]]);
         ("metadata", PDict [("nextCursor", PStr "a")])].

Lemma print_types_indent_witness :
  exists j, "  " = "" +:+ indent j /\ 1 + j <= Nat.max 1 2.
Proof.
  apply (print_types_indent demo_doc "" 1 2 "  " "[list of dict]"). vm_compute. auto.
Defined.

Lemma print_types_shallow_witness :
  show_json_types demo_doc 1 =
  map (fun kv => ("", kv.1 +:+ ": " +:+ type_name kv.2))
      [("items", PList [PDict [("id", PInt 1)]]); ("metadata", PDict [("nextCursor", PStr "a")])].
Proof. apply print_types_shallow. lia. Defined.
