(* ===== verification/Cli.v ===== *)
(** The command lines of the four scripts: [argparse] as Python 3.11
    implements it, for the actions the scripts declare, and the
    [if __name__ == "__main__":] blocks that call the modelled functions
    with the parsed namespace.

    A parser is its optional actions (with the [-h]/[--help] action
    [argparse] adds first) and its positional actions.  [parse_args]
    classifies every argument as [_parse_optional] does, before any action
    is taken (so an ambiguous abbreviation fails first), then consumes
    the arguments in order: an option with its value (separate, after
    [=], or attached to a short flag), chains of zero-argument short flags
    ([-nh]), positionals one by one, and unrecognised arguments, which
    are an error at the end.  A [Namespace] is the list of its attributes.
    [argparse] reports an error by [sys.exit(2)] and [--help] by
    [sys.exit(0)]: both are [SystemExit].

    The theorems: the exit codes of [parse_args]; the types of a parsed
    namespace ([Section Typing], the loop invariant [loop_inv]); the
    round trip from a typed namespace to a command line ([render_argv])
    and back ([Section Render]); the crawler's entry point. *)

From Stdlib Require Import Ascii.
From S2P Require Import Prelude PyValue PyInt Counter Crawler Histogram Analyzer Viewer Loader TypeInspector.

(** ** Parsers *)

(** The value types of the actions: [type=str], [type=int], and the
    [bool] of [action="store_true"]. *)
Inductive argty := TStr | TInt | TBool.

(** The actions the scripts declare, and the [help] action [argparse]
    adds. *)
Inductive action :=
| AStore (t : argty) (choices : option (list string))
| AStoreTrue
| AHelp.

(** [parser.add_argument(flag, ..., dest=..., default=...)] for an option. *)
Record optspec := mk_opt {
  o_flags : list string; o_dest : string; o_act : action; o_default : pyval
}.

(** A positional argument ([nargs=None]: exactly one string). *)
Record posspec := mk_pos { ps_dest : string; ps_ty : argty; ps_choices : option (list string) }.

Record parser := mk_parser { p_opts : list optspec; p_pos : list posspec }.

(** [add_help=True]: [-h]/[--help], registered first. *)
Definition help_opt : optspec := mk_opt ["-h"; "--help"] "help" AHelp PNone.

Definition actions (p : parser) : list optspec := help_opt :: p_opts p.

(** [parser._option_string_actions], in insertion order. *)
Definition flag_list (p : parser) : list (string * optspec) :=
  flat_map (fun o => map (fun f => (f, o)) (o_flags o)) (actions p).

Definition find_flag (p : parser) (f : string) : option optspec :=
  snd <$> List.find (fun fo => String.eqb fo.1 f) (flag_list p).

(** [s.split("=", 1)] when [s] holds a ["="]. *)
Fixpoint split_eq (s : string) : option (string * string) :=
  match s with
  | EmptyString => None
  | String c s' =>
      if Ascii.eqb c "=" then Some (EmptyString, s')
      else (fun '(a, b) => (String c a, b)) <$> split_eq s'
  end.

(** The digits before and after the first ["."] of a list of characters. *)
Fixpoint split_dot (l : list ascii) : option (list ascii * list ascii) :=
  match l with
  | [] => None
  | c :: l' => if Ascii.eqb c "." then Some ([], l')
               else (fun '(a, b) => (c :: a, b)) <$> split_dot l'
  end.

(** [_negative_number_matcher]: [^-\d+$|^-\d*\.\d+$], where [$] also
    matches before a final newline. *)
Definition is_negative_number (s : string) : bool :=
  let l := String.list_ascii_of_string s in
  let l := match rev l with "010"%char :: r => rev r | _ => l end in
  match l with
  | "-"%char :: ds =>
      (negb (length ds =? 0) && forallb is_digit ds) ||
      match split_dot ds with
      | Some (int, frac) => forallb is_digit int && negb (length frac =? 0) && forallb is_digit frac
      | None => false
      end
  | _ => false
  end.

Definition has_space (s : string) : bool :=
  existsb (fun c => Ascii.eqb c " ") (String.list_ascii_of_string s).

(** How [_parse_optional] classifies one argument. *)
Inductive argclass :=
| COpt (o : optspec) (flag : string) (explicit : option string)
| CUnknown
| CAmbiguous
| CPos.

(** [_get_option_tuples]: the options an abbreviation may stand for. *)
Definition option_tuples (p : parser) (s : string) : list (optspec * string * option string) :=
  match s with
  | String c0 (String c1 rest) =>
      if negb (Ascii.eqb c0 "-") then [] else
      if Ascii.eqb c1 "-" then
        let '(pre, expl) := match split_eq s with Some (a, b) => (a, Some b) | None => (s, None) end in
        map (fun fo => (fo.2, fo.1, expl)) (List.filter (fun fo => String.prefix pre fo.1) (flag_list p))
      else
        flat_map (fun fo =>
          if String.eqb fo.1 (String "-" (String c1 EmptyString)) then [(fo.2, fo.1, Some rest)]
          else if String.prefix s fo.1 then [(fo.2, fo.1, None)] else []) (flag_list p)
  | _ => []
  end.

Definition has_neg_opts (p : parser) : bool := existsb (fun fo => is_negative_number fo.1) (flag_list p).

(** [_parse_optional] *)
Definition parse_optional (p : parser) (s : string) : argclass :=
  match s with
  | EmptyString => CPos
  | String c rest =>
      if negb (Ascii.eqb c "-") then CPos else
      match find_flag p s with
      | Some o => COpt o s None
      | None =>
          if String.eqb rest "" then CPos else
          match (match split_eq s with
                 | Some (pre, post) => (fun o => (o, pre, post)) <$> find_flag p pre
                 | None => None
                 end) with
          | Some (o, pre, post) => COpt o pre (Some post)
          | None =>
              match option_tuples p s with
              | [(o, f, e)] => COpt o f e
              | _ :: _ :: _ => CAmbiguous
              | [] =>
                  if is_negative_number s && negb (has_neg_opts p) then CPos
                  else if has_space s then CPos else CUnknown
              end
          end
      end
  end.

(** The arguments as [_parse_known_args] sees them: everything after the
    first ["--"] is positional. *)
Inductive token := TSep | TArg (s : string) (c : argclass).

Fixpoint classify_all (p : parser) (args : list string) : list token :=
  match args with
  | [] => []
  | a :: rest =>
      if String.eqb a "--" then TSep :: map (fun s => TArg s CPos) rest
      else TArg a (parse_optional p a) :: classify_all p rest
  end.

Definition is_ambiguous (t : token) : bool :=
  match t with TArg _ CAmbiguous => true | _ => false end.

(** ** Consuming the arguments *)

(** [_get_values] for one string: the [type] conversion, then the
    [choices] test; a failure is [parser.error], [sys.exit(2)]. *)
Definition in_choices (ch : option (list string)) (v : pyval) : bool :=
  match ch with
  | None => true
  | Some cs => match v with PStr s => existsb (String.eqb s) cs | _ => false end
  end.

Definition convert (t : argty) (ch : option (list string)) (s : string) : Py pyval :=
  v <- match t with
       | TStr => Ok (PStr s)
       | TInt => match py_int_of_string s with Some z => Ok (PInt z) | None => Err (SystemExit 2) end
       | TBool => Err (SystemExit 2)
       end ;;
  if in_choices ch v then Ok v else Err (SystemExit 2).

(** The action tuples of one option argument, and the option still
    waiting for its value in the next argument.  An explicit argument of
    a zero-argument short flag is a chain of further short flags
    ([-nh] is [-n -h]); of a long flag, or an empty one, it is an error. *)
Definition tail_tuples (o : optspec) (e : option string)
    (short_chain : optspec -> string -> string -> Py (list (optspec * option string) * option optspec))
    (flag : string) : Py (list (optspec * option string) * option optspec) :=
  match e, o_act o with
  | None, AStore _ _ => Ok ([], Some o)
  | None, _ => Ok ([(o, None)], None)
  | Some x, AStore _ _ => Ok ([(o, Some x)], None)
  | Some x, _ => short_chain o flag x
  end.

Fixpoint short_chain (p : parser) (o : optspec) (flag x : string) {struct x}
  : Py (list (optspec * option string) * option optspec) :=
  match x with
  | EmptyString => Err (SystemExit 2)
  | String x0 x' =>
      match flag with
      | String _ (String c2 _) =>
          if Ascii.eqb c2 "-" then Err (SystemExit 2) else
          let f' := String "-" (String x0 EmptyString) in
          match find_flag p f' with
          | None => Err (SystemExit 2)
          | Some o' =>
              r <- match x' with
                   | EmptyString =>
                       match o_act o' with
                       | AStore _ _ => Ok ([], Some o')
                       | _ => Ok ([(o', None)], None)
                       end
                   | String _ _ =>
                       match o_act o' with
                       | AStore _ _ => Ok ([(o', Some x')], None)
                       | _ => short_chain p o' f' x'
                       end
                   end ;;
              Ok ((o, None) :: r.1, r.2)
          end
      | _ => Err (SystemExit 2)
      end
  end.

(** [consume_optional] up to the value it may read from the next argument. *)
Definition opt_tuples (p : parser) (o : optspec) (flag : string) (e : option string)
  : Py (list (optspec * option string) * option optspec) :=
  tail_tuples o e (short_chain p) flag.

(** The state of the loop: the namespace, the positionals still to fill
    and whether an argument was not recognised. *)
Record pstate := mk_pst { ns : list (string * pyval); pending : list posspec; extras : bool }.

(** [take_action] *)
Definition take_action (st : pstate) (t : optspec * option string) : Py pstate :=
  match o_act t.1, t.2 with
  | AStore ty ch, Some v =>
      x <- convert ty ch v ;; Ok (mk_pst (dict_set (o_dest t.1) x (ns st)) (pending st) (extras st))
  | AStore _ _, None => Err (SystemExit 2)
  | AStoreTrue, _ => Ok (mk_pst (dict_set (o_dest t.1) (PBool true) (ns st)) (pending st) (extras st))
  | AHelp, _ => Err (SystemExit 0)
  end.

(** The loop of [_parse_known_args], in the order of the arguments.  A
    positional takes its string with the separator ["--"] next to it
    (its pattern is [-*A-*]); a separator that no positional takes is an
    unrecognised argument.  [prev] says that the previous argument was
    taken by a positional. *)
Fixpoint parse_loop (p : parser) (ts : list token) (prev : bool) (st : pstate) : Py pstate :=
  match ts with
  | [] => Ok st
  | TSep :: ts' =>
      let taken := prev || match ts', pending st with
                           | TArg _ CPos :: _, _ :: _ => true
                           | _, _ => false
                           end in
      parse_loop p ts' false (mk_pst (ns st) (pending st) (extras st || negb taken))
  | TArg s CPos :: ts' =>
      match pending st with
      | ps :: pend =>
          x <- convert (ps_ty ps) (ps_choices ps) s ;;
          parse_loop p ts' true (mk_pst (dict_set (ps_dest ps) x (ns st)) pend (extras st))
      | [] => parse_loop p ts' false (mk_pst (ns st) [] true)
      end
  | TArg _ CUnknown :: ts' => parse_loop p ts' false (mk_pst (ns st) (pending st) true)
  | TArg _ CAmbiguous :: _ => Err (SystemExit 2)
  | TArg _ (COpt o f e) :: ts' =>
      r <- opt_tuples p o f e ;;
      match r.2, ts' with
      | None, _ =>
          st' <- fold_res take_action st r.1 ;; parse_loop p ts' false st'
      | Some o', TArg v CPos :: ts'' =>
          st' <- fold_res take_action st (r.1 ++ [(o', Some v)]) ;; parse_loop p ts'' false st'
      | Some _, _ => Err (SystemExit 2)
      end
  end.

(** The defaults set before parsing: every option's [default], [None] for
    a positional; [help] has none. *)
Definition init_ns (p : parser) : list (string * pyval) :=
  map (fun o => (o_dest o, o_default o)) (p_opts p) ++ map (fun ps => (ps_dest ps, PNone)) (p_pos p).

(** [parser.parse_args(argv)]: an ambiguous abbreviation, a missing
    positional or an unrecognised argument is [sys.exit(2)]. *)
Definition parse_args (p : parser) (argv : list string) : Py (list (string * pyval)) :=
  let ts := classify_all p argv in
  if existsb is_ambiguous ts then Err (SystemExit 2) else
  st <- parse_loop p ts false (mk_pst (init_ns p) (p_pos p) false) ;;
  match pending st with
  | _ :: _ => Err (SystemExit 2)
  | [] => if extras st then Err (SystemExit 2) else Ok (ns st)
  end.

(** [args.dest]: an attribute of the namespace. *)
Definition ns_get (n : list (string * pyval)) (d : string) : Py pyval :=
  match dict_lookup d n with Some v => Ok v | None => Err AttributeError end.

Definition as_int (v : pyval) : Py Z := match v with PInt z => Ok z | _ => Err TypeError end.
Definition as_str (v : pyval) : Py string := match v with PStr s => Ok s | _ => Err TypeError end.

(** [args.dest] used as an [int] or a [str]. *)
Definition ns_int (n : list (string * pyval)) (d : string) : Py Z := v <- ns_get n d ;; as_int v.
Definition ns_str (n : list (string * pyval)) (d : string) : Py string := v <- ns_get n d ;; as_str v.

(** ** The four command lines *)

(** [crawl_civitai.py]: [-l/--limit] (100), [-d/--depth] (5), [-n/--nsfw]. *)
Definition crawl_parser : parser :=
  mk_parser
    [mk_opt ["-l"; "--limit"] "limit" (AStore TInt None) (PInt 100);
     mk_opt ["-d"; "--depth"] "depth" (AStore TInt None) (PInt 5);
     mk_opt ["-n"; "--nsfw"] "nsfw" AStoreTrue (PBool false)]
    [].

(** [analyze_json.py]: [--json-path]. *)
Definition analyze_parser : parser :=
  mk_parser
    [mk_opt ["--json-path"] "json_path" (AStore TStr None)
       (PStr "./datas/selected/selected_datas.json")]
    [].

(** [viewer.py]: the positional [datas] and [--sort-col] with its choices. *)
Definition viewer_parser : parser :=
  mk_parser
    [mk_opt ["--sort-col"] "sort_col" (AStore TStr (Some ["likeScore"; "createdAt"])) (PStr "likeScore")]
    [mk_pos "datas" TStr None].

(** [show_json_types.py]: the positional [json_file] and [--max-depth/-d]. *)
Definition types_parser : parser :=
  mk_parser
    [mk_opt ["--max-depth"; "-d"] "max_depth" (AStore TInt None) (PInt 2)]
    [mk_pos "json_file" TStr None].

(** [crawl_civitai.py]'s [__main__]: [run(args.limit, args.nsfw, args.depth)]
    in the data directory [data_dir]. *)
Definition crawl_main (data_dir : string) (dir_exists : string -> bool)
    (net : nat -> request -> response) (fs : store) (argv : list string)
  : Py (cstate * option exc) :=
  n <- parse_args crawl_parser argv ;;
  limit <- ns_int n "limit" ;;
  nsfw <- ns_get n "nsfw" ;;
  depth <- ns_int n "depth" ;;
  Ok (run data_dir dir_exists net limit (truthy nsfw) depth fs).

(** [analyze_json.py]'s [__main__]: [main(args.json_path)], reading the
    file and then the lines typed. *)
Definition analyze_cli (fs : store) (argv inputs : list string) : Py (list view * option exc) :=
  n <- parse_args analyze_parser argv ;;
  path <- ns_str n "json_path" ;;
  data <- read_json fs path ;;
  Ok (analyze_main data inputs).

(** [show_json_types.py]'s [__main__]: [print_types(data,
    max_depth=args.max_depth)]; a [max_depth] below 1 prints the top
    level only, as [0] does. *)
Definition types_cli (fs : store) (argv : list string) : Py (list (string * string)) :=
  n <- parse_args types_parser argv ;;
  path <- ns_str n "json_file" ;;
  md <- ns_int n "max_depth" ;;
  data <- read_json fs path ;;
  Ok (show_json_types data (Z.to_nat md)).

(** [viewer.py]'s [__main__]: [load_and_summarize(args.datas,
    args.sort_col)], the histogram and the curator loop. *)
Definition viewer_cli `{SortValues} (fs : store) (entries : list string)
    (is_dir : string -> bool) (fetch : pyval -> option image) (sel : file)
    (keys : list Z) (argv : list string) : Py vout :=
  n <- parse_args viewer_parser argv ;;
  datas <- ns_str n "datas" ;;
  col <- ns_str n "sort_col" ;;
  viewer_main fs entries is_dir datas col fetch sel keys.

(** ** Types of the namespace *)

(** The value an action stores has the type the action declares. *)
Inductive val_has_ty : argty -> pyval -> Prop :=
| ty_str s : val_has_ty TStr (PStr s)
| ty_int z : val_has_ty TInt (PInt z)
| ty_bool b : val_has_ty TBool (PBool b).

Definition typeb (t : argty) (v : pyval) : bool :=
  match t, v with
  | TStr, PStr _ | TInt, PInt _ | TBool, PBool _ => true
  | _, _ => false
  end.

Lemma typeb_reflect t v : reflect (val_has_ty t v) (typeb t v).
Proof.
  destruct t, v; simpl; constructor; try constructor; by inversion 1.
Qed.

(** The type and the choices of an option's value; [help] stores none. *)
Definition opt_ty (o : optspec) : option (argty * option (list string)) :=
  match o_act o with
  | AStore t ch => Some (t, ch)
  | AStoreTrue => Some (TBool, None)
  | AHelp => None
  end.

Definition val_ok (t : argty) (ch : option (list string)) (v : pyval) : Prop :=
  val_has_ty t v /\ in_choices ch v = true.

(** Every option and every positional of [p] is an attribute of [n] of
    the declared type, within its choices. *)
Definition ns_typed (p : parser) (n : list (string * pyval)) : Prop :=
  Forall (fun o => forall t ch, opt_ty o = Some (t, ch) ->
            exists v, dict_lookup (o_dest o) n = Some v /\ val_ok t ch v) (p_opts p) /\
  Forall (fun ps => exists v, dict_lookup (ps_dest ps) n = Some v /\
            val_ok (ps_ty ps) (ps_choices ps) v) (p_pos p).

(** What [argparse] and the scripts guarantee of a parser: distinct
    destinations, defaults of the declared type within the choices
    ([store_true] defaults to [False]), no second [help]. *)
Record parser_wf (p : parser) : Prop := {
  wf_dests : NoDup (map o_dest (p_opts p) ++ map ps_dest (p_pos p));
  wf_opts : Forall (fun o => match o_act o with
                            | AStore t ch => val_ok t ch (o_default o)
                            | AStoreTrue => o_default o = PBool false
                            | AHelp => False
                            end) (p_opts p)
}.

Definition parser_wfb (p : parser) : bool :=
  bool_decide (NoDup (map o_dest (p_opts p) ++ map ps_dest (p_pos p))) &&
  forallb (fun o => match o_act o with
                    | AStore t ch => typeb t (o_default o) && in_choices ch (o_default o)
                    | AStoreTrue => if o_default o is PBool false then true else false
                    | AHelp => false
                    end) (p_opts p).

Lemma parser_wfb_sound p : parser_wfb p = true -> parser_wf p.
Proof.
  unfold parser_wfb. intros [Hd Ho]%andb_prop. split; [by apply bool_decide_eq_true in Hd|].
  apply List.Forall_forall. intros o Hin. apply forallb_forall with (x := o) in Ho; [|done].
  destruct (o_act o); try done.
  - apply andb_prop in Ho as [Ht Hc]. split; [by apply (reflect_iff _ _ (typeb_reflect _ _))|done].
  - by destruct (o_default o) as [|[]| | | | | |].
Qed.

(** *** The actions met during parsing are the parser's *)

Lemma find_flag_in p f o : find_flag p f = Some o -> In o (actions p).
Proof.
  unfold find_flag. destruct (List.find _ _) as [[f' o']|] eqn:Hf; [|done]. intros [= <-].
  apply List.find_some in Hf as [Hin _]. apply in_flat_map in Hin as (o'' & Ho'' & Hin).
  apply in_map_iff in Hin as (? & [= _ <-] & _). done.
Qed.

Lemma flag_list_in p f o : In (f, o) (flag_list p) -> In o (actions p).
Proof.
  intros Hin. apply in_flat_map in Hin as (o' & Ho' & Hin).
  by apply in_map_iff in Hin as (? & [= _ <-] & _).
Qed.

Lemma option_tuples_in p s o f e : In (o, f, e) (option_tuples p s) -> In o (actions p).
Proof.
  unfold option_tuples. destruct s as [|c0 [|c1 rest]]; try done.
  destruct (negb _); [done|]. destruct (Ascii.eqb c1 "-").
  - destruct (split_eq _) as [[]|]; intros (fo & [= <- _ _] & Hfo%filter_In)%in_map_iff;
      destruct fo as [f' o']; exact (flag_list_in p f' o' (proj1 Hfo)).
  - intros ([f' o'] & Hfo & Hin)%in_flat_map. apply (flag_list_in p f').
    cbn [fst snd] in Hin. destruct (String.eqb _ _) in Hin; [|destruct (String.prefix _ _) in Hin];
      cbn [In] in Hin; [destruct Hin as [[= <- _ _]|[]]; exact Hfo..|contradiction].
Qed.

Lemma parse_optional_in p s o f e : parse_optional p s = COpt o f e -> In o (actions p).
Proof.
  unfold parse_optional. destruct s as [|c rest]; [done|].
  destruct (negb _); [done|].
  destruct (find_flag p _) as [o'|] eqn:Hf; [intros [= <- _ _]; by eapply find_flag_in|].
  destruct (String.eqb rest ""); [done|].
  destruct (split_eq _) as [[pre post]|];
    [destruct (find_flag p pre) as [o'|] eqn:Hf'; [intros [= <- _ _]; by eapply find_flag_in|]|];
    cbn [fmap option_fmap option_map];
    (destruct (option_tuples p (String c rest)) as [|[[o' f'] e'] [|? ?]] eqn:Ht;
      [destruct (_ && _); [done|]; by destruct (has_space _)
      | intros [= <- _ _]; apply (option_tuples_in p (String c rest) o' f' e'); rewrite Ht; by left
      | done]).
Qed.

(** Every option an argument names is an action of the parser. *)
Definition toks_ok (p : parser) (ts : list token) : Prop :=
  forall s o f e, In (TArg s (COpt o f e)) ts -> In o (actions p).

Lemma classify_all_ok p args : toks_ok p (classify_all p args).
Proof.
  induction args as [|a args IH]; intros s o f e; simpl; [done|].
  destruct (String.eqb a "--").
  - intros [[=]|(? & [=] & _)%in_map_iff].
  - intros [[= <- Hc]|Hin]; [by eapply parse_optional_in | by eapply IH].
Qed.

Lemma toks_ok_cons p t ts : toks_ok p (t :: ts) -> toks_ok p ts.
Proof. intros H s o f e Hin. eapply H. by right. Qed.

(** The tuples of an option and of a chain of short flags are actions. *)
Definition tuples_ok (p : parser) (r : list (optspec * option string) * option optspec) : Prop :=
  Forall (fun t => In t.1 (actions p)) r.1 /\ (forall o', r.2 = Some o' -> In o' (actions p)).

Lemma tuples_ok_one p o x : In o (actions p) -> tuples_ok p ([(o, x)], None).
Proof. intros Ho. split; [by constructor|done]. Qed.

Lemma tuples_ok_pending p o : In o (actions p) -> tuples_ok p ([], Some o).
Proof. intros Ho. split; [constructor|by intros ? [= <-]]. Qed.

Lemma chain_ok p o flag x r : In o (actions p) -> short_chain p o flag x = Ok r -> tuples_ok p r.
Proof.
  revert o flag r; induction x as [|x0 x' IH]; intros o flag r Ho; simpl; [done|].
  destruct flag as [|? [|c2 ?]]; try done. destruct (Ascii.eqb c2 "-"); [done|].
  destruct (find_flag p _) as [o'|] eqn:Hf; [|done]. apply find_flag_in in Hf.
  intros H. apply bind_ok in H as (r' & Hr' & [= <-]).
  assert (tuples_ok p r') as [H1 H2].
  { destruct x'; destruct (o_act o'); try (injection Hr' as <-; first [by apply tuples_ok_one | by apply tuples_ok_pending]);
      by eapply IH. }
  split; [by constructor | exact H2].
Qed.

Lemma opt_tuples_ok p o f e r : In o (actions p) -> opt_tuples p o f e = Ok r -> tuples_ok p r.
Proof.
  intros Ho. unfold opt_tuples, tail_tuples.
  destruct e, (o_act o); try (intros [= <-]; first [by apply tuples_ok_one | by apply tuples_ok_pending]);
    by apply chain_ok.
Qed.

(** *** The typing invariant of the loop *)

Lemma convert_ok t ch s x : convert t ch s = Ok x -> val_ok t ch x.
Proof.
  unfold convert. intros H. apply bind_ok in H as (v & Hv & H).
  destruct (in_choices ch v) eqn:Hc; [injection H as <-|done]. split; [|done].
  destruct t; [injection Hv as <-; constructor| |discriminate].
  destruct (py_int_of_string s); [injection Hv as <-; constructor|discriminate].
Qed.

Section Typing.
Context (p : parser) (Hwf : parser_wf p).

Definition opts_typed (n : list (string * pyval)) : Prop :=
  Forall (fun o => forall t ch, opt_ty o = Some (t, ch) ->
            exists v, dict_lookup (o_dest o) n = Some v /\ val_ok t ch v) (p_opts p).

Definition pos_typed (n : list (string * pyval)) (l : list posspec) : Prop :=
  Forall (fun ps => exists v, dict_lookup (ps_dest ps) n = Some v /\
            val_ok (ps_ty ps) (ps_choices ps) v) l.

(** Options are typed; the positionals already taken are typed. *)
Definition loop_inv (st : pstate) : Prop :=
  opts_typed (ns st) /\ exists done, p_pos p = done ++ pending st /\ pos_typed (ns st) done.

Lemma opt_pos_dest o ps : In o (p_opts p) -> In ps (p_pos p) -> o_dest o <> ps_dest ps.
Proof.
  intros Ho Hps Heq. pose proof (wf_dests p Hwf) as (_ & Hdisj & _)%NoDup_app.
  apply (Hdisj (o_dest o)); apply list_elem_of_In; [by apply in_map|rewrite Heq; by apply in_map].
Qed.

Lemma set_opt_inv st o t ch x :
  In o (p_opts p) -> opt_ty o = Some (t, ch) -> val_ok t ch x -> loop_inv st ->
  loop_inv (mk_pst (dict_set (o_dest o) x (ns st)) (pending st) (extras st)).
Proof.
  intros Ho Hty Hx [Hopts (done & Hsplit & Hdone)]. split; simpl.
  - apply List.Forall_forall. intros o2 Ho2 t2 ch2 Hty2.
    destruct (String.eq_dec (o_dest o) (o_dest o2)) as [Heq|Hne].
    + pose proof (wf_dests p Hwf) as (Hnd & _ & _)%NoDup_app.
      assert (o2 = o) as -> by (symmetry; exact (NoDup_map_inj o_dest _ _ _ Hnd Ho Ho2 Heq)).
      rewrite dict_lookup_set_eq. rewrite Hty in Hty2. injection Hty2 as <- <-. eauto.
    + rewrite dict_lookup_set_ne by done. exact (proj1 (List.Forall_forall _ _) Hopts o2 Ho2 t2 ch2 Hty2).
  - exists done. split; [done|]. apply List.Forall_forall. intros ps Hps.
    rewrite dict_lookup_set_ne; [by apply (proj1 (List.Forall_forall _ _) Hdone)|].
    apply opt_pos_dest; [done|]. rewrite Hsplit. apply in_or_app. by left.
Qed.

Lemma set_pos_inv st ps pend x ext :
  pending st = ps :: pend -> val_ok (ps_ty ps) (ps_choices ps) x -> loop_inv st ->
  loop_inv (mk_pst (dict_set (ps_dest ps) x (ns st)) pend ext).
Proof.
  intros Hp Hx [Hopts (done & Hsplit & Hdone)]. rewrite Hp in Hsplit.
  assert (In ps (p_pos p)) as Hps by (rewrite Hsplit; apply in_or_app; right; by left).
  split; simpl.
  - apply List.Forall_forall. intros o Ho t ch Hty.
    rewrite dict_lookup_set_ne by (apply not_eq_sym, opt_pos_dest; done).
    exact (proj1 (List.Forall_forall _ _) Hopts o Ho t ch Hty).
  - exists (done ++ [ps]). split; [by rewrite Hsplit, <- app_assoc|].
    apply Forall_app. split; [|constructor; [rewrite dict_lookup_set_eq; eauto|constructor]].
    apply List.Forall_forall. intros ps2 Hps2.
    rewrite dict_lookup_set_ne; [by apply (proj1 (List.Forall_forall _ _) Hdone)|].
    pose proof (wf_dests p Hwf) as (_ & _ & Hnd)%NoDup_app.
    rewrite Hsplit, map_app in Hnd. apply NoDup_app in Hnd as (_ & Hdisj & _).
    intros Heq. apply (Hdisj (ps_dest ps2)); apply list_elem_of_In;
      [by apply in_map | rewrite <- Heq; simpl; by left].
Qed.

Lemma take_inv st tup st' :
  In tup.1 (actions p) -> loop_inv st -> take_action st tup = Ok st' ->
  loop_inv st' /\ pending st' = pending st.
Proof.
  destruct tup as [o v0]; cbn [fst snd]. intros [<-|Ho] Hinv; unfold take_action; cbn [fst snd]; [done|].
  destruct (o_act o) as [ty ch| |] eqn:Ha, v0 as [v|]; try done.
  - intros H. apply bind_ok in H as (x & Hx%convert_ok & [= <-]). split; [|done].
    apply (set_opt_inv _ _ ty ch); [done| unfold opt_ty; by rewrite Ha | done | done].
  - intros [= <-]. split; [|done]. apply (set_opt_inv _ _ TBool None);
      [done| unfold opt_ty; by rewrite Ha | split; [constructor|done] | done].
  - intros [= <-]. split; [|done]. apply (set_opt_inv _ _ TBool None);
      [done| unfold opt_ty; by rewrite Ha | split; [constructor|done] | done].
Qed.

Lemma fold_take_inv st l st' :
  Forall (fun t => In t.1 (actions p)) l -> loop_inv st -> fold_res take_action st l = Ok st' ->
  loop_inv st' /\ pending st' = pending st.
Proof.
  intros Hl Hinv. apply (fold_res_inv_in (fun s => loop_inv s /\ pending s = pending st));
    [|by split].
  intros a t a' Hin [Ha Hpa] Hta. destruct (take_inv a t a') as [? ->]; [|done..|done].
  by apply (proj1 (List.Forall_forall _ _) Hl).
Qed.

Lemma loop_inv_ext st b : loop_inv st -> loop_inv (mk_pst (ns st) (pending st) b).
Proof. done. Qed.

Lemma parse_loop_inv ts prev st st' :
  toks_ok p ts -> loop_inv st -> parse_loop p ts prev st = Ok st' -> loop_inv st'.
Proof.
  revert prev st. induction ts as [[|t ts] IH] using list_len_ind; intros prev st Hts Hinv H;
    simpl in H; [by injection H as <-|].
  assert (forall ts' prev' st0, parse_loop p ts' prev' st0 = Ok st' ->
            length ts' < length (t :: ts) -> toks_ok p ts' -> loop_inv st0 -> loop_inv st') as IH'
    by (intros; eapply IH; eauto).
  destruct t as [|s [o f x| | |]].
  - eapply IH'; [exact H | simpl; lia | exact (toks_ok_cons _ _ _ Hts) | exact Hinv].
  - assert (In o (actions p)) as Ho by (apply (Hts s o f x); by left).
    apply bind_ok in H as (r & Hr & H). apply opt_tuples_ok in Hr as [H1 H2]; [|done].
    destruct r as [tups [o'|]]; cbn [fst snd] in *.
    + destruct ts as [|[|v [| | |]] ts'']; try done.
      apply bind_ok in H as (st1 & Hst1 & H).
      apply fold_take_inv in Hst1 as [Hinv1 _];
        [|apply Forall_app; split; [done|constructor; [by apply H2|constructor]] | done].
      eapply IH'; [exact H | simpl; lia | | exact Hinv1].
      do 2 apply toks_ok_cons in Hts. exact Hts.
    + apply bind_ok in H as (st1 & Hst1 & H). apply fold_take_inv in Hst1 as [Hinv1 _]; [|done..].
      eapply IH'; [exact H | simpl; lia | exact (toks_ok_cons _ _ _ Hts) | exact Hinv1].
  - eapply IH'; [exact H | simpl; lia | exact (toks_ok_cons _ _ _ Hts) |]. done.
  - done.
  - destruct (pending st) as [|ps pend] eqn:Hp.
    + eapply IH'; [exact H | simpl; lia | exact (toks_ok_cons _ _ _ Hts) |].
      rewrite <- Hp. done.
    + apply bind_ok in H as (x & Hx%convert_ok & H).
      eapply IH'; [exact H | simpl; lia | exact (toks_ok_cons _ _ _ Hts) |].
      by apply (set_pos_inv st ps pend).
Qed.

Lemma init_ns_opt o : In o (p_opts p) -> dict_lookup (o_dest o) (init_ns p) = Some (o_default o).
Proof.
  intros Ho. apply dict_lookup_NoDup.
  - unfold init_ns. rewrite map_app, !map_map. exact (wf_dests p Hwf).
  - apply in_or_app. left. apply in_map_iff. by exists o.
Qed.

Lemma init_inv : loop_inv (mk_pst (init_ns p) (p_pos p) false).
Proof.
  split; [|exists []; split; [done|constructor]]. simpl.
  apply List.Forall_forall. intros o Ho t ch Hty. exists (o_default o). split; [by apply init_ns_opt|].
  pose proof (proj1 (List.Forall_forall _ _) (wf_opts p Hwf) o Ho) as Hd.
  cbv beta in Hd. revert Hd. unfold opt_ty in Hty. destruct (o_act o); try discriminate; injection Hty as <- <-;
    intros Hd; [done|]. rewrite Hd. split; [constructor|done].
Qed.

End Typing.

(** The namespace [parse_args] returns is the one the loop leaves, once
    every positional is filled and no argument is left over. *)
Lemma parse_args_ok_inv p argv n :
  parse_args p argv = Ok n ->
  exists st, parse_loop p (classify_all p argv) false (mk_pst (init_ns p) (p_pos p) false) = Ok st /\
    pending st = [] /\ ns st = n.
Proof.
  unfold parse_args. destruct (existsb is_ambiguous _); [done|].
  intros H. apply bind_ok in H as (st & Hst & H). exists st.
  destruct (pending st); [|done]. destruct (extras st); [done|]. by injection H as <-.
Qed.

Lemma loop_inv_done p st : loop_inv p st -> pending st = [] -> ns_typed p (ns st).
Proof.
  intros [Hopts (done & Hsplit & Hdone)] Hp. rewrite Hp, app_nil_r in Hsplit.
  split; [exact Hopts | by rewrite Hsplit].
Qed.

Lemma parse_args_wfb_typed p argv n :
  parser_wfb p = true -> parse_args p argv = Ok n -> ns_typed p n.
Proof.
  intros Hwf%parser_wfb_sound (st & Hl & Hp & <-)%parse_args_ok_inv.
  apply (loop_inv_done p st); [|done].
  exact (parse_loop_inv p Hwf _ _ _ _ (classify_all_ok p argv) (init_inv p Hwf) Hl).
Qed.

(** The attribute of a typed [int] or [str] option, or of a typed
    positional, is there with its type: [args.dest] does not raise. *)
Lemma typed_opt_val p n o t ch :
  ns_typed p n -> In o (p_opts p) -> o_act o = AStore t ch ->
  exists v, dict_lookup (o_dest o) n = Some v /\ val_has_ty t v.
Proof.
  intros [Hopts _] Ho Ha. destruct (proj1 (List.Forall_forall _ _) Hopts o Ho t ch) as (v & Hv & [Ht _]);
    [unfold opt_ty; by rewrite Ha|]. eauto.
Qed.

Lemma typed_pos_val p n ps :
  ns_typed p n -> In ps (p_pos p) -> exists v, dict_lookup (ps_dest ps) n = Some v /\ val_has_ty (ps_ty ps) v.
Proof.
  intros [_ Hpos] Hps. destruct (proj1 (List.Forall_forall _ _) Hpos ps Hps) as (v & Hv & [Ht _]). eauto.
Qed.

Lemma ns_int_typed n d v : dict_lookup d n = Some v -> val_has_ty TInt v -> exists z, v = PInt z /\ ns_int n d = Ok z.
Proof. intros Hd Ht. inversion Ht; subst. exists z. unfold ns_int, ns_get. by rewrite Hd. Qed.

Lemma ns_str_typed n d v : dict_lookup d n = Some v -> val_has_ty TStr v -> exists s, v = PStr s /\ ns_str n d = Ok s.
Proof. intros Hd Ht. inversion Ht; subst. exists s. unfold ns_str, ns_get. by rewrite Hd. Qed.

Lemma crawl_parser_wf : parser_wfb crawl_parser = true.
Proof. vm_compute. reflexivity. Qed.

Lemma analyze_parser_wf : parser_wfb analyze_parser = true.
Proof. vm_compute. reflexivity. Qed.

Lemma viewer_parser_wf : parser_wfb viewer_parser = true.
Proof. vm_compute. reflexivity. Qed.

Lemma types_parser_wf : parser_wfb types_parser = true.
Proof. vm_compute. reflexivity. Qed.

(** C14: the type of the namespace.  For a well-formed parser, a
    successful [parse_args] gives every option and every positional an
    attribute of the declared type ([int], [str], or the [bool] of
    [store_true]) within its [choices]. *)
Theorem parse_args_typed p argv n :
  parser_wf p -> parse_args p argv = Ok n -> ns_typed p n.
Proof.
  intros Hwf (st & Hl & Hp & <-)%parse_args_ok_inv. apply (loop_inv_done p st); [|done].
  exact (parse_loop_inv p Hwf _ _ _ _ (classify_all_ok p argv) (init_inv p Hwf) Hl).
Qed.

(** C25: [crawl_civitai.py]'s entry point.  Whenever its command line
    parses, [args.limit] and [args.depth] are [int]s and [args.nsfw] a
    [bool], and the script runs [run(args.limit, args.nsfw, args.depth)]:
    no [AttributeError] or [TypeError] between the parser and [run]. *)
Theorem crawl_main_runs data_dir dir_exists net fs argv n :
  parse_args crawl_parser argv = Ok n ->
  exists (limit depth : Z) (nsfw : bool),
    dict_lookup "limit" n = Some (PInt limit) /\ dict_lookup "depth" n = Some (PInt depth) /\
    dict_lookup "nsfw" n = Some (PBool nsfw) /\
    crawl_main data_dir dir_exists net fs argv = Ok (run data_dir dir_exists net limit nsfw depth fs).
Proof.
  intros H. destruct (parse_args_wfb_typed _ _ _ crawl_parser_wf H) as [Hopts _].
  apply Forall_cons in Hopts as [Hl [Hd [Hn _]%Forall_cons]%Forall_cons].
  destruct (Hl TInt None eq_refl) as (vl & Hl' & [Htl _]).
  destruct (Hd TInt None eq_refl) as (vd & Hd' & [Htd _]).
  destruct (Hn TBool None eq_refl) as (vn & Hn' & [Htn _]).
  destruct (ns_int_typed _ _ _ Hl' Htl) as (limit & -> & Hli).
  destruct (ns_int_typed _ _ _ Hd' Htd) as (depth & -> & Hdi).
  inversion Htn as [| |b]; subst. exists limit, depth, b. do 3 (split; [done|]).
  cbn [o_dest] in Hn', Hli, Hdi. unfold crawl_main. unfold ns_get at 1. by rewrite H, Hli, Hn', Hdi.
Qed.

(** [viewer.py data --sort=createdAt]: the abbreviation [--sort] stands
    for [--sort-col]. *)
Lemma parse_args_typed_witness :
  ns_typed viewer_parser [("sort_col", PStr "createdAt"); ("datas", PStr "data")].
Proof.
  apply (parse_args_typed viewer_parser ["data"; "--sort=createdAt"]);
    [apply parser_wfb_sound; vm_compute; reflexivity | vm_compute; reflexivity].
Defined.

Lemma crawl_main_runs_witness :
  exists (limit depth : Z) (nsfw : bool),
    dict_lookup "limit" [("limit", PInt 7); ("depth", PInt 5); ("nsfw", PBool true)] = Some (PInt limit) /\
    dict_lookup "depth" [("limit", PInt 7); ("depth", PInt 5); ("nsfw", PBool true)] = Some (PInt depth) /\
    dict_lookup "nsfw" [("limit", PInt 7); ("depth", PInt 5); ("nsfw", PBool true)] = Some (PBool nsfw) /\
    crawl_main "datas" demo_dirs demo_net ∅ ["-nl7"] =
      Ok (run "datas" demo_dirs demo_net limit nsfw depth ∅).
Proof. apply crawl_main_runs. vm_compute. reflexivity. Defined.

(** ** Printing a namespace back to a command line *)

(** The string [argparse] converts back to [v]: [str(v)] for an [int]. *)
Definition render_val (v : pyval) : string :=
  match v with PStr s => s | PInt z => show_Z z | _ => "" end.

(** The arguments that set an option to its value in [n0]: [flag=value]
    with the option's first flag, the bare flag of a [store_true] that
    is [True], nothing otherwise. *)
Definition render_opt (n0 : list (string * pyval)) (o : optspec) : list string :=
  match o_flags o, o_act o, dict_lookup (o_dest o) n0 with
  | f :: _, AStore _ _, Some v => [(f ++ String "=" (render_val v))%string]
  | f :: _, AStoreTrue, Some (PBool true) => [f]
  | _, _, _ => []
  end.

Definition pos_val (n0 : list (string * pyval)) (ps : posspec) : pyval :=
  default PNone (dict_lookup (ps_dest ps) n0).

(** The options, then ["--"] and the positionals in their order. *)
Definition render_argv (p : parser) (n0 : list (string * pyval)) : list string :=
  flat_map (render_opt n0) (p_opts p) ++
  match p_pos p with
  | [] => []
  | pos => "--" :: map (fun ps => render_val (pos_val n0 ps)) pos
  end.

(** The assignments the rendered options make. *)
Definition opt_update (n0 : list (string * pyval)) (o : optspec) : list (string * pyval) :=
  match o_flags o, o_act o, dict_lookup (o_dest o) n0 with
  | _ :: _, AStore _ _, Some v => [(o_dest o, v)]
  | _ :: _, AStoreTrue, Some (PBool true) => [(o_dest o, PBool true)]
  | _, _, _ => []
  end.

Definition dict_set_all (ups kvs : list (string * pyval)) : list (string * pyval) :=
  fold_left (fun kvs kv => dict_set kv.1 kv.2 kvs) ups kvs.

(** The namespace the rendered command line gives back. *)
Definition render_ns (p : parser) (n0 : list (string * pyval)) : list (string * pyval) :=
  dict_set_all (map (fun ps => (ps_dest ps, pos_val n0 ps)) (p_pos p))
    (dict_set_all (flat_map (opt_update n0) (p_opts p)) (init_ns p)).

(** A flag [render_argv] may use: it starts with ['-'], is not ["--"] and
    holds no ["="]. *)
Definition flag_ok (f : string) : bool :=
  match f with String c _ => Ascii.eqb c "-" | EmptyString => false end &&
  negb (String.eqb f "--") && (if split_eq f is Some _ then false else true).

(** Parsers whose namespaces print back: flags distinct and printable,
    every option with a flag, no [type=bool] value. *)
Definition render_wfb (p : parser) : bool :=
  bool_decide (NoDup (map fst (flag_list p))) && forallb flag_ok (map fst (flag_list p)) &&
  forallb (fun o => negb (bool_decide (o_flags o = [])) &&
                    (if o_act o is AStore TBool _ then false else true)) (p_opts p) &&
  forallb (fun ps => if ps_ty ps is TBool then false else true) (p_pos p).

Lemma split_eq_app f s : split_eq f = None -> split_eq (f ++ String "=" s) = Some (f, s).
Proof.
  induction f as [|c f IH]; simpl; [done|].
  destruct (Ascii.eqb c "="); [done|]. destruct (split_eq f) as [[]|]; [done|].
  intros _. by rewrite IH.
Qed.

Lemma find_fst_NoDup {A} (l : list (string * A)) f a :
  NoDup (map fst l) -> In (f, a) l -> List.find (fun fo => String.eqb fo.1 f) l = Some (f, a).
Proof.
  induction l as [|[f' a'] l IH]; [done|]. cbn [map]. intros [Hf Hnd]%NoDup_cons [[= -> ->]|Hin].
  - by cbn; rewrite String.eqb_refl.
  - cbn. destruct (String.eqb_spec f' f) as [->|]; [|by apply IH].
    exfalso. apply Hf, list_elem_of_In, in_map_iff. by exists (f, a).
Qed.

Lemma dict_set_all_notin k ups kvs :
  ~ In k (map fst ups) -> dict_lookup k (dict_set_all ups kvs) = dict_lookup k kvs.
Proof.
  unfold dict_set_all. revert kvs. induction ups as [|[k' v'] ups IH]; intros kvs Hk; [done|].
  cbn [fold_left fst snd]. rewrite IH by naive_solver. apply dict_lookup_set_ne. naive_solver.
Qed.

Lemma dict_set_all_in k v ups kvs :
  NoDup (map fst ups) -> In (k, v) ups -> dict_lookup k (dict_set_all ups kvs) = Some v.
Proof.
  unfold dict_set_all. revert kvs. induction ups as [|[k' v'] ups IH]; intros kvs Hnd Hin; [done|].
  cbn [map fst] in Hnd. apply NoDup_cons in Hnd as [Hk Hnd]. cbn [fold_left fst snd].
  destruct Hin as [[= -> ->]|Hin]; [|by apply IH].
  fold (dict_set_all ups (dict_set k v kvs)). rewrite dict_set_all_notin, dict_lookup_set_eq; [done|].
  by intros ?%list_elem_of_In.
Qed.

Lemma dict_set_all_app u1 u2 kvs : dict_set_all (u1 ++ u2) kvs = dict_set_all u2 (dict_set_all u1 kvs).
Proof. apply fold_left_app. Qed.

Definition tok_of (p : parser) (a : string) : token := TArg a (parse_optional p a).

Lemma classify_all_app p l1 l2 :
  Forall (fun a => a <> "--") l1 -> classify_all p (l1 ++ l2) = map (tok_of p) l1 ++ classify_all p l2.
Proof.
  induction 1 as [|a l1 Ha _ IH]; [done|]. cbn [app classify_all map].
  destruct (String.eqb_spec a "--"); [done|]. by rewrite IH.
Qed.

(** [int(str(v))] and [str] give back the value of a typed argument. *)
Lemma convert_render t ch v : t <> TBool -> val_ok t ch v -> convert t ch (render_val v) = Ok v.
Proof.
  intros Ht [Hv Hc]. unfold convert. inversion Hv; subst; cbn [render_val]; [| |done].
  - by rewrite Hc.
  - by rewrite py_int_show, Hc.
Qed.

Lemma existsb_false_Forall {A} (f : A -> bool) l : Forall (fun x => f x = false) l -> existsb f l = false.
Proof. induction 1 as [|x l Hx _ IH]; [done|]. simpl. by rewrite Hx, IH. Qed.

Section Render.
Context (p : parser) (Hwf : parser_wf p) (Hr : render_wfb p = true).
Context (n0 : list (string * pyval)) (Hty : ns_typed p n0).


Lemma render_flags : NoDup (map fst (flag_list p)) /\ forall f o, In (f, o) (flag_list p) -> flag_ok f = true.
Proof.
  apply andb_prop in Hr as [[[Hnd Hok]%andb_prop _]%andb_prop _].
  split; [by apply bool_decide_eq_true in Hnd|]. intros f o Hin.
  apply (proj1 (forallb_forall _ _) Hok). apply in_map_iff. by exists (f, o).
Qed.

Lemma render_opt_wf o : In o (p_opts p) -> o_flags o <> [] /\ forall ch, o_act o <> AStore TBool ch.
Proof.
  apply andb_prop in Hr as [[_ Ho]%andb_prop _]. intros Hin.
  apply (proj1 (forallb_forall _ _) Ho), andb_prop in Hin as [Hf Ha].
  split; [by intros Heq; rewrite Heq in Hf|]. intros ch Heq. by rewrite Heq in Ha.
Qed.

Lemma render_pos_wf ps : In ps (p_pos p) -> ps_ty ps <> TBool.
Proof.
  apply andb_prop in Hr as [_ Hp]. intros Hin Heq.
  apply (proj1 (forallb_forall _ _) Hp) in Hin. by rewrite Heq in Hin.
Qed.

Lemma flag_of_opt o f : In o (p_opts p) -> In f (o_flags o) -> In (f, o) (flag_list p).
Proof. intros Ho Hf. apply in_flat_map. exists o. split; [by right|]. apply in_map_iff. by exists f. Qed.

Lemma find_flag_opt o f : In o (p_opts p) -> In f (o_flags o) -> find_flag p f = Some o.
Proof.
  intros Ho Hf. unfold find_flag. rewrite (find_fst_NoDup _ f o); [done| apply render_flags |].
  by apply flag_of_opt.
Qed.

Lemma find_flag_no_eq g o : find_flag p g = Some o -> split_eq g = None.
Proof.
  unfold find_flag. destruct (List.find _ _) as [[g' o']|] eqn:Hf; [intros _|done].
  apply List.find_some in Hf as [Hin Heq]. apply String.eqb_eq in Heq. cbn in Heq. subst g'.
  apply (proj2 render_flags) in Hin. apply andb_prop in Hin as [_ Hs]. by destruct (split_eq g).
Qed.

Lemma flag_head o f : In o (p_opts p) -> In f (o_flags o) ->
  exists r, f = String "-" r /\ f <> "--" /\ split_eq f = None.
Proof.
  intros Ho Hf. pose proof (proj2 render_flags f o (flag_of_opt o f Ho Hf)) as Hok.
  apply andb_prop in Hok as [[Hc Hn]%andb_prop Hs].
  destruct f as [|c r]; [done|]. apply Ascii.eqb_eq in Hc as ->. exists r.
  split; [done|]. split; [by intros Heq; rewrite Heq in Hn|]. by destruct (split_eq _).
Qed.

(** The rendered [flag=value] is the option with an explicit argument. *)
Lemma parse_optional_explicit o f s :
  In o (p_opts p) -> In f (o_flags o) -> parse_optional p (f ++ String "=" s) = COpt o f (Some s).
Proof.
  intros Ho Hf. destruct (flag_head o f Ho Hf) as (r & -> & _ & Hs).
  pose proof (split_eq_app _ s Hs) as Hsp.
  change (String "-" r ++ String "=" s)%string with (String "-" (r ++ String "=" s)) in Hsp |- *.
  unfold parse_optional. change (Ascii.eqb "-" "-") with true. cbn [negb].
  destruct (find_flag p (String "-" (r ++ String "=" s))) as [o'|] eqn:Hff;
    [apply find_flag_no_eq in Hff; congruence|].
  replace (String.eqb (r ++ String "=" s) "") with false by (by destruct r).
  rewrite Hsp. cbv beta iota. by rewrite (find_flag_opt o (String "-" r)).
Qed.

Lemma parse_optional_flag o f : In o (p_opts p) -> In f (o_flags o) -> parse_optional p f = COpt o f None.
Proof.
  intros Ho Hf. destruct (flag_head o f Ho Hf) as (r & -> & _ & _). unfold parse_optional.
  change (Ascii.eqb "-" "-") with true. cbn [negb]. by rewrite (find_flag_opt o).
Qed.

Lemma typed_store o t ch v :
  In o (p_opts p) -> o_act o = AStore t ch -> dict_lookup (o_dest o) n0 = Some v -> val_ok t ch v.
Proof.
  intros Ho Ha Hv. destruct (proj1 (List.Forall_forall _ _) (proj1 Hty) o Ho t ch) as (v' & Hv' & Hok);
    [unfold opt_ty; by rewrite Ha|]. congruence.
Qed.

Lemma render_opt_not_sep o : In o (p_opts p) -> Forall (fun a => a <> "--") (render_opt n0 o).
Proof.
  intros Ho. unfold render_opt. destruct (o_flags o) as [|f fs] eqn:Hf; [done|].
  assert (In f (o_flags o)) as Hin by (rewrite Hf; by left).
  destruct (flag_head o f Ho Hin) as (r & -> & Hns & _).
  repeat case_match; repeat constructor; try done.
  destruct r as [|? [|? ?]]; discriminate.
Qed.

(** An option's rendered argument sets its attribute and nothing else. *)
Lemma parse_loop_render_opt o rest st :
  In o (p_opts p) ->
  parse_loop p (map (tok_of p) (render_opt n0 o) ++ rest) false st =
  parse_loop p rest false (mk_pst (dict_set_all (opt_update n0 o) (ns st)) (pending st) (extras st)).
Proof.
  intros Ho. unfold render_opt, opt_update. destruct (o_flags o) as [|f fs] eqn:Hf; [by destruct st|].
  assert (In f (o_flags o)) as Hin by (rewrite Hf; by left).
  destruct (o_act o) as [t ch| |] eqn:Ha, (dict_lookup (o_dest o) n0) as [v|] eqn:Hv; try by destruct st.
  - cbn [map app]. unfold tok_of. rewrite (parse_optional_explicit o f) by done. cbn [parse_loop].
    unfold opt_tuples, tail_tuples. rewrite Ha. cbn [fst snd fold_res]. unfold take_action. cbn [fst snd].
    rewrite Ha, convert_render; [done| |by apply (typed_store o)].
    intros ->. by apply (proj2 (render_opt_wf o Ho) ch).
  - destruct v as [|[]| | | | | |]; try by destruct st.
    cbn [map app]. unfold tok_of. rewrite (parse_optional_flag o f) by done. cbn [parse_loop].
    unfold opt_tuples, tail_tuples. rewrite Ha. cbn [fst snd fold_res]. unfold take_action. cbn [fst snd].
    by rewrite Ha.
Qed.

Lemma parse_loop_render_opts os rest st :
  incl os (p_opts p) ->
  parse_loop p (map (tok_of p) (flat_map (render_opt n0) os) ++ rest) false st =
  parse_loop p rest false (mk_pst (dict_set_all (flat_map (opt_update n0) os) (ns st)) (pending st) (extras st)).
Proof.
  revert st. induction os as [|o os IH]; intros st Hos; [by destruct st|]. cbn [flat_map].
  rewrite map_app, <- app_assoc, parse_loop_render_opt by (apply Hos; by left).
  rewrite IH by (intros ? ?; apply Hos; by right). by rewrite dict_set_all_app.
Qed.

(** The positionals after ["--"] are taken in order. *)
Lemma parse_loop_render_pos pss n ext b :
  incl pss (p_pos p) ->
  parse_loop p (map (fun ps => TArg (render_val (pos_val n0 ps)) CPos) pss) b (mk_pst n pss ext) =
  Ok (mk_pst (dict_set_all (map (fun ps => (ps_dest ps, pos_val n0 ps)) pss) n) [] ext).
Proof.
  revert n b. induction pss as [|ps pss IH]; intros n b Hpss; [done|].
  assert (In ps (p_pos p)) as Hps by (apply Hpss; by left).
  destruct (proj1 (List.Forall_forall _ _) (proj2 Hty) ps Hps) as (v & Hv & Hok).
  cbn [map parse_loop pending ns extras]. unfold pos_val at 1. rewrite Hv. cbn [default].
  rewrite convert_render; [|by apply render_pos_wf|done]. cbn [dict_set_all].
  unfold pos_val at 2. rewrite Hv. apply IH. intros ? ?; apply Hpss; by right.
Qed.

(** The separator hands the positionals to [parse_loop_render_pos]. *)
Lemma parse_loop_render_sep ps pss n :
  incl (ps :: pss) (p_pos p) ->
  parse_loop p (TSep :: map (fun ps => TArg (render_val (pos_val n0 ps)) CPos) (ps :: pss)) false
    (mk_pst n (ps :: pss) false) =
  Ok (mk_pst (dict_set_all (map (fun ps => (ps_dest ps, pos_val n0 ps)) (ps :: pss)) n) [] false).
Proof. intros Hin. rewrite <- (parse_loop_render_pos (ps :: pss) n false false Hin). reflexivity. Qed.

Lemma render_opt_unamb o :
  In o (p_opts p) -> existsb is_ambiguous (map (tok_of p) (render_opt n0 o)) = false.
Proof.
  intros Ho. unfold render_opt. destruct (o_flags o) as [|f fs] eqn:Hf; [done|].
  assert (In f (o_flags o)) as Hin by (rewrite Hf; by left).
  repeat case_match; try done; cbn [map existsb]; unfold tok_of;
    first [rewrite (parse_optional_explicit o f) by done | rewrite (parse_optional_flag o f) by done]; done.
Qed.

Lemma render_opts_unamb os :
  incl os (p_opts p) -> existsb is_ambiguous (map (tok_of p) (flat_map (render_opt n0) os)) = false.
Proof.
  induction os as [|o os IH]; intros Hos; [done|]. cbn [flat_map].
  rewrite map_app, existsb_app, render_opt_unamb, IH; [done|intros ? ?; apply Hos; by right|apply Hos; by left].
Qed.

Lemma opt_update_spec o :
  opt_update n0 o = [] \/ exists w, opt_update n0 o = [(o_dest o, w)] /\ dict_lookup (o_dest o) n0 = Some w.
Proof. unfold opt_update. repeat case_match; subst; (by left) || (right; eauto). Qed.

Lemma opt_update_keys os k :
  In k (map fst (flat_map (opt_update n0) os)) -> exists o, In o os /\ o_dest o = k /\ opt_update n0 o <> [].
Proof.
  intros ([k' w] & <- & (o & Ho & Hin)%in_flat_map)%in_map_iff. exists o.
  destruct (opt_update_spec o) as [Hn|(w' & Hw & _)]; rewrite ?Hn, ?Hw in Hin |- *; [done|].
  destruct Hin as [[= <- _]|[]]. done.
Qed.

Lemma opt_updates_NoDup os : NoDup (map o_dest os) -> NoDup (map fst (flat_map (opt_update n0) os)).
Proof.
  induction os as [|o os IH]; intros Hnd; [constructor|]. cbn [map] in Hnd.
  apply NoDup_cons in Hnd as [Hnot Hnd]. cbn [flat_map]. rewrite map_app.
  destruct (opt_update_spec o) as [->|(w & -> & _)]; [by apply IH|]. cbn [map app fst].
  apply NoDup_cons. split; [|by apply IH]. intros (o' & Ho' & Heq & _)%list_elem_of_In%opt_update_keys.
  apply Hnot, list_elem_of_In, in_map_iff. by exists o'.
Qed.

(** An option's attribute after the options are read: its rendered value,
    or its default when nothing was rendered. *)
Lemma render_agree_opt o :
  In o (p_opts p) ->
  dict_lookup (o_dest o) (dict_set_all (flat_map (opt_update n0) (p_opts p)) (init_ns p)) =
  dict_lookup (o_dest o) n0.
Proof.
  intros Ho. pose proof (wf_dests p Hwf) as (Hnd & _ & _)%NoDup_app.
  destruct (opt_update_spec o) as [Hn|(w & Hw & Hv)].
  - rewrite dict_set_all_notin.
    2:{ intros (o' & Ho' & Heq & Hne)%opt_update_keys.
        by rewrite (NoDup_map_inj o_dest _ _ _ Hnd Ho' Ho Heq) in Hne. }
    rewrite (init_ns_opt p Hwf o Ho).
    pose proof (proj1 (List.Forall_forall _ _) (wf_opts p Hwf) o Ho) as Hd. cbv beta in Hd.
    pose proof (proj1 (List.Forall_forall _ _) (proj1 Hty) o Ho) as Ht. cbv beta in Ht.
    unfold opt_update, opt_ty in *. destruct (o_flags o) eqn:Hf; [by destruct (render_opt_wf o Ho)|].
    destruct (o_act o).
    + destruct (Ht _ _ eq_refl) as (v & Hv & _). by rewrite Hv in Hn.
    + destruct (Ht _ _ eq_refl) as (v & Hv & [Hb _]). inversion Hb; subst.
      rewrite Hv in Hn |- *. rewrite Hd. by destruct b.
    + done.
  - rewrite (dict_set_all_in _ w); [done|by apply opt_updates_NoDup|].
    apply in_flat_map. exists o. rewrite Hw. split; [done|by left].
Qed.

Lemma render_agree :
  Forall (fun d => dict_lookup d (render_ns p n0) = dict_lookup d n0)
    (map o_dest (p_opts p) ++ map ps_dest (p_pos p)).
Proof.
  pose proof (wf_dests p Hwf) as (_ & _ & Hnd)%NoDup_app. unfold render_ns.
  apply Forall_app. split; apply List.Forall_forall; intros d (x & <- & Hx)%in_map_iff.
  - rewrite dict_set_all_notin; [by apply render_agree_opt|].
    rewrite map_map. intros (ps & Heq & Hps)%in_map_iff. exact (opt_pos_dest p Hwf x ps Hx Hps (eq_sym Heq)).
  - destruct (proj1 (List.Forall_forall _ _) (proj2 Hty) x Hx) as (v & Hv & _).
    rewrite (dict_set_all_in _ (pos_val n0 x)); [unfold pos_val; by rewrite Hv| rewrite map_map; exact Hnd|].
    apply in_map_iff. by exists x.
Qed.

Lemma parse_args_render_ns : parse_args p (render_argv p n0) = Ok (render_ns p n0).
Proof.
  unfold parse_args, render_argv.
  rewrite classify_all_app.
  2:{ apply List.Forall_forall. intros a (o & Ho & Ha)%in_flat_map.
      exact (proj1 (List.Forall_forall _ _) (render_opt_not_sep o Ho) a Ha). }
  rewrite existsb_app, render_opts_unamb by apply incl_refl.
  rewrite parse_loop_render_opts by apply incl_refl. unfold render_ns. cbn [ns pending extras].
  destruct (p_pos p) as [|ps pss] eqn:Hpos; [done|].
  cbn [classify_all]. rewrite String.eqb_refl. cbv beta iota.
  rewrite map_map. cbn [orb existsb is_ambiguous].
  rewrite existsb_false_Forall by (apply Forall_map, List.Forall_forall; done).
  by rewrite parse_loop_render_sep by (rewrite <- Hpos; apply incl_refl).
Qed.

End Render.

(** A decision procedure for [ns_typed]. *)
Definition val_okb (t : argty) (ch : option (list string)) (v : pyval) : bool := typeb t v && in_choices ch v.

Definition ns_typedb (p : parser) (n : list (string * pyval)) : bool :=
  forallb (fun o => match opt_ty o with
                    | Some (t, ch) => if dict_lookup (o_dest o) n is Some v then val_okb t ch v else false
                    | None => true
                    end) (p_opts p) &&
  forallb (fun ps => if dict_lookup (ps_dest ps) n is Some v then val_okb (ps_ty ps) (ps_choices ps) v else false)
    (p_pos p).

Lemma val_okb_sound t ch v : val_okb t ch v = true -> val_ok t ch v.
Proof.
  intros [Ht Hc]%andb_prop. split; [|done]. by apply (reflect_iff _ _ (typeb_reflect _ _)).
Qed.

Lemma ns_typedb_sound p n : ns_typedb p n = true -> ns_typed p n.
Proof.
  intros [Ho Hp]%andb_prop. split; apply List.Forall_forall.
  - intros o Hin t ch Hty. apply (proj1 (forallb_forall _ _) Ho) in Hin. rewrite Hty in Hin.
    destruct (dict_lookup (o_dest o) n) as [v|]; [|done]. exists v. by split; [|apply val_okb_sound].
  - intros ps Hin. apply (proj1 (forallb_forall _ _) Hp) in Hin.
    destruct (dict_lookup (ps_dest ps) n) as [v|]; [|done]. exists v. by split; [|apply val_okb_sound].
Qed.

(** C15: printing and parsing a namespace round-trip.  For a well-formed
    parser whose flags print back, every typed namespace [n0] is read
    back by [parse_args] from its rendering ([flag=value] per option, the
    flag of a [store_true] that is set, then ["--"] and the positionals):
    the namespace parsed agrees with [n0] on every destination. *)
Theorem parse_args_render p n0 :
  parser_wf p -> render_wfb p = true -> ns_typed p n0 ->
  exists n, parse_args p (render_argv p n0) = Ok n /\
    Forall (fun d => dict_lookup d n = dict_lookup d n0) (map o_dest (p_opts p) ++ map ps_dest (p_pos p)).
Proof.
  intros Hwf Hr Hty. exists (render_ns p n0).
  split; [eapply parse_args_render_ns | eapply render_agree]; eassumption.
Qed.

(** [show_json_types.py -d=-3 -- --x=1]: a negative depth and a file
    name that looks like an option. *)
Lemma parse_args_render_witness :
  exists n, parse_args types_parser (render_argv types_parser [("max_depth", PInt (-3)); ("json_file", PStr "--x=1")]) = Ok n /\
    Forall (fun d => dict_lookup d n = dict_lookup d [("max_depth", PInt (-3)); ("json_file", PStr "--x=1")])
      (map o_dest (p_opts types_parser) ++ map ps_dest (p_pos types_parser)).
Proof.
  apply parse_args_render;
    [apply parser_wfb_sound; vm_compute; reflexivity | vm_compute; reflexivity |
     apply ns_typedb_sound; vm_compute; reflexivity].
Defined.
